(** * AWS cost report Lambda: a shallow embedding of [lambda_function.py]

    The handler aggregates Cost Explorer data and Cost Optimization Hub
    recommendations, asks a Bedrock model for a narrative, and posts the
    resulting events to New Relic.  Python values are embedded as follows:

    - [float] is IEEE binary64, i.e. Rocq's primitive [float];
    - [dict]s whose order matters (events, tallies) are association lists;
    - exceptions are an explicit [result] type, and calls to the outside
      world (boto3 clients, HTTPS, [time.sleep]) are recorded in a trace;
    - loops that page through a remote API take fuel.

    Library functions whose exact behaviour is not part of this repository
    ([float] on a string, [json.loads], [sum], [json.dumps] and what is
    rendered with it) are fields of the record [Lib]; the clock and the remote
    services are fields of [Env]; the environment variables are [Config]. *)

From Stdlib Require Import ZArith List String Ascii Bool Lia Floats Sorted.
From Stdlib Require Import DecimalString Permutation.
Import ListNotations.
Set Warnings "-register-all".
Open Scope string_scope.
Open Scope list_scope.
Open Scope Z_scope.

(* ================================================================= *)
(** ** Exceptions and results *)

Inductive exn_class :=
| ValueError | TypeError | KeyError | IndexError | AttributeError
| OverflowError | JSONDecodeError | DataUnavailableException
| ClientError | PlainException.

Record exn := mkexn { exn_kind : exn_class; exn_msg : string }.

Definition exn_class_eqb (a b : exn_class) : bool :=
  match a, b with
  | ValueError, ValueError | TypeError, TypeError | KeyError, KeyError
  | IndexError, IndexError | AttributeError, AttributeError
  | OverflowError, OverflowError | JSONDecodeError, JSONDecodeError
  | DataUnavailableException, DataUnavailableException
  | ClientError, ClientError | PlainException, PlainException => true
  | _, _ => false
  end.

(** [isinstance e cls]: [json.JSONDecodeError] derives from [ValueError];
    every class here derives from [Exception] (written [PlainException]). *)
Definition isinstance (e : exn) (cls : exn_class) : bool :=
  match cls with
  | PlainException => true
  | ValueError =>
      match exn_kind e with ValueError | JSONDecodeError => true | _ => false end
  | _ => exn_class_eqb (exn_kind e) cls
  end.

Inductive result (A : Type) :=
| Ret (a : A)
| Raise (e : exn)
| OutOfFuel.
Arguments Ret {A} a.
Arguments Raise {A} e.
Arguments OutOfFuel {A}.

Definition rbind {A B} (r : result A) (k : A -> result B) : result B :=
  match r with
  | Ret a => k a
  | Raise e => Raise e
  | OutOfFuel => OutOfFuel
  end.

Declare Scope result_scope.
Delimit Scope result_scope with res.
Notation "x <- c ;; k" := (rbind c (fun x => k))
  (at level 61, c at next level, right associativity) : result_scope.

(** What a library function or a remote service answers: a value or an
    exception.  Only the paging loops of this program can run out of fuel. *)
Inductive reply (A : Type) :=
| Ok (a : A)
| Error (e : exn).
Arguments Ok {A} a.
Arguments Error {A} e.

Definition of_reply {A} (r : reply A) : result A :=
  match r with
  | Ok a => Ret a
  | Error e => Raise e
  end.

Fixpoint rmapM {A B} (f : A -> result B) (l : list A) : result (list B) :=
  match l with
  | [] => Ret []
  | x :: xs => rbind (f x) (fun y => rbind (rmapM f xs) (fun ys => Ret (y :: ys)))
  end.

(* ================================================================= *)
(** ** [datetime.date] *)

Module Date.

Record date := mkdate { year : Z; month : Z; day : Z }.

Definition MINYEAR : Z := 1.
Definition MAXYEAR : Z := 9999.
Definition MAXORDINAL : Z := 3652059.

Definition is_leap (y : Z) : bool :=
  (y mod 4 =? 0) && (negb (y mod 100 =? 0) || (y mod 400 =? 0)).

(** [_DAYS_IN_MONTH] and [_DAYS_BEFORE_MONTH], indexed from 1. *)
Definition DAYS_IN_MONTH : list Z :=
  [-1; 31; 28; 31; 30; 31; 30; 31; 31; 30; 31; 30; 31].
Definition DAYS_BEFORE_MONTH : list Z :=
  [-1; 0; 31; 59; 90; 120; 151; 181; 212; 243; 273; 304; 334].

Definition b2z (b : bool) : Z := if b then 1 else 0.

Definition days_in_month (y m : Z) : Z :=
  if (m =? 2) && is_leap y then 29 else nth (Z.to_nat m) DAYS_IN_MONTH 0.

Definition days_before_year (y : Z) : Z :=
  let y := y - 1 in y * 365 + y / 4 - y / 100 + y / 400.

Definition days_before_month (y m : Z) : Z :=
  nth (Z.to_nat m) DAYS_BEFORE_MONTH 0 + b2z ((2 <? m) && is_leap y).

Definition ymd2ord (y m d : Z) : Z :=
  days_before_year y + days_before_month y m + d.

Definition DI400Y : Z := 146097.
Definition DI100Y : Z := 36524.
Definition DI4Y : Z := 1461.

Definition ord2ymd (n : Z) : Z * Z * Z :=
  let n := n - 1 in
  let n400 := n / DI400Y in
  let n := n mod DI400Y in
  let y := n400 * 400 + 1 in
  let n100 := n / DI100Y in
  let n := n mod DI100Y in
  let n4 := n / DI4Y in
  let n := n mod DI4Y in
  let n1 := n / 365 in
  let n := n mod 365 in
  let y := y + n100 * 100 + n4 * 4 + n1 in
  if (n1 =? 4) || (n100 =? 4) then (y - 1, 12, 31)
  else
    let leapyear := (n1 =? 3) && (negb (n4 =? 24) || (n100 =? 3)) in
    let m := Z.shiftr (n + 50) 5 in
    let preceding := nth (Z.to_nat m) DAYS_BEFORE_MONTH 0
                     + b2z ((2 <? m) && leapyear) in
    let '(m, preceding) :=
      if n <? preceding
      then (m - 1,
            preceding - (nth (Z.to_nat (m - 1)) DAYS_IN_MONTH 0
                         + b2z ((m - 1 =? 2) && leapyear)))
      else (m, preceding) in
    (y, m, n - preceding + 1).

(** The checks of [date.__new__]. *)
Definition valid_fields (y m d : Z) : bool :=
  (MINYEAR <=? y) && (y <=? MAXYEAR) && (1 <=? m) && (m <=? 12)
  && (1 <=? d) && (d <=? days_in_month y m).

Definition valid (x : date) : bool := valid_fields (year x) (month x) (day x).

Definition new (y m d : Z) : result date :=
  if valid_fields y m d then Ret (mkdate y m d)
  else Raise (mkexn ValueError "date field out of range").

Definition toordinal (x : date) : Z := ymd2ord (year x) (month x) (day x).

Definition fromordinal (n : Z) : date :=
  let '(y, m, d) := ord2ymd n in mkdate y m d.

(** [x.replace(day=d)]. *)
Definition replace_day (x : date) (d : Z) : result date :=
  new (year x) (month x) d.

(** [x - timedelta(days=k)]. *)
Definition sub_days (x : date) (k : Z) : result date :=
  let o := toordinal x - k in
  if (0 <? o) && (o <=? MAXORDINAL) then Ret (fromordinal o)
  else Raise (mkexn OverflowError "result out of range").

(** [x + timedelta(days=k)]. *)
Definition add_days (x : date) (k : Z) : result date := sub_days x (- k).

Definition digit (n : Z) : ascii := ascii_of_nat (48 + Z.to_nat (n mod 10)).

(** [x.isoformat()], i.e. ["%04d-%02d-%02d"]. *)
Definition isoformat (x : date) : string :=
  let y := year x in let m := month x in let d := day x in
  String (digit (y / 1000)) (String (digit (y / 100)) (String (digit (y / 10))
  (String (digit y) (String "-" (String (digit (m / 10)) (String (digit m)
  (String "-" (String (digit (d / 10)) (String (digit d) EmptyString))))))))).

End Date.
Import Date.

(** Lines 61-72 of [run_cost_explorer_workflow]: the reporting window
    [(start_date, end_date_for_api)]. *)
Definition reporting_window (today : date) : result (date * date) :=
  let is_first_of_month := day today =? 1 in
  if is_first_of_month then
    (end_date_for_api <- replace_day today 1 ;;
     last_month_end <- sub_days end_date_for_api 1 ;;
     start_date <- replace_day last_month_end 1 ;;
     Ret (start_date, end_date_for_api))%res
  else
    (start_date <- replace_day today 1 ;;
     Ret (start_date, today))%res.

(* ================================================================= *)
(** ** Python values, dictionaries and strings *)

Inductive pyval :=
| VNone
| VBool (b : bool)
| VInt (z : Z)
| VFloat (f : float)
| VStr (s : string)
| VList (l : list pyval)
| VDict (d : list (string * pyval)).

(** A [dict] with string keys, in insertion order. *)
Definition dict (V : Type) := list (string * V).

Fixpoint dict_get {V} (d : dict V) (k : string) : option V :=
  match d with
  | [] => None
  | (k', v) :: r => if String.eqb k' k then Some v else dict_get r k
  end.

(** [d[k] = v]: an existing key keeps its position. *)
Fixpoint dict_set {V} (d : dict V) (k : string) (v : V) : dict V :=
  match d with
  | [] => [(k, v)]
  | (k', v') :: r =>
      if String.eqb k' k then (k', v) :: r else (k', v') :: dict_set r k v
  end.

(** [d.update(kvs)]. *)
Definition dict_update {V} (d : dict V) (kvs : list (string * V)) : dict V :=
  fold_left (fun d kv => dict_set d (fst kv) (snd kv)) kvs d.

Definition event := dict pyval.

(** Truth value of [os.environ.get(..)] results and page tokens. *)
Definition truthy (o : option string) : bool :=
  match o with
  | Some s => negb (String.eqb s "")
  | None => false
  end.

(** [s.find(c)] and [s.rfind(c)] for a one-character needle. *)
Fixpoint find_from (c : ascii) (s : string) (i : Z) : Z :=
  match s with
  | EmptyString => -1
  | String a r => if Ascii.eqb a c then i else find_from c r (i + 1)
  end.
Definition py_find (s : string) (c : ascii) : Z := find_from c s 0.

Fixpoint rfind_from (c : ascii) (s : string) (i last : Z) : Z :=
  match s with
  | EmptyString => last
  | String a r => rfind_from c r (i + 1) (if Ascii.eqb a c then i else last)
  end.
Definition py_rfind (s : string) (c : ascii) : Z := rfind_from c s 0 (-1).

(** [s[a:b]] with Python's treatment of negative and oversized bounds. *)
Definition slice_bound (n i : Z) : Z :=
  if i <? 0 then Z.max 0 (i + n) else Z.min i n.
Definition py_slice (s : string) (a b : Z) : string :=
  let n := Z.of_nat (String.length s) in
  let a' := slice_bound n a in
  let b' := slice_bound n b in
  if a' <? b' then substring (Z.to_nat a') (Z.to_nat (b' - a')) s else "".

(** ASCII case mapping, as [str.lower], [str.title] act on ASCII text. *)
Definition is_upper (c : ascii) : bool :=
  let n := nat_of_ascii c in (65 <=? n)%nat && (n <=? 90)%nat.
Definition is_lower (c : ascii) : bool :=
  let n := nat_of_ascii c in (97 <=? n)%nat && (n <=? 122)%nat.
Definition lower_char (c : ascii) : ascii :=
  if is_upper c then ascii_of_nat (nat_of_ascii c + 32) else c.
Definition upper_char (c : ascii) : ascii :=
  if is_lower c then ascii_of_nat (nat_of_ascii c - 32) else c.

Fixpoint str_map (f : ascii -> ascii) (s : string) : string :=
  match s with
  | EmptyString => EmptyString
  | String a r => String (f a) (str_map f r)
  end.
Definition py_lower : string -> string := str_map lower_char.

Fixpoint title_from (prev_cased : bool) (s : string) : string :=
  match s with
  | EmptyString => EmptyString
  | String a r =>
      if is_upper a || is_lower a
      then String (if prev_cased then lower_char a else upper_char a)
                  (title_from true r)
      else String a (title_from false r)
  end.
Definition py_title : string -> string := title_from false.

(** [s.split(sep)]: never empty. *)
Fixpoint py_split (sep : ascii) (s : string) : list string :=
  match s with
  | EmptyString => [EmptyString]
  | String a r =>
      if Ascii.eqb a sep then EmptyString :: py_split sep r
      else match py_split sep r with
           | [] => [String a EmptyString]
           | h :: t => String a h :: t
           end
  end.

(** [s.replace(a, b)] for one-character [a] and [b]. *)
Definition py_replace (a b : ascii) : string -> string :=
  str_map (fun c => if Ascii.eqb c a then b else c).

Definition to_camel_case (snake_str : string) : string :=
  if String.eqb snake_str "" then ""
  else match py_split "_" (py_lower snake_str) with
       | [] => ""
       | c0 :: rest => (c0 ++ String.concat "" (map py_title rest))%string
       end.

(** [float(v)].  An [int] is rounded to nearest-even and overflows above the
    binary64 range; parsing a [str] is the library's ([float_of_str]). *)
Definition float_of_Z (z : Z) : result float :=
  let f := SF2Prim (binary_normalize prec emax z 0 false) in
  if is_infinity f
  then Raise (mkexn OverflowError "int too large to convert to float")
  else Ret f.

Definition py_float (float_of_str : string -> option float) (v : pyval)
  : result float :=
  match v with
  | VFloat f => Ret f
  | VInt z => float_of_Z z
  | VBool b => Ret (if b then 1%float else 0%float)
  | VStr s =>
      match float_of_str s with
      | Some f => Ret f
      | None => Raise (mkexn ValueError "could not convert string to float")
      end
  | VNone | VList _ | VDict _ =>
      Raise (mkexn TypeError "float() argument must be a string or a real number")
  end.

(** [v.get(k, default)], [v[0]] and [len] on dynamically typed values. *)
Definition py_get (v : pyval) (k : string) (default : pyval) : result pyval :=
  match v with
  | VDict d => Ret (match dict_get d k with Some x => x | None => default end)
  | _ => Raise (mkexn AttributeError "object has no attribute 'get'")
  end.

Definition py_index0 (v : pyval) : result pyval :=
  match v with
  | VList (x :: _) => Ret x
  | VList [] => Raise (mkexn IndexError "list index out of range")
  | VStr (String a _) => Ret (VStr (String a EmptyString))
  | VStr EmptyString => Raise (mkexn IndexError "string index out of range")
  | VDict _ => Raise (mkexn KeyError "0")
  | _ => Raise (mkexn TypeError "object is not subscriptable")
  end.

(** [round(x)] on a float: half-to-even, no result for NaN and infinities. *)
Definition round_half_even (m : positive) (e : Z) : Z :=
  if 0 <=? e then Zpos m * 2 ^ e
  else
    let d := 2 ^ (- e) in
    let q := Zpos m / d in
    let r := Zpos m mod d in
    if 2 * r <? d then q
    else if d <? 2 * r then q + 1
    else if Z.even q then q else q + 1.

Definition py_round (x : float) : result Z :=
  match Prim2SF x with
  | S754_zero _ => Ret 0
  | S754_nan => Raise (mkexn ValueError "cannot convert float NaN to integer")
  | S754_infinity _ =>
      Raise (mkexn OverflowError "cannot convert float infinity to integer")
  | S754_finite s m e =>
      let r := round_half_even m e in Ret (if s then - r else r)
  end.

(** [round(x * n)] for a float [x] and an int [n]. *)
Definition round_times (x : float) (n : Z) : result Z :=
  (fn <- float_of_Z n ;; py_round (x * fn)%float)%res.

(* ================================================================= *)
(** ** Shapes of the remote services' answers

    A field is [None] when the key is absent from the answer. *)

Record Metric := mkMetric { Amount : option string; Unit : option string }.

Record CostGroup := mkCostGroup {
  Keys : option (list string);
  Metrics : option (dict Metric) }.

Record ResultByTime := mkResultByTime { Groups : option (list CostGroup) }.

Record CostAndUsageRequest := mkCostAndUsageRequest {
  TimePeriodStart : string;
  TimePeriodEnd : string;
  Granularity : string;
  RequestMetrics : list string;
  GroupBy : list (string * string);
  RequestNextPageToken : option string }.

Record CostAndUsageResponse := mkCostAndUsageResponse {
  ResultsByTime : option (list ResultByTime);
  NextPageToken : option string }.

Record ForecastResult := mkForecastResult { MeanValue : option string }.

Record ForecastResponse := mkForecastResponse {
  ForecastResultsByTime : option (list ForecastResult) }.

Record Recommendation := mkRecommendation {
  estimatedMonthlySavings : option pyval;
  estimatedSavingsPercentage : option pyval;
  currentResourceType : option string;
  region : option string;
  recommendationId : option string;
  resourceId : option string;
  resourceArn : option string;
  currentResourceSummary : option string;
  recommendedResourceSummary : option string;
  actionType : option string;
  implementationEffort : option string;
  source : option string }.

Record RecommendationsResponse := mkRecommendationsResponse {
  items : option (list Recommendation);
  nextToken : option string }.

(** What the two workflows hand to the prompt templates. *)
Record driver := mkdriver {
  driver_group : list string;
  cost_usd : float;
  cost_jpy : Z }.

Record cost_bedrock_input := mk_cost_bedrock_input {
  cbi_aws_account_id : string;
  cbi_period : string * string;
  total_unblended_usd : float;
  monthly_forecast_usd : float;
  total_unblended_jpy : Z;
  monthly_forecast_jpy : Z;
  top_cost_drivers_of : list driver }.

Record rec_summary_item := mk_rec_summary_item {
  rsi_resourceType : string;
  rsi_action : string;
  estimatedSavingsUsd : float;
  estimatedSavingsJpy : Z;
  rsi_implementationEffort : string }.

Record rec_bedrock_input := mk_rec_bedrock_input {
  totalRecommendations : Z;
  totalEstimatedSavingsUsd : float;
  totalEstimatedSavingsJpy : Z;
  allRecommendationsSummary : list rec_summary_item }.

(* ================================================================= *)
(** ** Configuration, library and environment *)

(** The module-level globals read from [os.environ]. *)
Record Config := mkConfig {
  NEW_RELIC_LICENSE_KEY : option string;
  NEW_RELIC_ACCOUNT_ID : option string;
  TARGET_REGION : string;
  GROUP_BY_DIMENSION_KEY : string;
  GROUP_BY_TAG_KEY : option string;
  BEDROCK_MODEL_ID : string;
  JPY_EXCHANGE_RATE : Z }.

(** Library functions used as black boxes.  [float_of_str s = None] stands
    for [ValueError]; [py_sum] is the builtin [sum] on a non-empty list of
    floats (plain left-to-right addition before Python 3.12, compensated
    since); the two prompt functions are the f-string templates around
    [json.dumps]; [encode_events] is [gzip.compress(json.dumps(..))]. *)
Record Lib := mkLib {
  float_of_str : string -> option float;
  py_sum : list float -> float;
  json_loads : string -> reply pyval;
  json_dumps_counts : dict Z -> string;
  cost_prompt : bool -> cost_bedrock_input -> string;
  rec_prompt : rec_bedrock_input -> string;
  encode_events : list event -> string }.

Inductive http_outcome :=
| HttpStatus (status : Z)
| HttpError (e : exn).

(** The outside world: the clock, the three boto3 clients, the HTTPS
    endpoint (one outcome per attempt) and [random.uniform(0, 1)]. *)
Record Env := mkEnv {
  utcnow_date : date;
  get_cost_and_usage : CostAndUsageRequest -> reply CostAndUsageResponse;
  get_cost_forecast : string -> string -> reply ForecastResponse;
  list_recommendations :
    string -> option string -> reply RecommendationsResponse;
  invoke_model : string -> Z -> string -> reply string;
  https_post : nat -> http_outcome;
  random_uniform : nat -> float }.

(** Calls that leave the process, in the order they are made. *)
Inductive call :=
| CallGetCostAndUsage (req : CostAndUsageRequest)
| CallGetCostForecast (start_ end_ : string)
| CallListRecommendations (account : string) (token : option string)
| CallInvokeModel (model : string) (max_tokens : Z) (prompt : string)
| CallPost (endpoint url payload : string)
| CallClose
| CallSleep (base : Z) (jitter : float).

(** A computation: the calls it made and how it ended. *)
Definition M (A : Type) : Type := (list call * result A)%type.

Definition mret {A} (a : A) : M A := ([], Ret a).
Definition lift {A} (r : result A) : M A := ([], r).
Definition do_call {A} (c : call) (r : result A) : M A := ([c], r).

Definition mbind {A B} (m : M A) (k : A -> M B) : M B :=
  match m with
  | (t, Ret a) => let '(t', r) := k a in (t ++ t', r)
  | (t, Raise e) => (t, Raise e)
  | (t, OutOfFuel) => (t, OutOfFuel)
  end.

Declare Scope io_scope.
Delimit Scope io_scope with io.
Notation "x <- c ;; k" := (mbind c (fun x => k))
  (at level 61, c at next level, right associativity) : io_scope.
Notation "' p <- c ;; k" := (mbind c (fun x => let 'p := x in k))
  (at level 61, p pattern, c at next level, right associativity) : io_scope.

(** [try: body / except <classes> as e: handler e]. *)
Definition try_except {A} (body : M A) (catches : exn -> bool)
    (handler : exn -> M A) : M A :=
  match body with
  | (t, Raise e) =>
      if catches e then let '(t', r) := handler e in (t ++ t', r)
      else (t, Raise e)
  | other => other
  end.

Definition trace {A} (m : M A) : list call := fst m.
Definition outcome {A} (m : M A) : result A := snd m.

(** [sorted(xs, key=.., reverse=True)] on keyed elements: the stable
    descending order.  Whenever [<] orders the keys totally (no NaN) every
    stable sort, [list.sort] included, returns this list. *)
Fixpoint insert_desc {A} (x : float * A) (l : list (float * A))
  : list (float * A) :=
  match l with
  | [] => [x]
  | y :: r => if (fst x <? fst y)%float then y :: insert_desc x r else x :: l
  end.

Definition sorted_desc {A} (l : list (float * A)) : list (float * A) :=
  fold_right insert_desc [] l.

Definition opt_default {A} (o : option A) (default : A) : A :=
  match o with Some a => a | None => default end.

Definition dq : string := String (ascii_of_nat 34) EmptyString.

(* ================================================================= *)
(** ** The program *)

Section Program.

Variable L : Lib.
Variable C : Config.
Variable E : Env.

Definition pfloat : pyval -> result float := py_float (float_of_str L).

(** *** Workflow 1: cost report *)

Definition group_by_definitions : list (string * string) :=
  (if negb (String.eqb (GROUP_BY_DIMENSION_KEY C) "")
   then [("DIMENSION", GROUP_BY_DIMENSION_KEY C)] else [])
  ++ [("DIMENSION", "REGION")]
  ++ (if truthy (GROUP_BY_TAG_KEY C)
      then [("TAG", opt_default (GROUP_BY_TAG_KEY C) "")] else []).

(** Lines 76-90: the pagination loop over [get_cost_and_usage]. *)
Fixpoint fetch_cost_groups (fuel : nat) (start_ end_ : string)
    (next_page_token : option string) (all_groups : list CostGroup)
  : M (list CostGroup) :=
  match fuel with
  | O => lift OutOfFuel
  | S fuel' =>
      let params :=
        mkCostAndUsageRequest start_ end_ "MONTHLY" ["UnblendedCost"]
          group_by_definitions
          (if truthy next_page_token then next_page_token else None) in
      (response <- do_call (CallGetCostAndUsage params)
                           (of_reply (get_cost_and_usage E params)) ;;
       all_groups' <- lift
         match ResultsByTime response with
         | Some (r0 :: _) =>
             match Groups r0 with
             | Some gs => Ret (all_groups ++ gs)
             | None => Raise (mkexn KeyError "'Groups'")
             end
         | _ => Ret all_groups
         end ;;
       let next_page_token := NextPageToken response in
       if truthy next_page_token
       then fetch_cost_groups fuel' start_ end_ next_page_token all_groups'
       else mret all_groups')%io
  end.

(** Lines 97-108: the forecast, with [DataUnavailableException] swallowed. *)
Definition fetch_forecast (today : date) : M (list ForecastResult) :=
  try_except
    (let last_day_of_month := days_in_month (year today) (month today) in
     forecast_end_date <- lift (replace_day today last_day_of_month) ;;
     end_ <- lift (add_days forecast_end_date 1) ;;
     forecast_response <-
       do_call (CallGetCostForecast (isoformat today) (isoformat end_))
               (of_reply (get_cost_forecast E (isoformat today)
                                            (isoformat end_))) ;;
     mret (opt_default (ForecastResultsByTime forecast_response) []))%io
    (fun e => isinstance e DataUnavailableException)
    (fun _ => mret []).

(** [g['Metrics']['UnblendedCost']['Amount']] (line 116). *)
Definition strict_amount (g : CostGroup) : result float :=
  match Metrics g with
  | None => Raise (mkexn KeyError "'Metrics'")
  | Some ms =>
      match dict_get ms "UnblendedCost" with
      | None => Raise (mkexn KeyError "'UnblendedCost'")
      | Some m =>
          match Amount m with
          | None => Raise (mkexn KeyError "'Amount'")
          | Some a => pfloat (VStr a)
          end
      end
  end.

(** [group.get('Metrics', {}).get('UnblendedCost', {})] (lines 119, 146). *)
Definition cost_metrics_of (g : CostGroup) : Metric :=
  opt_default (dict_get (opt_default (Metrics g) []) "UnblendedCost")
              (mkMetric None None).

(** [float(cost_metrics.get('Amount', 0))]. *)
Definition lenient_amount (g : CostGroup) : result float :=
  match Amount (cost_metrics_of g) with
  | Some a => pfloat (VStr a)
  | None => pfloat (VInt 0)
  end.

(** Lines 118-136: one detail record. *)
Definition cost_detail_event (aws_account_id : string)
    (time_period : string * string) (group : CostGroup) : result event :=
  let cost_metrics := cost_metrics_of group in
  (amount <- lenient_amount group ;;
   let event_detail : event :=
     [ ("eventType", VStr "AwsCostReport"); ("recordType", VStr "detail");
       ("aws.accountId", VStr aws_account_id);
       ("aws.lambdaRegion", VStr (TARGET_REGION C));
       ("period.start", VStr (fst time_period));
       ("period.end", VStr (snd time_period));
       ("cost.unblended", VFloat amount);
       ("cost.currency", VStr (opt_default (Unit cost_metrics) "USD")) ] in
   let keys := opt_default (Keys group) [] in
   let key_index := 0%nat in
   let '(event_detail, key_index) :=
     if negb (String.eqb (GROUP_BY_DIMENSION_KEY C) "")
        && (key_index <? List.length keys)%nat
     then (dict_set event_detail
             ("aws." ++ to_camel_case (GROUP_BY_DIMENSION_KEY C))%string
             (VStr (nth key_index keys "")),
           S key_index)
     else (event_detail, key_index) in
   let '(event_detail, key_index) :=
     if (key_index <? List.length keys)%nat
     then (dict_set event_detail "aws.region" (VStr (nth key_index keys "")),
           S key_index)
     else (event_detail, key_index) in
   let event_detail :=
     if truthy (GROUP_BY_TAG_KEY C) && (key_index <? List.length keys)%nat
     then dict_set event_detail
            ("aws.tag." ++ py_replace ":" "_"
               (py_replace "$" "_" (opt_default (GROUP_BY_TAG_KEY C) "")))%string
            (VStr (nth key_index keys ""))
     else event_detail in
   Ret event_detail)%res.

(** Line 146: [sorted(all_groups, key=.., reverse=True)[:5]]. *)
Definition top_5_groups (all_groups : list CostGroup)
  : result (list (float * CostGroup)) :=
  (keyed <- rmapM (fun g => k <- lenient_amount g ;; Ret (k, g)) all_groups ;;
   Ret (firstn 5 (sorted_desc keyed)))%res.

(** Lines 147-151. *)
Definition top_cost_drivers (all_groups : list CostGroup)
  : result (list driver) :=
  (top <- top_5_groups all_groups ;;
   rmapM (fun kg : float * CostGroup =>
            let group := snd kg in
            cost <- lenient_amount group ;;
            jpy <- round_times cost (JPY_EXCHANGE_RATE C) ;;
            Ret (mkdriver (opt_default (Keys group) []) cost jpy))
         top)%res.

(** *** Narrative enrichment (lines 201-212 and 305-315, the same code) *)

(** [response_body.get('content', [{}])[0].get('text', '{}')], which must be
    a [str] for [find] to exist. *)
Definition response_text (response_body : pyval) : result string :=
  (content <- py_get response_body "content" (VList [VDict []]) ;;
   block <- py_index0 content ;;
   raw <- py_get block "text" (VStr "{}") ;;
   match raw with
   | VStr s => Ret s
   | _ => Raise (mkexn AttributeError "object has no attribute 'find'")
   end)%res.

(** [raw_text[raw_text.find("{"):raw_text.rfind("}") + 1]]. *)
Definition extract_json (raw_text : string) : string :=
  py_slice raw_text (py_find raw_text "{") (py_rfind raw_text "}" + 1).

(** [analysis_result.items()]. *)
Definition items_of (analysis_result : pyval) : result (dict pyval) :=
  match analysis_result with
  | VDict kvs => Ret kvs
  | _ => Raise (mkexn AttributeError "object has no attribute 'items'")
  end.

(** The body of the [try]: call the model, dig the text out of the answer,
    parse what lies between the first opening and the last closing brace. *)
Definition bedrock_analysis (max_tokens : Z) (prompt : string)
  : M (dict pyval) :=
  (body <- do_call (CallInvokeModel (BEDROCK_MODEL_ID C) max_tokens prompt)
                   (of_reply (invoke_model E (BEDROCK_MODEL_ID C) max_tokens
                                           prompt)) ;;
   response_body <- lift (of_reply (json_loads L body)) ;;
   raw_text <- lift (response_text response_body) ;;
   analysis_result <- lift (of_reply (json_loads L (extract_json raw_text))) ;;
   lift (items_of analysis_result))%io.

Definition analysis_fields (kvs : dict pyval) : dict pyval :=
  map (fun kv => (("analysis." ++ fst kv)%string, snd kv)) kvs.

Definition enrich (summary_event : event) (max_tokens : Z) (prompt : string)
  : M event :=
  try_except
    (kvs <- bedrock_analysis max_tokens prompt ;;
     mret (dict_update summary_event (analysis_fields kvs)))%io
    (fun e => isinstance e PlainException)
    (fun e => mret (dict_set summary_event "analysis.error" (VStr (exn_msg e)))).

(** *** Workflow 1, assembled (lines 49-215) *)

(** Line 138: [float(forecast_data[0].get('MeanValue', 0.0))] or [0.0]. *)
Definition forecast_amount_of (forecast_data : list ForecastResult)
  : result float :=
  match forecast_data with
  | f :: _ => match MeanValue f with
              | Some v => pfloat (VStr v)
              | None => pfloat (VFloat 0)
              end
  | [] => Ret 0%float
  end.

(** Lines 139-144: the summary record before enrichment. *)
Definition cost_summary_event (aws_account_id : string)
    (time_period : string * string) (total_cost forecast_amount : float)
  : event :=
  [ ("eventType", VStr "AwsCostReport"); ("recordType", VStr "summary");
    ("aws.accountId", VStr aws_account_id);
    ("aws.lambdaRegion", VStr (TARGET_REGION C));
    ("period.start", VStr (fst time_period));
    ("period.end", VStr (snd time_period));
    ("cost.totalUnblended", VFloat total_cost);
    ("cost.monthlyForecast", VFloat forecast_amount) ].

(** Lines 110-215, once the groups and the forecast are in. *)
Definition cost_report (aws_account_id : string) (is_first_of_month : bool)
    (start_ end_ : string) (all_groups : list CostGroup)
    (forecast_data : list ForecastResult) : M (list event) :=
  let results_by_time :=
    match all_groups with
    | [] => []
    | _ => [((start_, end_), all_groups)]
    end in
  match results_by_time, forecast_data with
  | [], [] => mret []
  | _, _ =>
    (month_result <- lift
       match results_by_time with
       | r :: _ => Ret r
       | [] => Raise (mkexn IndexError "list index out of range")
       end ;;
     let time_period := fst month_result in
     amounts <- lift (rmapM strict_amount (snd month_result)) ;;
     let total_cost := py_sum L amounts in
     events <- lift (rmapM (cost_detail_event aws_account_id time_period)
                           (snd month_result)) ;;
     forecast_amount <- lift (forecast_amount_of forecast_data) ;;
     let summary_event :=
       cost_summary_event aws_account_id time_period total_cost
                          forecast_amount in
     drivers <- lift (top_cost_drivers all_groups) ;;
     total_jpy <- lift (round_times total_cost (JPY_EXCHANGE_RATE C)) ;;
     forecast_jpy <- lift (round_times forecast_amount (JPY_EXCHANGE_RATE C)) ;;
     let bedrock_input_data :=
       mk_cost_bedrock_input aws_account_id time_period total_cost
         forecast_amount total_jpy forecast_jpy drivers in
     summary_event <- enrich summary_event 1024
                        (cost_prompt L is_first_of_month bedrock_input_data) ;;
     mret (events ++ [summary_event]))%io
  end.

Definition run_cost_explorer_workflow (fuel : nat) (aws_account_id : string)
  : M (list event) :=
  let today := utcnow_date E in
  let is_first_of_month := day today =? 1 in
  (window <- lift (reporting_window today) ;;
   let start_ := isoformat (fst window) in
   let end_ := isoformat (snd window) in
   all_groups <- fetch_cost_groups fuel start_ end_ None [] ;;
   forecast_data <- (if negb is_first_of_month then fetch_forecast today
                     else mret []) ;;
   cost_report aws_account_id is_first_of_month start_ end_ all_groups
               forecast_data)%io.

(** *** Workflow 2: recommendations (lines 221-318) *)

Fixpoint fetch_recommendations (fuel : nat) (aws_account_id : string)
    (next_token : option string) (all_recommendations : list Recommendation)
  : M (list Recommendation) :=
  match fuel with
  | O => lift OutOfFuel
  | S fuel' =>
      let token := if truthy next_token then next_token else None in
      (response <- do_call (CallListRecommendations aws_account_id token)
                           (of_reply (list_recommendations E aws_account_id
                                                           token)) ;;
       let all_recommendations' :=
         all_recommendations ++ opt_default (items response) [] in
       let next_token := nextToken response in
       if truthy next_token
       then fetch_recommendations fuel' aws_account_id next_token
                                  all_recommendations'
       else mret all_recommendations')%io
  end.

(** The variables the loop of lines 240-264 updates. *)
Record tally := mkTally {
  tally_events : list event;
  total_savings : float;
  recommendations_by_type : dict Z;
  bedrock_recommendation_summary_list : list rec_summary_item }.

(** One step inside the [try] of the loop: on [ValueError] or [TypeError]
    the iteration stops with whatever has been updated so far ([now]). *)
Definition or_skip {A} (now : tally) (r : result A) (k : A -> result tally)
  : result tally :=
  match r with
  | Ret a => k a
  | Raise e =>
      if isinstance e ValueError || isinstance e TypeError then Ret now
      else Raise e
  | OutOfFuel => OutOfFuel
  end.

Definition process_recommendation (aws_account_id : string) (t : tally)
    (rec : Recommendation) : result tally :=
  or_skip t (pfloat (opt_default (estimatedMonthlySavings rec) (VInt 0)))
  (fun estimated_savings_usd =>
   let t1 := mkTally (tally_events t)
               (total_savings t + estimated_savings_usd)%float
               (recommendations_by_type t)
               (bedrock_recommendation_summary_list t) in
   let resource_type := opt_default (currentResourceType rec) "Unknown" in
   let t2 := mkTally (tally_events t1) (total_savings t1)
               (dict_set (recommendations_by_type t1) resource_type
                  (opt_default (dict_get (recommendations_by_type t1)
                                         resource_type) 0 + 1))
               (bedrock_recommendation_summary_list t1) in
   or_skip t2 (pfloat (opt_default (estimatedSavingsPercentage rec) (VInt 0)))
   (fun percentage =>
    let detail_event : event :=
      [ ("eventType", VStr "AwsOptimizationReport");
        ("recordType", VStr "detail");
        ("aws.accountId", VStr aws_account_id);
        ("aws.region", VStr (opt_default (region rec) ""));
        ("aws.recommendationId", VStr (opt_default (recommendationId rec) ""));
        ("aws.currentResourceType", VStr resource_type);
        ("aws.currentResourceId", VStr (opt_default (resourceId rec) ""));
        ("aws.currentResourceArn", VStr (opt_default (resourceArn rec) ""));
        ("aws.currentResourceSummary",
           VStr (opt_default (currentResourceSummary rec) ""));
        ("aws.recommendedResourceSummary",
           VStr (opt_default (recommendedResourceSummary rec) ""));
        ("aws.implementationActionType", VStr (opt_default (actionType rec) ""));
        ("aws.implementationEffort",
           VStr (opt_default (implementationEffort rec) ""));
        ("aws.analysisSource", VStr (opt_default (source rec) ""));
        ("cost.estimatedMonthlySavings", VFloat estimated_savings_usd);
        ("cost.estimatedSavingsPercentage", VFloat percentage) ] in
    let t3 := mkTally (tally_events t2 ++ [detail_event]) (total_savings t2)
                (recommendations_by_type t2)
                (bedrock_recommendation_summary_list t2) in
    or_skip t3 (round_times estimated_savings_usd (JPY_EXCHANGE_RATE C))
    (fun jpy =>
     Ret (mkTally (tally_events t3) (total_savings t3)
            (recommendations_by_type t3)
            (bedrock_recommendation_summary_list t3
             ++ [mk_rec_summary_item resource_type
                   (opt_default (actionType rec) "") estimated_savings_usd jpy
                   (opt_default (implementationEffort rec) "")]))))).

Fixpoint tally_all (aws_account_id : string) (t : tally)
    (recs : list Recommendation) : result tally :=
  match recs with
  | [] => Ret t
  | rec :: rest =>
      (t' <- process_recommendation aws_account_id t rec ;;
       tally_all aws_account_id t' rest)%res
  end.

(** Lines 266-273: the summary record before enrichment;
    [total_count] is [len(all_recommendations)]. *)
Definition recommendation_summary_event (aws_account_id : string)
    (total_count : Z) (t : tally) (total_savings_jpy : Z) : event :=
  [ ("eventType", VStr "AwsOptimizationReport");
    ("recordType", VStr "summary");
    ("aws.accountId", VStr aws_account_id);
    ("aws.lambdaRegion", VStr (TARGET_REGION C));
    ("recommendation.totalCount", VInt total_count);
    ("cost.totalEstimatedSavings", VFloat (total_savings t));
    ("cost.totalEstimatedSavingsJpy", VInt total_savings_jpy);
    ("recommendation.countByType",
       VStr (json_dumps_counts L (recommendations_by_type t))) ].

(** Lines 233-318, once the recommendations are in. *)
Definition recommendation_report (aws_account_id : string)
    (all_recommendations : list Recommendation) : M (list event) :=
  match all_recommendations with
  | [] => mret []
  | _ =>
    (t <- lift (tally_all aws_account_id (mkTally [] 0%float [] [])
                          all_recommendations) ;;
     total_savings_jpy <- lift (round_times (total_savings t)
                                            (JPY_EXCHANGE_RATE C)) ;;
     let total_count := Z.of_nat (List.length all_recommendations) in
     let summary_event :=
       recommendation_summary_event aws_account_id total_count t
                                    total_savings_jpy in
     let bedrock_input_data :=
       mk_rec_bedrock_input total_count (total_savings t) total_savings_jpy
         (bedrock_recommendation_summary_list t) in
     summary_event <- enrich summary_event 4096
                        (rec_prompt L bedrock_input_data) ;;
     mret (tally_events t ++ [summary_event]))%io
  end.

Definition run_recommendation_workflow (fuel : nat) (aws_account_id : string)
  : M (list event) :=
  (all_recommendations <- fetch_recommendations fuel aws_account_id None [] ;;
   recommendation_report aws_account_id all_recommendations)%io.

(** *** Delivery (lines 323-343) *)

Definition delivery_failure : exn :=
  mkexn PlainException "Failed to send events to New Relic after all retries.".

Definition status_ok (status : Z) : bool := (200 <=? status) && (status <? 300).

(** [for attempt in range(3)], entered at [attempt] with [remaining] rounds
    to go.  Every round posts, closes the connection and, unless the status
    was a success, sleeps [2 ** attempt + random.uniform(0, 1)]. *)
Fixpoint send_attempts (remaining attempt : nat)
    (endpoint url payload : string) : M unit :=
  match remaining with
  | O => lift (Raise delivery_failure)
  | S remaining' =>
      let sleep :=
        CallSleep (1 * 2 ^ Z.of_nat attempt) (random_uniform E attempt) in
      match https_post E attempt with
      | HttpStatus status =>
          if status_ok status
          then ([CallPost endpoint url payload; CallClose], Ret tt)
          else
            (_ <- ([CallPost endpoint url payload; CallClose; sleep], Ret tt) ;;
             send_attempts remaining' (S attempt) endpoint url payload)%io
      | HttpError _ =>
          (_ <- ([CallPost endpoint url payload; CallClose; sleep], Ret tt) ;;
           send_attempts remaining' (S attempt) endpoint url payload)%io
      end
  end.

(** Lines 327-328: the EU collector for keys that start with [eu]; the
    account id goes into the path. *)
Definition new_relic_endpoint (key : string) : string :=
  if String.prefix "eu" key then "insights-collector.eu01.nr-data.net"
  else "insights-collector.newrelic.com".

Definition new_relic_url : string :=
  ("/v1/accounts/" ++ opt_default (NEW_RELIC_ACCOUNT_ID C) "None"
   ++ "/events")%string.

Definition send_to_new_relic (events : list event) : M unit :=
  match events with
  | [] => mret tt
  | _ =>
      let gzipped_payload := encode_events L events in
      match NEW_RELIC_LICENSE_KEY C with
      | None =>
          lift (Raise (mkexn AttributeError
                         "'NoneType' object has no attribute 'startswith'"))
      | Some key =>
          send_attempts 3 0 (new_relic_endpoint key) new_relic_url
                        gzipped_payload
      end
  end.

(** *** The handler (lines 348-374) *)

Record handler_result := mkHandlerResult { statusCode : Z; body : string }.

Definition completion_body (n : nat) : string :=
  ("{" ++ dq ++ "message" ++ dq ++ ": " ++ dq
   ++ "Processing complete. Total events generated: "
   ++ NilEmpty.string_of_uint (Nat.to_uint n) ++ dq ++ "}")%string.

(** The [except] around the delivery logs and re-raises, so an exception
    of [send_to_new_relic] leaves the handler as it is. *)
Definition lambda_handler (fuel : nat) (invoked_function_arn : string)
  : M handler_result :=
  if negb (truthy (NEW_RELIC_LICENSE_KEY C))
     || negb (truthy (NEW_RELIC_ACCOUNT_ID C))
  then mret (mkHandlerResult 500 "Missing New Relic configuration.")
  else
    (aws_account_id <- lift
       match nth_error (py_split ":" invoked_function_arn) 4 with
       | Some a => Ret a
       | None => Raise (mkexn IndexError "list index out of range")
       end ;;
     cost_events <-
       try_except (run_cost_explorer_workflow fuel aws_account_id)
                  (fun e => isinstance e PlainException) (fun _ => mret []) ;;
     rec_events <-
       try_except (run_recommendation_workflow fuel aws_account_id)
                  (fun e => isinstance e PlainException) (fun _ => mret []) ;;
     let all_events_to_send := cost_events ++ rec_events in
     _ <- match all_events_to_send with
          | [] => mret tt
          | _ => send_to_new_relic all_events_to_send
          end ;;
     mret (mkHandlerResult 200
             (completion_body (List.length all_events_to_send))))%io.

End Program.

(* ================================================================= *)
(** ** A reference library and sample environments

    Decoders for the fragments of the library functions that the worked
    examples need.  On their fragment they return what CPython returns;
    outside it they answer with an error. *)

Module Sample.

Definition is_digit (c : ascii) : bool :=
  let n := nat_of_ascii c in (48 <=? n)%nat && (n <=? 57)%nat.

Fixpoint read_digits (s : string) (acc : Z) (count : nat)
  : Z * nat * string :=
  match s with
  | String c r =>
      if is_digit c
      then read_digits r (acc * 10 + Z.of_nat (nat_of_ascii c - 48)) (S count)
      else (acc, count, s)
  | EmptyString => (acc, count, s)
  end.

(** [float(s)] for [-]digits[.digits] with at most 15 digits: numerator
    and power of ten are exact in binary64, so one correctly rounded division
    gives the correctly rounded value. *)
Definition float_of_decimal (s : string) : option float :=
  let '(neg, s) :=
    match s with
    | String "-" r => (true, r)
    | _ => (false, s)
    end in
  let '(ip, n1, rest) := read_digits s 0 0 in
  if (n1 =? 0)%nat then None
  else
    let '(m, n2, rest') :=
      match rest with
      | String "." r => read_digits r ip 0
      | _ => (ip, 0%nat, rest)
      end in
    match rest' with
    | EmptyString =>
        if (n1 + n2 <=? 15)%nat then
          match float_of_Z m, float_of_Z (10 ^ Z.of_nat n2) with
          | Ret fm, Ret fd => Some (if neg then - (fm / fd) else fm / fd)%float
          | _, _ => None
          end
        else None
    | _ => None
    end.

(** The builtin [sum] before Python 3.12. *)
Definition sum_left (l : list float) : float :=
  fold_left PrimFloat.add l 0%float.

(** [json.loads] for JSON without fractions, exponents and [\u] escapes. *)
Definition is_ws (c : ascii) : bool :=
  let n := nat_of_ascii c in
  (n =? 32)%nat || (n =? 9)%nat || (n =? 10)%nat || (n =? 13)%nat.

Fixpoint skip_ws (s : string) : string :=
  match s with
  | String c r => if is_ws c then skip_ws r else s
  | EmptyString => s
  end.

Definition unescape (c : ascii) : option ascii :=
  let n := nat_of_ascii c in
  if (n =? 34)%nat || (n =? 92)%nat || (n =? 47)%nat then Some c
  else if Ascii.eqb c "n" then Some (ascii_of_nat 10)
  else if Ascii.eqb c "t" then Some (ascii_of_nat 9)
  else if Ascii.eqb c "r" then Some (ascii_of_nat 13)
  else if Ascii.eqb c "b" then Some (ascii_of_nat 8)
  else if Ascii.eqb c "f" then Some (ascii_of_nat 12)
  else None.

(** After the opening quote: the text and what follows the closing quote. *)
Fixpoint read_string (s : string) : option (string * string) :=
  match s with
  | EmptyString => None
  | String c r =>
      let n := nat_of_ascii c in
      if (n =? 34)%nat then Some (EmptyString, r)
      else if (n =? 92)%nat then
        match r with
        | String e r' =>
            match unescape e, read_string r' with
            | Some x, Some (t, rest) => Some (String x t, rest)
            | _, _ => None
            end
        | EmptyString => None
        end
      else if (n <? 32)%nat then None
      else match read_string r with
           | Some (t, rest) => Some (String c t, rest)
           | None => None
           end
  end.

Definition read_int (s : string) : option (Z * string) :=
  let '(neg, s) :=
    match s with
    | String "-" r => (true, r)
    | _ => (false, s)
    end in
  let '(v, n, rest) := read_digits s 0 0 in
  let leading_zero :=
    match s with
    | String "0" _ => (1 <? n)%nat
    | _ => false
    end in
  let fraction :=
    match rest with
    | String c _ => Ascii.eqb c "." || Ascii.eqb c "e" || Ascii.eqb c "E"
    | EmptyString => false
    end in
  if (n =? 0)%nat || leading_zero || fraction then None
  else Some (if neg then - v else v, rest).

Fixpoint read_value (fuel : nat) (s : string) : option (pyval * string) :=
  match fuel with
  | O => None
  | S fuel' =>
      match skip_ws s with
      | String "n" (String "u" (String "l" (String "l" r))) => Some (VNone, r)
      | String "t" (String "r" (String "u" (String "e" r))) =>
          Some (VBool true, r)
      | String "f" (String "a" (String "l" (String "s" (String "e" r)))) =>
          Some (VBool false, r)
      | String "[" r =>
          match skip_ws r with
          | String "]" r' => Some (VList [], r')
          | _ =>
              match read_elements fuel' r with
              | Some (l, r') => Some (VList l, r')
              | None => None
              end
          end
      | String "{" r =>
          match skip_ws r with
          | String "}" r' => Some (VDict [], r')
          | _ =>
              match read_members fuel' r [] with
              | Some (d, r') => Some (VDict d, r')
              | None => None
              end
          end
      | String c r =>
          if (nat_of_ascii c =? 34)%nat then
            match read_string r with
            | Some (t, r') => Some (VStr t, r')
            | None => None
            end
          else
            match read_int (String c r) with
            | Some (z, r') => Some (VInt z, r')
            | None => None
            end
      | EmptyString => None
      end
  end
with read_elements (fuel : nat) (s : string) : option (list pyval * string) :=
  match fuel with
  | O => None
  | S fuel' =>
      match read_value fuel' s with
      | Some (v, r) =>
          match skip_ws r with
          | String "," r' =>
              match read_elements fuel' r' with
              | Some (l, r'') => Some (v :: l, r'')
              | None => None
              end
          | String "]" r' => Some ([v], r')
          | _ => None
          end
      | None => None
      end
  end
with read_members (fuel : nat) (s : string) (acc : dict pyval)
  : option (dict pyval * string) :=
  match fuel with
  | O => None
  | S fuel' =>
      match skip_ws s with
      | String q r =>
          if (nat_of_ascii q =? 34)%nat then
            match read_string r with
            | Some (k, r1) =>
                match skip_ws r1 with
                | String ":" r2 =>
                    match read_value fuel' r2 with
                    | Some (v, r3) =>
                        let acc := dict_set acc k v in
                        match skip_ws r3 with
                        | String "," r4 => read_members fuel' r4 acc
                        | String "}" r4 => Some (acc, r4)
                        | _ => None
                        end
                    | None => None
                    end
                | _ => None
                end
            | None => None
            end
          else None
      | EmptyString => None
      end
  end.

Definition json_loads_lite (s : string) : reply pyval :=
  match read_value (2 * String.length s + 2) s with
  | Some (v, rest) =>
      match skip_ws rest with
      | EmptyString => Ok v
      | _ => Error (mkexn JSONDecodeError "Extra data")
      end
  | None => Error (mkexn JSONDecodeError "Expecting value")
  end.

Definition json_dumps_counts_lite (d : dict Z) : string :=
  ("{" ++ String.concat ", "
            (map (fun kv => dq ++ fst kv ++ dq ++ ": "
                            ++ NilEmpty.string_of_int (Z.to_int (snd kv))) d)
   ++ "}")%string.

Definition lib : Lib :=
  mkLib float_of_decimal sum_left json_loads_lite json_dumps_counts_lite
        (fun _ _ => "cost prompt") (fun _ => "recommendation prompt")
        (fun _ => "payload").

Definition config : Config :=
  mkConfig (Some "eu01xx0000NRAL") (Some "1234567") "us-east-1" "SERVICE" None
           "anthropic.claude-3-haiku-20240307-v1:0" 150.

Definition account : string := "123456789012".
Definition arn : string :=
  "arn:aws:lambda:us-east-1:123456789012:function:cost-report".

Definition bs : string := String (ascii_of_nat 92) EmptyString.

(** The body of a model answer whose single content block holds [text]
    (already escaped for JSON). *)
Definition model_body (text : string) : string :=
  ("{" ++ dq ++ "content" ++ dq ++ ":[{" ++ dq ++ "type" ++ dq ++ ":" ++ dq
   ++ "text" ++ dq ++ "," ++ dq ++ "text" ++ dq ++ ":" ++ dq ++ text ++ dq
   ++ "}]}")%string.

(** [{"x":1}], plain and escaped for embedding in a JSON string. *)
Definition x1 : string := ("{" ++ dq ++ "x" ++ dq ++ ":1}")%string.
Definition x1_escaped : string :=
  ("{" ++ bs ++ dq ++ "x" ++ bs ++ dq ++ ":1}")%string.

Definition ec2_group : CostGroup :=
  mkCostGroup (Some ["Amazon Elastic Compute Cloud - Compute"; "us-east-1"])
    (Some [("UnblendedCost", mkMetric (Some "10.00") (Some "USD"))]).

Definition s3_group : CostGroup :=
  mkCostGroup (Some ["Amazon Simple Storage Service"; "us-east-1"])
    (Some [("UnblendedCost", mkMetric (Some "2.5") (Some "USD"))]).

Definition one_page (groups : list CostGroup)
  : CostAndUsageRequest -> reply CostAndUsageResponse :=
  fun _ => Ok (mkCostAndUsageResponse (Some [mkResultByTime (Some groups)]) None).

Definition access_denied
  : CostAndUsageRequest -> reply CostAndUsageResponse :=
  fun _ => Error (mkexn ClientError "AccessDeniedException").

Definition no_forecast : string -> string -> reply ForecastResponse :=
  fun _ _ => Error (mkexn DataUnavailableException "Insufficient data").

Definition recs_page (recs : list Recommendation)
  : string -> option string -> reply RecommendationsResponse :=
  fun _ _ => Ok (mkRecommendationsResponse (Some recs) None).

Definition model_says (text : string) : string -> Z -> string -> reply string :=
  fun _ _ _ => Ok (model_body text).

Definition always (status : Z) : nat -> http_outcome :=
  fun _ => HttpStatus status.

Definition half : nat -> float := fun _ => 0.5%float.

(** A run on [today] with the given cost groups and recommendations, no
    forecast, a model that answers [text] and an endpoint that accepts. *)
Definition env (today : date) (groups : list CostGroup)
    (recs : list Recommendation) (text : string) : Env :=
  mkEnv today (one_page groups) no_forecast (recs_page recs) (model_says text)
        (always 202) half.

Definition ebs_rec (savings percentage : pyval) : Recommendation :=
  mkRecommendation (Some savings) (Some percentage) (Some "EbsVolume")
    (Some "us-east-1") (Some "rec-1") (Some "vol-1") None None None
    (Some "Delete") (Some "Low") (Some "ComputeOptimizer").

End Sample.

(* ================================================================= *)
(** * Vocabulary of the properties *)

(** In the spec's words: the first day of the month before month [m] of
    year [y]. *)
Definition first_of_previous_month (y m : Z) : date :=
  if m =? 1 then mkdate (y - 1) 12 1 else mkdate y (m - 1) 1.

Definition is_forecast_call (c : call) : bool :=
  match c with
  | CallGetCostForecast _ _ => true
  | _ => false
  end.

Definition forecast_attempted (t : list call) : bool :=
  existsb is_forecast_call t.

(** Every call a computation makes satisfies [P]. *)
Definition all_calls (P : call -> bool) {A} (m : M A) : Prop :=
  forallb P (trace m) = true.

(** The check behind the calendar lemma: the day before the first of month
    [m] of year [y] lies in the previous month. *)
Definition prev_month_ok (y m : Z) : bool :=
  let '(py, pm, pd) := ord2ymd (ymd2ord y m 1 - 1) in
  let p := first_of_previous_month y m in
  (py =? year p) && (pm =? month p).

Fixpoint all_from (n : nat) (y : Z) (p : Z -> bool) : bool :=
  match n with
  | O => true
  | S n' => p y && all_from n' (y + 1) p
  end.

Definition months : list Z := [1; 2; 3; 4; 5; 6; 7; 8; 9; 10; 11; 12].

(** Vocabulary of claim C2. *)
Definition is_post (c : call) : bool :=
  match c with
  | CallPost _ _ _ => true
  | _ => false
  end.

Definition count_posts (t : list call) : nat := List.length (filter is_post t).

(** An attempt succeeds iff it gets a status and the status is in
    [[200, 300)]. *)
Definition attempt_ok (E : Env) (i : nat) : bool :=
  match https_post E i with
  | HttpStatus status => (200 <=? status) && (status <? 300)
  | HttpError _ => false
  end.

(** What a failed attempt [i] leaves in the trace: the POST, the closing of
    its connection, and a sleep of [2^i] seconds plus the jitter drawn. *)
Definition failed_round (E : Env) (endpoint url payload : string) (i : nat)
  : list call :=
  [CallPost endpoint url payload; CallClose;
   CallSleep (2 ^ Z.of_nat i) (random_uniform E i)].

Definition last_round (endpoint url payload : string) : list call :=
  [CallPost endpoint url payload; CallClose].

(** The retry policy in the spec's words. *)
Definition retry_policy (E : Env) (endpoint url payload : string) : M unit :=
  let failed := failed_round E endpoint url payload in
  let last := last_round endpoint url payload in
  if attempt_ok E 0 then (last, Ret tt)
  else if attempt_ok E 1 then (failed 0%nat ++ last, Ret tt)
  else if attempt_ok E 2 then (failed 0%nat ++ failed 1%nat ++ last, Ret tt)
  else (failed 0%nat ++ failed 1%nat ++ failed 2%nat, Raise delivery_failure).

(** Vocabulary of claim C3: what a workflow contributes to the delivery:
    its events, none if it raised, nothing defined if it ran out of fuel. *)
Definition contribution (m : M (list event)) : option (list event) :=
  match outcome m with
  | Ret events => Some events
  | Raise _ => Some []
  | OutOfFuel => None
  end.

(** How the handler ends after a delivery that ended with [sent]. *)
Definition handler_outcome (sent : result unit) (n : nat)
  : result handler_result :=
  match sent with
  | Ret _ => Ret (mkHandlerResult 200 (completion_body n))
  | Raise e => Raise e
  | OutOfFuel => OutOfFuel
  end.

(** Vocabulary for records: their kind and their fields. *)
Definition record_type_is (t : string) (ev : event) : bool :=
  match dict_get ev "recordType" with
  | Some (VStr s) => String.eqb s t
  | _ => false
  end.

Definition is_detail : event -> bool := record_type_is "detail".
Definition is_summary : event -> bool := record_type_is "summary".

Definition details_of (events : list event) : list event :=
  filter is_detail events.
Definition summaries_of (events : list event) : list event :=
  filter is_summary events.

Definition float_field (k : string) (ev : event) : option float :=
  match dict_get ev k with
  | Some (VFloat f) => Some f
  | _ => None
  end.

(** The keys the enrichment writes: [analysis.<key>]. *)
Definition is_analysis_key (k : string) : bool := String.prefix "analysis." k.

(** A result that is there: a value or an exception. *)
Definition settled {A} (r : result A) : Prop := r <> OutOfFuel.

(** The events a workflow returned ([[]] if it did not return). *)
Definition returned {A} (m : M (list A)) : list A :=
  match outcome m with
  | Ret l => l
  | _ => []
  end.

(** At most one summary record, after the detail records. *)
Definition well_formed_records (events : list event) : Prop :=
  (List.length (summaries_of events) <= 1)%nat
  /\ events = details_of events ++ summaries_of events.

(** The forecast call yields nothing: it raises the one exception the
    workflow swallows, or answers without results. *)
Definition forecast_unavailable (r : reply ForecastResponse) : Prop :=
  match r with
  | Error ex => isinstance ex DataUnavailableException = true
  | Ok response => opt_default (ForecastResultsByTime response) [] = []
  end.

(** The forecast part of the cost workflow (lines 95-108). *)
Definition forecast_step (E : Env) : M (list ForecastResult) :=
  if negb (day (utcnow_date E) =? 1) then fetch_forecast E (utcnow_date E)
  else mret [].

Definition detail_only (ev : event) : Prop :=
  is_detail ev = true /\ is_summary ev = false.

(** Vocabulary of claim C7. *)
Fixpoint occurs (c : ascii) (s : string) : bool :=
  match s with
  | EmptyString => false
  | String a r => Ascii.eqb a c || occurs c r
  end.

(** The text of the model's answer, as [bedrock_analysis] gets at it: the
    call, the decoding of the body, and the first content block's text. *)
Definition model_text (L : Lib) (C : Config) (E : Env) (max_tokens : Z)
    (prompt : string) : result string :=
  (body <- of_reply (invoke_model E (BEDROCK_MODEL_ID C) max_tokens prompt) ;;
   response_body <- of_reply (json_loads L body) ;;
   response_text response_body)%res.

(** Vocabulary of claim C5.  Floats other than NaN are ranked by a triple
    of integers whose lexicographic order is their order. *)
Definition rank (f : spec_float) : Z * Z * Z :=
  match f with
  | S754_zero _ => (0, 0, 0)
  | S754_infinity s => (if s then -2 else 2, 0, 0)
  | S754_nan => (0, 0, 0)
  | S754_finite s m e => if s then (-1, - e, Zneg m) else (1, e, Zpos m)
  end.

Definition lex3 (a b : Z * Z * Z) : comparison :=
  let '(a1, a2, a3) := a in
  let '(b1, b2, b3) := b in
  match a1 ?= b1 with
  | Eq => match a2 ?= b2 with
          | Eq => a3 ?= b3
          | c => c
          end
  | c => c
  end.

Definition lex_lt (a b : Z * Z * Z) : Prop :=
  let '(a1, a2, a3) := a in
  let '(b1, b2, b3) := b in
  a1 < b1 \/ (a1 = b1 /\ (a2 < b2 \/ (a2 = b2 /\ a3 < b3))).

(** Keyed elements in descending order of their keys. *)
Definition descending {A} (l : list (float * A)) : Prop :=
  StronglySorted (fun a b => (fst b <=? fst a)%float = true) l.

(** The elements whose key equals [k]. *)
Definition tie {A} (k : float) (p : float * A) : bool := (fst p =? k)%float.

(** What a driver says about its group: the amount and the grouping keys. *)
Definition driver_entry (d : driver) : float * list string :=
  (cost_usd d, driver_group d).
Definition group_entry (kg : float * CostGroup) : float * list string :=
  (fst kg, opt_default (Keys (snd kg)) []).

(* ================================================================= *)
(** * Vocabulary of the further properties *)

(** The request of the cost paging loop for page token [tok] (lines 79-85). *)
Definition cost_request (C : Config) (s e : string) (tok : option string)
  : CostAndUsageRequest :=
  mkCostAndUsageRequest s e "MONTHLY" ["UnblendedCost"]
    (group_by_definitions C) (if truthy tok then tok else None).

(** What one answer adds to [all_groups] (lines 87-88). *)
Definition page_groups (r : CostAndUsageResponse) : result (list CostGroup) :=
  match ResultsByTime r with
  | Some (r0 :: _) =>
      match Groups r0 with
      | Some gs => Ret gs
      | None => Raise (mkexn KeyError "'Groups'")
      end
  | _ => Ret []
  end.

(** The answers the source gives when it is paged through from [tok]: each
    but the last names a next page. *)
Inductive cost_pages (C : Config) (E : Env) (s e : string)
  : option string -> list CostAndUsageResponse -> Prop :=
| cost_last_page tok r :
    get_cost_and_usage E (cost_request C s e tok) = Ok r ->
    truthy (NextPageToken r) = false ->
    cost_pages C E s e tok [r]
| cost_next_page tok r rs :
    get_cost_and_usage E (cost_request C s e tok) = Ok r ->
    truthy (NextPageToken r) = true ->
    cost_pages C E s e (NextPageToken r) rs ->
    cost_pages C E s e tok (r :: rs).

Inductive recommendation_pages (E : Env) (acct : string)
  : option string -> list RecommendationsResponse -> Prop :=
| rec_last_page tok r :
    list_recommendations E acct (if truthy tok then tok else None) = Ok r ->
    truthy (nextToken r) = false ->
    recommendation_pages E acct tok [r]
| rec_next_page tok r rs :
    list_recommendations E acct (if truthy tok then tok else None) = Ok r ->
    truthy (nextToken r) = true ->
    recommendation_pages E acct (nextToken r) rs ->
    recommendation_pages E acct tok (r :: rs).

(** The tokens of the successive requests: the one to start from, then the
    one each answer but the last names. *)
Definition cost_tokens (tok : option string)
    (pages : list CostAndUsageResponse) : list (option string) :=
  tok :: map NextPageToken (removelast pages).

Definition recommendation_tokens (tok : option string)
    (pages : list RecommendationsResponse) : list (option string) :=
  tok :: map nextToken (removelast pages).

(** A source that answers in two pages. *)
Module Paged.

Definition cost_first : CostAndUsageResponse :=
  mkCostAndUsageResponse (Some [mkResultByTime (Some [Sample.ec2_group])])
                         (Some "page-2").
Definition cost_second : CostAndUsageResponse :=
  mkCostAndUsageResponse (Some [mkResultByTime (Some [Sample.s3_group])]) None.

Definition cost_source (req : CostAndUsageRequest)
  : reply CostAndUsageResponse :=
  match RequestNextPageToken req with
  | None => Ok cost_first
  | Some _ => Ok cost_second
  end.

Definition rec_first : RecommendationsResponse :=
  mkRecommendationsResponse
    (Some [Sample.ebs_rec (VStr "12.5") (VInt 40)]) (Some "page-2").
Definition rec_second : RecommendationsResponse :=
  mkRecommendationsResponse (Some [Sample.ebs_rec (VInt 3) (VInt 10)]) None.

Definition rec_source (_ : string) (token : option string)
  : reply RecommendationsResponse :=
  match token with
  | None => Ok rec_first
  | Some _ => Ok rec_second
  end.

Definition env (today : date) : Env :=
  mkEnv today cost_source Sample.no_forecast rec_source
        (Sample.model_says Sample.x1_escaped) (Sample.always 202) Sample.half.

End Paged.

(** [s] with every [c] taken out. *)
Fixpoint without (c : ascii) (s : string) : string :=
  match s with
  | EmptyString => EmptyString
  | String a r => if Ascii.eqb a c then without c r else String a (without c r)
  end.

(** The first day of the month after month [m] of year [y]. *)
Definition first_of_next_month (y m : Z) : date :=
  if m =? 12 then mkdate (y + 1) 1 1 else mkdate y (m + 1) 1.

(** The check behind the second calendar lemma: the ordinal of the first of
    a month is read back as that day. *)
Definition first_day_ok (y m : Z) : bool :=
  let '(y', m', d') := ord2ymd (ymd2ord y m 1) in
  (y' =? y) && (m' =? m) && (d' =? 1).

(** The calls that go to AWS, as opposed to the New Relic endpoint and the
    clock. *)
Definition is_aws_call (c : call) : bool :=
  match c with
  | CallGetCostAndUsage _ | CallGetCostForecast _ _
  | CallListRecommendations _ _ | CallInvokeModel _ _ _ => true
  | CallPost _ _ _ | CallClose | CallSleep _ _ => false
  end.

Definition is_invoke (c : call) : bool :=
  match c with
  | CallInvokeModel _ _ _ => true
  | _ => false
  end.

(** The handler is configured: both settings are there and not empty. *)
Definition configured (C : Config) : bool :=
  truthy (NEW_RELIC_LICENSE_KEY C) && truthy (NEW_RELIC_ACCOUNT_ID C).

(** A report that consults the model at most once: either the run ends
    with its only model call, asking for [max_tokens] tokens, and returns
    records, or it makes no model call and returns no record. *)
Definition consults_model_once (C : Config) (max_tokens : Z)
    (run : M (list event)) : Prop :=
  (exists before prompt events,
     trace run
     = before ++ [CallInvokeModel (BEDROCK_MODEL_ID C) max_tokens prompt]
     /\ filter is_invoke before = []
     /\ outcome run = Ret events /\ events <> [])
  \/ (filter is_invoke (trace run) = []
      /\ forall events, outcome run = Ret events -> events = []).

(** The exceptions the recommendation loop skips a record for. *)
Definition skipped (ex : exn) : bool :=
  isinstance ex ValueError || isinstance ex TypeError.

(** A source that has a forecast to give. *)
Module Forecasting.

Definition forecast_source : string -> string -> reply ForecastResponse :=
  fun _ _ => Ok (mkForecastResponse (Some [mkForecastResult (Some "30.0")])).

Definition env (today : date) (groups : list CostGroup) : Env :=
  mkEnv today (Sample.one_page groups) forecast_source (Sample.recs_page [])
        (Sample.model_says Sample.x1_escaped) (Sample.always 202) Sample.half.

End Forecasting.

(** Record [ev] has value [v] in field [k]. *)
Definition has_field (k : string) (v : pyval) (ev : event) : Prop :=
  dict_get ev k = Some v.

(** The name of the tag field of a cost detail record (line 134). *)
Definition tag_field (C : Config) : string :=
  ("aws.tag." ++ py_replace ":" "_"
     (py_replace "$" "_" (opt_default (GROUP_BY_TAG_KEY C) "")))%string.

(** The name of its primary dimension field (line 128). *)
Definition dimension_field (C : Config) : string :=
  ("aws." ++ to_camel_case (GROUP_BY_DIMENSION_KEY C))%string.

(** Where the region stands among the keys of a group: after the primary
    dimension, if one is configured. *)
Definition region_index (C : Config) : nat :=
  if String.eqb (GROUP_BY_DIMENSION_KEY C) "" then 0%nat else 1%nat.

(** A configuration that also groups by a tag. *)
Module Tagged.

Definition config : Config :=
  mkConfig (Some "eu01xx0000NRAL") (Some "1234567") "us-east-1" "SERVICE"
           (Some "cost:center") "anthropic.claude-3-haiku-20240307-v1:0" 150.

Definition group : CostGroup :=
  mkCostGroup
    (Some ["Amazon Elastic Compute Cloud - Compute"; "us-east-1";
           "cost:center$platform"])
    (Some [("UnblendedCost", mkMetric (Some "10.00") (Some "USD"))]).

End Tagged.

(** The two numbers of a recommendation, where [float] can read them. *)
Definition savings_of (L : Lib) (r : Recommendation) : option float :=
  match pfloat L (opt_default (estimatedMonthlySavings r) (VInt 0)) with
  | Ret s => Some s
  | _ => None
  end.

Definition percentage_of (L : Lib) (r : Recommendation) : option float :=
  match pfloat L (opt_default (estimatedSavingsPercentage r) (VInt 0)) with
  | Ret p => Some p
  | _ => None
  end.

(** Both numbers can be read. *)
Definition converts (L : Lib) (r : Recommendation) : bool :=
  match savings_of L r, percentage_of L r with
  | Some _, Some _ => true
  | _, _ => false
  end.

(** What a recommendation adds to the running total and to the counts by
    resource type. *)
Definition add_saving (L : Lib) (total : float) (r : Recommendation)
  : float :=
  match savings_of L r with
  | Some s => (total + s)%float
  | None => total
  end.

Definition count_type (L : Lib) (counts : dict Z) (r : Recommendation)
  : dict Z :=
  match savings_of L r with
  | Some _ =>
      let resource_type := opt_default (currentResourceType r) "Unknown" in
      dict_set counts resource_type
        (opt_default (dict_get counts resource_type) 0 + 1)
  | None => counts
  end.

(* ================================================================= *)
(** * Properties *)

(** ** The computation monad *)

Lemma trace_mbind {A B} (m : M A) (k : A -> M B) :
  trace (mbind m k)
  = trace m ++ match outcome m with Ret a => trace (k a) | _ => [] end.
Proof.
  destruct m as [t [a|e|]]; cbn; try (now rewrite app_nil_r).
  now destruct (k a).
Qed.

Lemma outcome_mbind {A B} (m : M A) (k : A -> M B) :
  outcome (mbind m k)
  = match outcome m with
    | Ret a => outcome (k a)
    | Raise e => Raise e
    | OutOfFuel => OutOfFuel
    end.
Proof.
  destruct m as [t [a|e|]]; cbn; try reflexivity.
  now destruct (k a).
Qed.

Lemma mbind_lift_ret {A B} (a : A) (k : A -> M B) :
  mbind (lift (Ret a)) k = k a.
Proof. unfold lift, mbind. now destruct (k a). Qed.

Lemma trace_try_except {A} (b : M A) c (h : exn -> M A) :
  trace (try_except b c h)
  = trace b ++ match outcome b with
               | Raise e => if c e then trace (h e) else []
               | _ => []
               end.
Proof.
  destruct b as [t [a|e|]]; cbn; try (now rewrite app_nil_r).
  destruct (c e); cbn; [now destruct (h e) | now rewrite app_nil_r].
Qed.

Lemma outcome_try_except {A} (b : M A) c (h : exn -> M A) :
  outcome (try_except b c h)
  = match outcome b with
    | Raise e => if c e then outcome (h e) else Raise e
    | r => r
    end.
Proof.
  destruct b as [t [a|e|]]; cbn; try reflexivity.
  destruct (c e); cbn; [now destruct (h e) | reflexivity].
Qed.

Lemma outcome_mbind_ret {A B} (m : M A) (k : A -> M B) (b : B) :
  outcome (mbind m k) = Ret b ->
  exists a, outcome m = Ret a /\ outcome (k a) = Ret b.
Proof.
  rewrite outcome_mbind. destruct (outcome m) as [a|e|]; try discriminate.
  intros H. now exists a.
Qed.

Lemma rbind_ret {A B} (r : result A) (k : A -> result B) (b : B) :
  rbind r k = Ret b -> exists a, r = Ret a /\ k a = Ret b.
Proof. destruct r as [a|e|]; try discriminate. intros H. now exists a. Qed.

(** ** The embedding on concrete inputs *)

Example window_mar1 :
  reporting_window (mkdate 2024 3 1) = Ret (mkdate 2024 2 1, mkdate 2024 3 1)
  /\ isoformat (mkdate 2024 2 1) = "2024-02-01".
Proof. split; reflexivity. Qed.

Example to_camel_case_examples :
  to_camel_case "SERVICE" = "service"
  /\ to_camel_case "LINKED_ACCOUNT" = "linkedAccount"
  /\ to_camel_case "USAGE_TYPE_GROUP" = "usageTypeGroup".
Proof. repeat split; reflexivity. Qed.

Example float_of_Z_small :
  float_of_Z 0 = Ret 0%float /\ float_of_Z 150 = Ret 150%float.
Proof. split; reflexivity. Qed.

Example round_times_examples :
  round_times 10%float 150 = Ret 1500
  /\ round_times 0.5%float 1 = Ret 0
  /\ round_times 1.5%float 1 = Ret 2
  /\ round_times 2.5%float 1 = Ret 2
  /\ round_times (-0.75)%float 2 = Ret (-2).
Proof. repeat split; reflexivity. Qed.

Example float_of_decimal_examples :
  Sample.float_of_decimal "10.00" = Some 10%float
  /\ Sample.float_of_decimal "2.5" = Some 2.5%float
  /\ Sample.float_of_decimal "-0.75" = Some (-0.75)%float
  /\ Sample.float_of_decimal "abc" = None
  /\ Sample.float_of_decimal "" = None.
Proof. repeat split; reflexivity. Qed.

Example json_loads_lite_examples :
  Sample.json_loads_lite Sample.x1 = Ok (VDict [("x", VInt 1)])
  /\ Sample.json_loads_lite "[1, -2, null, true]"
     = Ok (VList [VInt 1; VInt (-2); VNone; VBool true])
  /\ Sample.json_loads_lite "" = Error (mkexn JSONDecodeError "Expecting value")
  /\ Sample.json_loads_lite "{} {}" = Error (mkexn JSONDecodeError "Extra data").
Proof. repeat split; reflexivity. Qed.

Example extract_json_examples :
  extract_json "so: {a} and {b}." = "{a} and {b}"
  /\ extract_json "no braces" = ""
  /\ extract_json "} before {" = "".
Proof. repeat split; reflexivity. Qed.

(** The scenario of one EC2 group of 10.00 USD on a 15th, with no forecast
    data and a model that answers without JSON. *)
Example one_group_scenario :
  run_cost_explorer_workflow Sample.lib Sample.config
    (Sample.env (mkdate 2024 7 15) [Sample.ec2_group] [] "no json") 3
    Sample.account
  = ([CallGetCostAndUsage
        (mkCostAndUsageRequest "2024-07-01" "2024-07-15" "MONTHLY"
           ["UnblendedCost"]
           [("DIMENSION", "SERVICE"); ("DIMENSION", "REGION")] None);
      CallGetCostForecast "2024-07-15" "2024-08-01";
      CallInvokeModel "anthropic.claude-3-haiku-20240307-v1:0" 1024
        "cost prompt"],
     Ret [[("eventType", VStr "AwsCostReport"); ("recordType", VStr "detail");
           ("aws.accountId", VStr "123456789012");
           ("aws.lambdaRegion", VStr "us-east-1");
           ("period.start", VStr "2024-07-01");
           ("period.end", VStr "2024-07-15");
           ("cost.unblended", VFloat 10); ("cost.currency", VStr "USD");
           ("aws.service", VStr "Amazon Elastic Compute Cloud - Compute");
           ("aws.region", VStr "us-east-1")];
          [("eventType", VStr "AwsCostReport"); ("recordType", VStr "summary");
           ("aws.accountId", VStr "123456789012");
           ("aws.lambdaRegion", VStr "us-east-1");
           ("period.start", VStr "2024-07-01");
           ("period.end", VStr "2024-07-15");
           ("cost.totalUnblended", VFloat 10);
           ("cost.monthlyForecast", VFloat 0);
           ("analysis.error", VStr "Expecting value")]]).
Proof. vm_compute. reflexivity. Qed.

(** ** Fuel, and the two short-cuts of the handler *)

Lemma mbind_ext {A B} (m : M A) (k k' : A -> M B) :
  (forall a, outcome m = Ret a -> k a = k' a) -> mbind m k = mbind m k'.
Proof.
  destruct m as [t [a|e|]]; cbn; intros H; try reflexivity.
  now rewrite (H a eq_refl).
Qed.

Lemma fetch_cost_groups_step (C : Config) (E : Env) (fuel : nat)
    (s e : string) (tok : option string) (acc : list CostGroup) :
  fetch_cost_groups C E (S fuel) s e tok acc
  = (let params :=
       mkCostAndUsageRequest s e "MONTHLY" ["UnblendedCost"]
         (group_by_definitions C) (if truthy tok then tok else None) in
     response <- do_call (CallGetCostAndUsage params)
                         (of_reply (get_cost_and_usage E params)) ;;
     groups <- lift
       match ResultsByTime response with
       | Some (r0 :: _) =>
           match Groups r0 with
           | Some gs => Ret (acc ++ gs)
           | None => Raise (mkexn KeyError "'Groups'")
           end
       | _ => Ret acc
       end ;;
     if truthy (NextPageToken response)
     then fetch_cost_groups C E fuel s e (NextPageToken response) groups
     else mret groups)%io.
Proof. reflexivity. Qed.

Lemma fetch_recommendations_step (E : Env) (fuel : nat) (acct : string)
    (tok : option string) (acc : list Recommendation) :
  fetch_recommendations E (S fuel) acct tok acc
  = (let token := if truthy tok then tok else None in
     response <- do_call (CallListRecommendations acct token)
                         (of_reply (list_recommendations E acct token)) ;;
     if truthy (nextToken response)
     then fetch_recommendations E fuel acct (nextToken response)
            (acc ++ opt_default (items response) [])
     else mret (acc ++ opt_default (items response) []))%io.
Proof. reflexivity. Qed.

(** A paging loop that has come to an end does so with any larger fuel. *)
Lemma fetch_cost_groups_more_fuel (C : Config) (E : Env) (fuel : nat) :
  forall s e tok acc,
    settled (outcome (fetch_cost_groups C E fuel s e tok acc)) ->
    fetch_cost_groups C E (S fuel) s e tok acc
    = fetch_cost_groups C E fuel s e tok acc.
Proof.
  induction fuel as [|fuel IH]; intros s e tok acc H.
  - now contradiction H.
  - rewrite (fetch_cost_groups_step C E (S fuel)).
    rewrite fetch_cost_groups_step in H |- *. cbv zeta in *.
    apply mbind_ext. intros response Hresponse.
    rewrite outcome_mbind, Hresponse in H.
    apply mbind_ext. intros groups Hgroups.
    rewrite outcome_mbind, Hgroups in H.
    destruct (truthy (NextPageToken response)); [|reflexivity].
    now apply IH.
Qed.

Lemma fetch_recommendations_more_fuel (E : Env) (fuel : nat) :
  forall acct tok acc,
    settled (outcome (fetch_recommendations E fuel acct tok acc)) ->
    fetch_recommendations E (S fuel) acct tok acc
    = fetch_recommendations E fuel acct tok acc.
Proof.
  induction fuel as [|fuel IH]; intros acct tok acc H.
  - now contradiction H.
  - rewrite (fetch_recommendations_step E (S fuel)).
    rewrite fetch_recommendations_step in H |- *. cbv zeta in *.
    apply mbind_ext. intros response Hresponse.
    rewrite outcome_mbind, Hresponse in H.
    destruct (truthy (nextToken response)); [|reflexivity].
    now apply IH.
Qed.

(** A source that answers with a single page needs one unit of fuel. *)
Lemma fetch_recommendations_single_page (E : Env) (fuel : nat) (acct : string)
    (response : RecommendationsResponse) :
  list_recommendations E acct None = Ok response ->
  truthy (nextToken response) = false ->
  fetch_recommendations E (S fuel) acct None []
  = ([CallListRecommendations acct None],
     Ret (opt_default (items response) [])).
Proof.
  intros Hr Hn. rewrite fetch_recommendations_step. cbn [truthy].
  rewrite Hr. cbn. now rewrite Hn.
Qed.

(** Without the licence key or the account id the handler answers 500 and
    calls nothing. *)
Lemma lambda_handler_missing_configuration (L : Lib) (C : Config) (E : Env)
    (fuel : nat) (arn : string) :
  truthy (NEW_RELIC_LICENSE_KEY C) = false
  \/ truthy (NEW_RELIC_ACCOUNT_ID C) = false ->
  lambda_handler L C E fuel arn
  = ([], Ret (mkHandlerResult 500 "Missing New Relic configuration.")).
Proof.
  intros [H|H]; unfold lambda_handler; rewrite H; cbn [negb orb];
    [reflexivity | now rewrite orb_true_r].
Qed.

(** With no events [send_to_new_relic] returns at once. *)
Lemma send_to_new_relic_nothing (L : Lib) (C : Config) (E : Env) :
  send_to_new_relic L C E [] = ([], Ret tt).
Proof. reflexivity. Qed.

(** ** Claim C1: the reporting window and the forecast gate *)

(** The day before the first of a month, in every 400-year cycle. *)

Lemma all_from_spec (p : Z -> bool) (n : nat) : forall y0 y,
  all_from n y0 p = true -> y0 <= y < y0 + Z.of_nat n -> p y = true.
Proof.
  induction n as [|n IH]; intros y0 y H Hy; [lia|].
  cbn [all_from] in H. apply andb_true_iff in H as [H0 H1].
  destruct (Z.eq_dec y y0) as [->|Hne]; [assumption|].
  apply (IH (y0 + 1)); [assumption | lia].
Qed.

Lemma in_months (m : Z) : 1 <= m <= 12 -> In m months.
Proof.
  intros Hm.
  assert (m = 1 \/ m = 2 \/ m = 3 \/ m = 4 \/ m = 5 \/ m = 6 \/ m = 7
          \/ m = 8 \/ m = 9 \/ m = 10 \/ m = 11 \/ m = 12) as Hc by lia.
  unfold months. cbn. intuition.
Qed.

Lemma first_cycle_ok :
  all_from 400 1 (fun y => forallb (prev_month_ok y) months) = true.
Proof. vm_compute. reflexivity. Qed.

Lemma days_before_year_shift (y : Z) :
  days_before_year (y + 400) = days_before_year y + DI400Y.
Proof.
  unfold days_before_year, DI400Y. cbv zeta. Z.div_mod_to_equations. lia.
Qed.

Lemma is_leap_shift (y : Z) : is_leap (y + 400) = is_leap y.
Proof.
  unfold is_leap.
  replace ((y + 400) mod 4) with (y mod 4) by (Z.div_mod_to_equations; lia).
  replace ((y + 400) mod 100) with (y mod 100)
    by (Z.div_mod_to_equations; lia).
  replace ((y + 400) mod 400) with (y mod 400)
    by (Z.div_mod_to_equations; lia).
  reflexivity.
Qed.

Lemma ymd2ord_shift (y m d : Z) :
  ymd2ord (y + 400) m d = ymd2ord y m d + DI400Y.
Proof.
  unfold ymd2ord, days_before_month.
  rewrite days_before_year_shift, is_leap_shift. lia.
Qed.

Lemma ord2ymd_shift (n : Z) :
  ord2ymd (n + DI400Y) = let '(y, m, d) := ord2ymd n in (y + 400, m, d).
Proof.
  unfold ord2ymd.
  replace ((n + DI400Y - 1) / DI400Y) with ((n - 1) / DI400Y + 1)
    by (unfold DI400Y; Z.div_mod_to_equations; lia).
  replace ((n + DI400Y - 1) mod DI400Y) with ((n - 1) mod DI400Y)
    by (unfold DI400Y; Z.div_mod_to_equations; lia).
  cbv zeta.
  destruct (_ || _); [f_equal; f_equal; lia|].
  destruct (_ <? _); f_equal; f_equal; lia.
Qed.

Lemma prev_month_ok_shift (y m : Z) :
  prev_month_ok y m = true -> prev_month_ok (y + 400) m = true.
Proof.
  unfold prev_month_ok.
  replace (ymd2ord (y + 400) m 1 - 1) with (ymd2ord y m 1 - 1 + DI400Y)
    by (rewrite ymd2ord_shift; lia).
  rewrite ord2ymd_shift.
  destruct (ord2ymd (ymd2ord y m 1 - 1)) as [[py pm] pd].
  unfold first_of_previous_month. destruct (m =? 1); cbn;
    rewrite !andb_true_iff, !Z.eqb_eq; lia.
Qed.

Lemma prev_month_ok_cycles (m : Z) (k : nat) : forall y,
  1 <= y <= 400 -> 1 <= m <= 12 ->
  prev_month_ok (y + 400 * Z.of_nat k) m = true.
Proof.
  induction k as [|k IH]; intros y Hy Hm.
  - replace (y + 400 * Z.of_nat 0) with y by lia.
    pose proof (all_from_spec _ _ 1 y first_cycle_ok ltac:(lia)) as H.
    rewrite forallb_forall in H. apply H. now apply in_months.
  - replace (y + 400 * Z.of_nat (S k)) with (y + 400 * Z.of_nat k + 400)
      by lia.
    apply prev_month_ok_shift. now apply IH.
Qed.

Lemma prev_month_ok_all (y m : Z) :
  1 <= y -> 1 <= m <= 12 -> prev_month_ok y m = true.
Proof.
  intros Hy Hm.
  replace y with (((y - 1) mod 400 + 1) + 400 * Z.of_nat (Z.to_nat ((y - 1) / 400))).
  - apply prev_month_ok_cycles; [|assumption].
    Z.div_mod_to_equations; lia.
  - rewrite Z2Nat.id by (Z.div_mod_to_equations; lia).
    Z.div_mod_to_equations; lia.
Qed.

Lemma days_in_month_bounds (y m : Z) :
  1 <= m <= 12 -> 28 <= days_in_month y m <= 31.
Proof.
  intros Hm. pose proof (in_months m Hm) as Hin. unfold months in Hin.
  unfold days_in_month.
  cbn in Hin. destruct (is_leap y);
    repeat (destruct Hin as [<-|Hin];
            [split; apply Z.leb_le; reflexivity|]); contradiction.
Qed.

Lemma days_before_month_bounds (y m : Z) :
  1 <= m <= 12 -> 0 <= days_before_month y m <= 335.
Proof.
  intros Hm. pose proof (in_months m Hm) as Hin. unfold months in Hin.
  unfold days_before_month.
  cbn in Hin. destruct (is_leap y);
    repeat (destruct Hin as [<-|Hin];
            [split; apply Z.leb_le; reflexivity|]); contradiction.
Qed.

Lemma days_before_year_bounds (y : Z) :
  MINYEAR < y < MAXYEAR -> 365 <= days_before_year y <= 3651329.
Proof.
  unfold MINYEAR, MAXYEAR, days_before_year. cbv zeta. intros Hy.
  Z.div_mod_to_equations. lia.
Qed.

Lemma valid_inv (x : date) :
  valid x = true ->
  MINYEAR <= year x <= MAXYEAR /\ 1 <= month x <= 12
  /\ 1 <= day x <= days_in_month (year x) (month x).
Proof.
  unfold valid, valid_fields. rewrite !andb_true_iff, !Z.leb_le. lia.
Qed.

Lemma new_ok (y m d : Z) :
  MINYEAR <= y <= MAXYEAR -> 1 <= m <= 12 -> 1 <= d <= days_in_month y m ->
  new y m d = Ret (mkdate y m d).
Proof.
  intros Hy Hm Hd. unfold new, valid_fields.
  replace (_ && _) with true; [reflexivity|].
  symmetry. rewrite !andb_true_iff, !Z.leb_le. lia.
Qed.

Lemma sub_days_first (y m : Z) :
  MINYEAR < y < MAXYEAR -> 1 <= m <= 12 ->
  sub_days (mkdate y m 1) 1 = Ret (fromordinal (ymd2ord y m 1 - 1)).
Proof.
  intros Hy Hm.
  pose proof (days_before_month_bounds y m Hm) as Hdbm.
  pose proof (days_before_year_bounds y Hy) as Hdby.
  unfold sub_days, toordinal. cbn [day year month].
  assert ((0 <? ymd2ord y m 1 - 1) && (ymd2ord y m 1 - 1 <=? MAXORDINAL)
          = true) as ->; [|reflexivity].
  rewrite andb_true_iff, Z.ltb_lt, Z.leb_le. unfold ymd2ord, MAXORDINAL. lia.
Qed.

Lemma prev_month_ok_spec (y m : Z) :
  prev_month_ok y m = true ->
  exists pd, ord2ymd (ymd2ord y m 1 - 1)
             = (year (first_of_previous_month y m),
                month (first_of_previous_month y m), pd).
Proof.
  unfold prev_month_ok.
  generalize (ord2ymd (ymd2ord y m 1 - 1)). intros [[py pm] pd] Hp.
  apply andb_true_iff in Hp as [Hpy Hpm].
  apply Z.eqb_eq in Hpy, Hpm. subst py pm. now exists pd.
Qed.

Lemma fromordinal_before_first (y m : Z) :
  1 <= y -> 1 <= m <= 12 ->
  exists pd,
    fromordinal (ymd2ord y m 1 - 1)
    = mkdate (year (first_of_previous_month y m))
             (month (first_of_previous_month y m)) pd.
Proof.
  intros Hy Hm.
  destruct (prev_month_ok_spec y m (prev_month_ok_all y m Hy Hm)) as [pd Hpd].
  exists pd. unfold fromordinal. rewrite Hpd. reflexivity.
Qed.

Lemma first_of_previous_month_fields (y m : Z) :
  MINYEAR < y < MAXYEAR -> 1 <= m <= 12 ->
  let p := first_of_previous_month y m in
  MINYEAR <= year p <= MAXYEAR /\ 1 <= month p <= 12 /\ day p = 1.
Proof.
  intros Hy Hm. unfold first_of_previous_month, MINYEAR, MAXYEAR in *.
  destruct (Z.eqb_spec m 1); cbn; lia.
Qed.

(** On the first of a month the window is the whole previous month. *)
Lemma window_first_day (y m : Z) :
  MINYEAR < y < MAXYEAR -> 1 <= m <= 12 ->
  reporting_window (mkdate y m 1)
  = Ret (first_of_previous_month y m, mkdate y m 1).
Proof.
  intros Hy Hm.
  pose proof (days_in_month_bounds y m Hm) as Hdim.
  destruct (fromordinal_before_first y m) as [pd Hpd];
    [unfold MINYEAR in Hy; lia | assumption |].
  destruct (first_of_previous_month_fields y m Hy Hm) as (Hpy & Hpm & Hpday).
  pose proof (days_in_month_bounds (year (first_of_previous_month y m)) _ Hpm).
  unfold reporting_window, replace_day.
  change (day (mkdate y m 1) =? 1) with true. cbv iota.
  change (year (mkdate y m 1)) with y. change (month (mkdate y m 1)) with m.
  rewrite (new_ok y m 1) by (unfold MINYEAR, MAXYEAR in *; lia).
  unfold rbind at 1. rewrite sub_days_first by assumption.
  unfold rbind at 1. rewrite Hpd.
  change (year (mkdate ?a ?b ?c)) with a. change (month (mkdate ?a ?b ?c)) with b.
  rewrite new_ok by lia. unfold rbind.
  f_equal. f_equal. rewrite <- Hpday.
  now destruct (first_of_previous_month y m).
Qed.

(** On any other day it starts on the first of the current month and its
    exclusive end is today. *)
Lemma window_other_day (today : date) :
  valid today = true -> day today <> 1 ->
  reporting_window today
  = Ret (mkdate (year today) (month today) 1, today).
Proof.
  intros Hv Hd. apply valid_inv in Hv as (Hy & Hm & Hday).
  unfold reporting_window, replace_day.
  destruct (Z.eqb_spec (day today) 1) as [|_]; [contradiction|].
  rewrite new_ok by (try assumption; lia). reflexivity.
Qed.

(** The request for the forecast can always be formed. *)
Lemma forecast_period_ok (today : date) :
  valid today = true -> MINYEAR < year today < MAXYEAR ->
  exists end_,
    rbind (replace_day today (days_in_month (year today) (month today)))
          (fun d => add_days d 1) = Ret end_.
Proof.
  intros Hv Hy. apply valid_inv in Hv as (_ & Hm & Hday).
  pose proof (days_in_month_bounds (year today) _ Hm) as Hdim.
  pose proof (days_before_month_bounds (year today) _ Hm) as Hdbm.
  pose proof (days_before_year_bounds _ Hy) as Hdby.
  unfold replace_day.
  rewrite new_ok by (unfold MINYEAR, MAXYEAR in *; lia).
  cbn [rbind]. unfold add_days, sub_days, toordinal. cbn [year month day].
  match goal with |- context [if ?b then _ else _] =>
    replace b with true
      by (symmetry; rewrite andb_true_iff, Z.ltb_lt, Z.leb_le;
          unfold ymd2ord, MAXORDINAL; lia) end.
  eexists. reflexivity.
Qed.

(** ** Which calls a computation makes *)

Lemma all_calls_lift P {A} (r : result A) : all_calls P (lift r).
Proof. reflexivity. Qed.

Lemma all_calls_mret P {A} (a : A) : all_calls P (mret a).
Proof. reflexivity. Qed.

Lemma all_calls_do_call P {A} (c : call) (r : result A) :
  P c = true -> all_calls P (do_call c r).
Proof. intros H. unfold all_calls. cbn. now rewrite H. Qed.

Lemma all_calls_mbind P {A B} (m : M A) (k : A -> M B) :
  all_calls P m -> (forall a, all_calls P (k a)) -> all_calls P (mbind m k).
Proof.
  unfold all_calls. intros Hm Hk. rewrite trace_mbind, forallb_app, Hm.
  destruct (outcome m); [apply Hk | reflexivity | reflexivity].
Qed.

Lemma all_calls_try_except P {A} (b : M A) c (h : exn -> M A) :
  all_calls P b -> (forall e, all_calls P (h e)) ->
  all_calls P (try_except b c h).
Proof.
  unfold all_calls. intros Hb Hh. rewrite trace_try_except, forallb_app, Hb.
  destruct (outcome b) as [a|e|]; try reflexivity.
  destruct (c e); [apply Hh | reflexivity].
Qed.

Lemma not_attempted_iff (t : list call) :
  forecast_attempted t = false
  <-> forallb (fun c => negb (is_forecast_call c)) t = true.
Proof.
  unfold forecast_attempted. induction t as [|c t IH]; cbn; [tauto|].
  rewrite orb_false_iff, andb_true_iff, negb_true_iff. tauto.
Qed.

Section Calls.

Variable L : Lib.
Variable C : Config.
Variable E : Env.
Variable P : call -> bool.

Lemma fetch_cost_groups_calls :
  (forall req, P (CallGetCostAndUsage req) = true) ->
  forall fuel s e tok acc,
    all_calls P (fetch_cost_groups C E fuel s e tok acc).
Proof.
  intros HP. induction fuel as [|fuel IH]; intros s e tok acc.
  - apply all_calls_lift.
  - cbn [fetch_cost_groups].
    apply all_calls_mbind; [now apply all_calls_do_call|]. intros response.
    apply all_calls_mbind; [apply all_calls_lift|]. intros groups.
    destruct (truthy _); [apply IH | apply all_calls_mret].
Qed.

Lemma fetch_recommendations_calls :
  (forall a tok, P (CallListRecommendations a tok) = true) ->
  forall fuel acct tok acc,
    all_calls P (fetch_recommendations E fuel acct tok acc).
Proof.
  intros HP. induction fuel as [|fuel IH]; intros acct tok acc.
  - apply all_calls_lift.
  - cbn [fetch_recommendations].
    apply all_calls_mbind; [now apply all_calls_do_call|]. intros response.
    destruct (truthy _); [apply IH | apply all_calls_mret].
Qed.

Lemma enrich_calls :
  (forall model n p, P (CallInvokeModel model n p) = true) ->
  forall s n p, all_calls P (enrich L C E s n p).
Proof.
  intros HP s n p. unfold enrich, bedrock_analysis.
  apply all_calls_try_except; [|intros; apply all_calls_mret].
  apply all_calls_mbind; [|intros; apply all_calls_mret].
  apply all_calls_mbind; [now apply all_calls_do_call|]. intros body.
  repeat (apply all_calls_mbind; [apply all_calls_lift|]; intros ?).
  apply all_calls_lift.
Qed.

Lemma cost_report_calls :
  (forall model n p, P (CallInvokeModel model n p) = true) ->
  forall acct first s e groups forecast,
    all_calls P (cost_report L C E acct first s e groups forecast).
Proof.
  intros HP acct first s e groups forecast. unfold cost_report.
  destruct groups as [|g groups], forecast as [|f forecast];
    try apply all_calls_mret;
    repeat (apply all_calls_mbind; [apply all_calls_lift|]; intros ?);
    (apply all_calls_mbind; [now apply enrich_calls|]);
    intros; apply all_calls_mret.
Qed.

Lemma recommendation_report_calls :
  (forall model n p, P (CallInvokeModel model n p) = true) ->
  forall acct recs, all_calls P (recommendation_report L C E acct recs).
Proof.
  intros HP acct recs. unfold recommendation_report.
  destruct recs as [|r recs]; [apply all_calls_mret|].
  repeat (apply all_calls_mbind; [apply all_calls_lift|]; intros ?).
  apply all_calls_mbind; [now apply enrich_calls|].
  intros; apply all_calls_mret.
Qed.

End Calls.

Lemma run_cost_explorer_workflow_unfold (L : Lib) (C : Config) (E : Env)
    (fuel : nat) (acct : string) (s e : date) :
  reporting_window (utcnow_date E) = Ret (s, e) ->
  run_cost_explorer_workflow L C E fuel acct
  = mbind (fetch_cost_groups C E fuel (isoformat s) (isoformat e) None [])
      (fun all_groups =>
       mbind (if negb (day (utcnow_date E) =? 1)
              then fetch_forecast E (utcnow_date E) else mret [])
         (fun forecast_data =>
          cost_report L C E acct (day (utcnow_date E) =? 1) (isoformat s)
                      (isoformat e) all_groups forecast_data)).
Proof.
  intros H. unfold run_cost_explorer_workflow. rewrite H.
  now rewrite mbind_lift_ret.
Qed.

Lemma fetch_cost_groups_first_call (C : Config) (E : Env) (fuel : nat)
    (s e : string) (acc : list CostGroup) :
  fuel <> 0%nat ->
  exists req rest,
    trace (fetch_cost_groups C E fuel s e None acc)
    = CallGetCostAndUsage req :: rest
    /\ TimePeriodStart req = s /\ TimePeriodEnd req = e.
Proof.
  destruct fuel as [|fuel]; [congruence|]. intros _.
  cbn [fetch_cost_groups]. rewrite trace_mbind. cbn [trace do_call fst app].
  eexists. eexists. split; [reflexivity|]. split; reflexivity.
Qed.

Lemma fetch_forecast_first_call (E : Env) (today : date) :
  valid today = true -> MINYEAR < year today < MAXYEAR ->
  exists s e rest,
    trace (fetch_forecast E today) = CallGetCostForecast s e :: rest.
Proof.
  intros Hv Hy. destruct (forecast_period_ok today Hv Hy) as [end_ Hend].
  apply rbind_ret in Hend as (d & Hd & Hend).
  unfold fetch_forecast. rewrite trace_try_except, Hd, mbind_lift_ret.
  rewrite Hend, mbind_lift_ret, trace_mbind. cbn [trace do_call fst app].
  eexists. eexists. eexists. reflexivity.
Qed.

(** Claim C1.  For a current UTC date [today] that [datetime] can hold,
    with neighbours on both sides (a valid date strictly between the years
    [MINYEAR] and [MAXYEAR]): the window computed by
    [run_cost_explorer_workflow] is, when [today.day == 1], the whole previous
    calendar month (start on the first of the previous month, exclusive end
    on the first of the current one) and otherwise runs from the first of the
    current month with exclusive end today, so that yesterday is its last
    day; that window is what the first cost request carries; and the forecast
    call is made only if [today.day != 1], and is made whenever
    [today.day != 1] and the paging of the cost data has returned. *)
Theorem C1_reporting_window_and_forecast_gate
    (L : Lib) (C : Config) (E : Env) (fuel : nat) (aws_account_id : string) :
  let today := utcnow_date E in
  let run := run_cost_explorer_workflow L C E fuel aws_account_id in
  valid today = true -> MINYEAR < year today < MAXYEAR ->
  exists start_date end_date_for_api,
    reporting_window today = Ret (start_date, end_date_for_api)
    /\ (day today = 1 ->
        start_date = first_of_previous_month (year today) (month today)
        /\ end_date_for_api = mkdate (year today) (month today) 1)
    /\ (day today <> 1 ->
        let yesterday :=
          mkdate (year today) (month today) (day today - 1) in
        start_date = mkdate (year today) (month today) 1
        /\ end_date_for_api = today
        /\ valid yesterday = true
        /\ toordinal yesterday = toordinal end_date_for_api - 1)
    /\ (fuel <> 0%nat ->
        exists req rest,
          trace run = CallGetCostAndUsage req :: rest
          /\ TimePeriodStart req = isoformat start_date
          /\ TimePeriodEnd req = isoformat end_date_for_api)
    /\ (forecast_attempted (trace run) = true -> day today <> 1)
    /\ (day today <> 1 ->
        (exists groups,
           outcome (fetch_cost_groups C E fuel (isoformat start_date)
                      (isoformat end_date_for_api) None []) = Ret groups) ->
        forecast_attempted (trace run) = true).
Proof.
  intros today run Hv Hy.
  assert (exists s e, reporting_window today = Ret (s, e)
            /\ (day today = 1 ->
                s = first_of_previous_month (year today) (month today)
                /\ e = mkdate (year today) (month today) 1)
            /\ (day today <> 1 ->
                s = mkdate (year today) (month today) 1 /\ e = today))
    as (s & e & Hw & Hfirst & Hother).
  { destruct (Z.eq_dec (day today) 1) as [H1|H1].
    - pose proof (valid_inv today Hv) as (_ & Hm & _).
      exists (first_of_previous_month (year today) (month today)),
             (mkdate (year today) (month today) 1).
      split; [|split; [auto | contradiction]].
      rewrite <- (window_first_day _ _ Hy Hm). f_equal.
      destruct today as [y m d]. cbn in *. now subst d.
    - exists (mkdate (year today) (month today) 1), today.
      split; [now apply window_other_day|]. split; [contradiction | auto]. }
  exists s, e. split; [exact Hw|]. split; [exact Hfirst|].
  pose proof (run_cost_explorer_workflow_unfold L C E fuel aws_account_id
                s e Hw) as Hrun.
  fold today run in Hrun.
  split; [|split; [|split]].
  - intros H1 yesterday. destruct (Hother H1) as [-> ->].
    split; [reflexivity|]. split; [reflexivity|].
    pose proof (valid_inv today Hv) as (Hyr & Hm & Hd).
    split.
    + unfold valid, valid_fields, yesterday. cbn [year month day].
      rewrite !andb_true_iff, !Z.leb_le. lia.
    + unfold toordinal, ymd2ord, yesterday. cbn [year month day]. lia.
  - intros Hfuel.
    destruct (fetch_cost_groups_first_call C E fuel (isoformat s)
                (isoformat e) [] Hfuel) as (req & rest & Ht & Hs & He).
    rewrite Hrun, trace_mbind, Ht. cbn [app].
    eexists. eexists. split; [reflexivity|]. now split.
  - intros Hatt Hday. rewrite Hrun in Hatt.
    enough (forecast_attempted
              (trace (mbind (fetch_cost_groups C E fuel (isoformat s)
                               (isoformat e) None [])
                 (fun all_groups =>
                  mbind (if negb (day today =? 1)
                         then fetch_forecast E today else mret [])
                    (fun forecast_data =>
                     cost_report L C E aws_account_id (day today =? 1)
                       (isoformat s) (isoformat e) all_groups
                       forecast_data)))) = false) by congruence.
    apply not_attempted_iff.
    apply all_calls_mbind; [now apply fetch_cost_groups_calls|].
    intros groups. rewrite Hday. cbn [Z.eqb negb].
    apply all_calls_mbind; [apply all_calls_mret|].
    intros forecast. now apply cost_report_calls.
  - intros Hday [groups Hgroups]. rewrite Hrun, trace_mbind, Hgroups.
    destruct (Z.eqb_spec (day today) 1) as [|_]; [contradiction|].
    cbn [negb]. rewrite trace_mbind.
    destruct (fetch_forecast_first_call E today Hv Hy) as (fs & fe & rest & Hf).
    rewrite Hf. unfold forecast_attempted.
    rewrite existsb_app. cbn. apply orb_true_r.
Qed.

(** A first-of-month run and a mid-month run of the sample environment. *)
Lemma C1_witness :
  (exists start_date end_date_for_api,
     reporting_window (mkdate 2024 3 1) = Ret (start_date, end_date_for_api)
     /\ start_date = mkdate 2024 2 1 /\ end_date_for_api = mkdate 2024 3 1)
  /\ forecast_attempted
       (trace (run_cost_explorer_workflow Sample.lib Sample.config
                 (Sample.env (mkdate 2024 7 15) [Sample.ec2_group] [] "")
                 3 Sample.account)) = true.
Proof.
  split.
  - destruct (C1_reporting_window_and_forecast_gate Sample.lib Sample.config
                (Sample.env (mkdate 2024 3 1) [Sample.ec2_group] [] "")
                3 Sample.account eq_refl ltac:(cbv; split; reflexivity))
      as (s & e & Hw & Hfirst & _).
    exists s, e. split; [exact Hw|]. exact (Hfirst eq_refl).
  - destruct (C1_reporting_window_and_forecast_gate Sample.lib Sample.config
                (Sample.env (mkdate 2024 7 15) [Sample.ec2_group] [] "")
                3 Sample.account eq_refl ltac:(cbv; split; reflexivity))
      as (s & e & Hw & _ & Hother & _ & _ & Hatt).
    apply Hatt; [discriminate|].
    destruct (Hother ltac:(discriminate)) as (-> & -> & _).
    eexists. vm_compute. reflexivity.
Defined.

(** ** Claim C2: delivery with three attempts and exponential back-off *)

Lemma send_attempts_policy (E : Env) (endpoint url payload : string) :
  send_attempts E 3 0 endpoint url payload
  = retry_policy E endpoint url payload.
Proof.
  unfold retry_policy, attempt_ok, failed_round, last_round.
  cbn [send_attempts]. unfold status_ok.
  destruct (https_post E 0) as [s0|e0];
    [destruct ((200 <=? s0) && (s0 <? 300)); [reflexivity|]|];
    (destruct (https_post E 1) as [s1|e1];
       [destruct ((200 <=? s1) && (s1 <? 300)); [reflexivity|]|];
       (destruct (https_post E 2) as [s2|e2];
          [destruct ((200 <=? s2) && (s2 <? 300)); reflexivity
          |reflexivity])).
Qed.

(** Claim C2.  For a non-empty event list (and the licence key the handler
    has checked) [send_to_new_relic] behaves as the retry policy says: an
    attempt succeeds iff its status is in [[200, 300)]; on the first success
    the function returns with no further POST; every failed attempt [i] (bad
    status or transport error) is followed by a sleep of [2^i] seconds plus
    the jitter drawn from [random.uniform(0, 1)], so the base waits are 1, 2
    and 4; there are never more than 3 POSTs; and after the third failure the
    delivery error is raised.  If the draws of [random.uniform(0, 1)] lie in
    [[0, 1)], so does the jitter of every sleep. *)
Theorem C2_delivery_retry_policy
    (L : Lib) (C : Config) (E : Env) (events : list event) (key : string) :
  events <> [] -> NEW_RELIC_LICENSE_KEY C = Some key ->
  let run := send_to_new_relic L C E events in
  let endpoint := new_relic_endpoint key in
  let url := new_relic_url C in
  let payload := encode_events L events in
  let failed := failed_round E endpoint url payload in
  let last := last_round endpoint url payload in
    run = retry_policy E endpoint url payload
    /\ (forall i status, https_post E i = HttpStatus status ->
          (attempt_ok E i = true <-> 200 <= status < 300))
    /\ (forall i e, https_post E i = HttpError e -> attempt_ok E i = false)
    /\ (count_posts (trace run) <= 3)%nat
    /\ (attempt_ok E 0 = true -> run = (last, Ret tt))
    /\ (attempt_ok E 0 = false -> attempt_ok E 1 = true ->
        run = (failed 0%nat ++ last, Ret tt))
    /\ (attempt_ok E 0 = false -> attempt_ok E 1 = false ->
        attempt_ok E 2 = true ->
        run = (failed 0%nat ++ failed 1%nat ++ last, Ret tt))
    /\ (attempt_ok E 0 = false -> attempt_ok E 1 = false ->
        attempt_ok E 2 = false ->
        run = (failed 0%nat ++ failed 1%nat ++ failed 2%nat,
               Raise delivery_failure))
    /\ (forall base jitter, In (CallSleep base jitter) (trace run) ->
        exists i, (i < 3)%nat /\ base = 2 ^ Z.of_nat i
                  /\ jitter = random_uniform E i /\ attempt_ok E i = false)
    /\ ((forall i, (0 <=? random_uniform E i)%float = true
                   /\ (random_uniform E i <? 1)%float = true) ->
        forall base jitter, In (CallSleep base jitter) (trace run) ->
          In base [1; 2; 4]
          /\ (0 <=? jitter)%float = true /\ (jitter <? 1)%float = true).
Proof.
  intros Hne Hkey run endpoint url payload failed last.
  assert (run = retry_policy E endpoint url payload) as Hrun.
  { unfold run, send_to_new_relic. destruct events as [|ev events];
      [congruence|]. rewrite Hkey. apply send_attempts_policy. }
  split; [exact Hrun|].
  split.
  { intros i status Hi. unfold attempt_ok. rewrite Hi.
    rewrite andb_true_iff, Z.leb_le, Z.ltb_lt. tauto. }
  split.
  { intros i e Hi. unfold attempt_ok. now rewrite Hi. }
  assert (Hsleep : forall base jitter,
             In (CallSleep base jitter) (trace run) ->
             exists i, (i < 3)%nat /\ base = 2 ^ Z.of_nat i
                       /\ jitter = random_uniform E i
                       /\ attempt_ok E i = false).
  { intros base jitter. rewrite Hrun. unfold retry_policy.
    destruct (attempt_ok E 0) eqn:H0; [cbn; intuition discriminate|].
    destruct (attempt_ok E 1) eqn:H1.
    { cbn. intros [H|[H|[H|[H|[H|H]]]]]; try discriminate; try contradiction.
      exists 0%nat. inversion H. auto. }
    destruct (attempt_ok E 2) eqn:H2.
    { cbn. intros [H|[H|[H|[H|[H|[H|[H|[H|H]]]]]]]];
        try discriminate; try contradiction.
      - exists 0%nat. inversion H. auto.
      - exists 1%nat. inversion H. auto. }
    cbn. intros [H|[H|[H|[H|[H|[H|[H|[H|[H|H]]]]]]]]];
      try discriminate; try contradiction.
    - exists 0%nat. inversion H. auto.
    - exists 1%nat. inversion H. auto.
    - exists 2%nat. inversion H. auto. }
  split.
  { rewrite Hrun. unfold retry_policy.
    destruct (attempt_ok E 0), (attempt_ok E 1), (attempt_ok E 2);
      cbn; lia. }
  split; [intros H0; rewrite Hrun; unfold retry_policy; now rewrite H0|].
  split; [intros H0 H1; rewrite Hrun; unfold retry_policy;
          now rewrite H0, H1|].
  split; [intros H0 H1 H2; rewrite Hrun; unfold retry_policy;
          now rewrite H0, H1, H2|].
  split; [intros H0 H1 H2; rewrite Hrun; unfold retry_policy;
          now rewrite H0, H1, H2|].
  split; [exact Hsleep|].
  intros Hjit base jitter Hin.
  destruct (Hsleep base jitter Hin) as (i & Hi & -> & -> & _).
  split; [|apply Hjit].
  destruct i as [|[|[|i]]]; cbn; try tauto. lia.
Qed.

(** Two failures (a 503, then a transport error) and a success. *)
Lemma C2_witness :
  let E := mkEnv (mkdate 2024 7 15) (Sample.one_page []) Sample.no_forecast
             (Sample.recs_page []) (Sample.model_says "")
             (fun i => match i with
                       | 0%nat => HttpStatus 503
                       | 1%nat => HttpError (mkexn ClientError "timed out")
                       | _ => HttpStatus 202
                       end)
             Sample.half in
  let post := CallPost "insights-collector.eu01.nr-data.net"
                       "/v1/accounts/1234567/events" "payload" in
  send_to_new_relic Sample.lib Sample.config E [[("eventType", VStr "x")]]
  = ([post; CallClose; CallSleep 1 0.5%float;
      post; CallClose; CallSleep 2 0.5%float;
      post; CallClose], Ret tt).
Proof.
  intros E post.
  destruct (C2_delivery_retry_policy Sample.lib Sample.config E
              [[("eventType", VStr "x")]] "eu01xx0000NRAL"
              ltac:(discriminate) eq_refl)
    as (Hrun & _).
  rewrite Hrun. reflexivity.
Defined.

(** ** Claim C3: a failing workflow is isolated, a failing delivery is not *)

Lemma deliver_all (L : Lib) (C : Config) (E : Env) (events : list event) :
  match events with
  | [] => mret tt
  | _ => send_to_new_relic L C E events
  end = send_to_new_relic L C E events.
Proof. now destruct events. Qed.

Lemma guarded_workflow (m : M (list event)) (events : list event) :
  contribution m = Some events ->
  trace (try_except m (fun e => isinstance e PlainException)
                    (fun _ => mret [])) = trace m
  /\ outcome (try_except m (fun e => isinstance e PlainException)
                         (fun _ => mret [])) = Ret events.
Proof.
  unfold contribution. rewrite trace_try_except, outcome_try_except.
  destruct (outcome m) as [evs|e|]; intros H; inversion H; subst;
    cbn; rewrite app_nil_r; split; reflexivity.
Qed.

(** The handler, once the configuration check and the account id are
    through: both workflows run, each under its own [try], and whatever
    they contributed is delivered in one go. *)
Lemma lambda_handler_runs (L : Lib) (C : Config) (E : Env) (fuel : nat)
    (arn acct : string) (cost_events rec_events : list event) :
  truthy (NEW_RELIC_LICENSE_KEY C) = true ->
  truthy (NEW_RELIC_ACCOUNT_ID C) = true ->
  nth_error (py_split ":" arn) 4 = Some acct ->
  contribution (run_cost_explorer_workflow L C E fuel acct)
  = Some cost_events ->
  contribution (run_recommendation_workflow L C E fuel acct)
  = Some rec_events ->
  let send := send_to_new_relic L C E (cost_events ++ rec_events) in
  trace (lambda_handler L C E fuel arn)
  = trace (run_cost_explorer_workflow L C E fuel acct)
    ++ trace (run_recommendation_workflow L C E fuel acct) ++ trace send
  /\ outcome (lambda_handler L C E fuel arn)
     = handler_outcome (outcome send)
         (List.length (cost_events ++ rec_events)).
Proof.
  intros Hkey Hid Harn Hcost Hrec send.
  destruct (guarded_workflow _ _ Hcost) as [Htc Hoc].
  destruct (guarded_workflow _ _ Hrec) as [Htr Hor].
  unfold lambda_handler. rewrite Hkey, Hid, Harn. cbn [negb orb].
  rewrite mbind_lift_ret. split.
  - rewrite trace_mbind, Htc, Hoc. f_equal.
    rewrite trace_mbind, Htr, Hor. f_equal.
    rewrite trace_mbind, deliver_all. fold send.
    destruct (outcome send); cbn; now rewrite app_nil_r.
  - rewrite outcome_mbind, Hoc, outcome_mbind, Hor, outcome_mbind.
    rewrite deliver_all. fold send. now destruct (outcome send).
Qed.

(** Claim C3.  In an invocation that passes the configuration check, if
    exactly one of the two workflows raises, the handler catches the error,
    still runs the other workflow (its calls are in the trace) and hands
    exactly the other workflow's events to [send_to_new_relic]; when that
    returns the handler returns status 200, and when it raises, the same
    exception leaves the handler. *)
Theorem C3_failure_isolation
    (L : Lib) (C : Config) (E : Env) (fuel : nat) (arn acct : string)
    (survivors : list event) :
  let cost := run_cost_explorer_workflow L C E fuel acct in
  let recs := run_recommendation_workflow L C E fuel acct in
  let handler := lambda_handler L C E fuel arn in
  let send := send_to_new_relic L C E survivors in
  truthy (NEW_RELIC_LICENSE_KEY C) = true ->
  truthy (NEW_RELIC_ACCOUNT_ID C) = true ->
  nth_error (py_split ":" arn) 4 = Some acct ->
  ((exists e, outcome cost = Raise e) /\ outcome recs = Ret survivors)
  \/ (outcome cost = Ret survivors /\ exists e, outcome recs = Raise e) ->
  trace handler = trace cost ++ trace recs ++ trace send
  /\ (outcome send = Ret tt ->
      outcome handler
      = Ret (mkHandlerResult 200 (completion_body (List.length survivors))))
  /\ (forall e, outcome send = Raise e -> outcome handler = Raise e).
Proof.
  intros cost recs handler send Hkey Hid Harn Hone.
  assert (exists cost_events rec_events,
            contribution cost = Some cost_events
            /\ contribution recs = Some rec_events
            /\ cost_events ++ rec_events = survivors)
    as (ce & re & Hc & Hr & Happ).
  { unfold contribution.
    destruct Hone as [[[e He] Hr] | [Hc [e He]]].
    - exists [], survivors. now rewrite He, Hr.
    - exists survivors, []. rewrite He, Hc. now rewrite app_nil_r. }
  destruct (lambda_handler_runs L C E fuel arn acct ce re Hkey Hid Harn Hc Hr)
    as [Ht Ho].
  rewrite Happ in Ht, Ho. fold cost recs handler send in Ht, Ho.
  split; [exact Ht|]. split.
  - intros Hs. now rewrite Ho, Hs.
  - intros e Hs. now rewrite Ho, Hs.
Qed.

(** Cost Explorer denies access, one recommendation comes back: its detail
    and summary records are delivered and the handler reports 200; with an
    endpoint that keeps answering 503 the delivery error gets out. *)
Lemma C3_witness :
  let E := fun status =>
    mkEnv (mkdate 2024 7 15) Sample.access_denied Sample.no_forecast
      (Sample.recs_page [Sample.ebs_rec (VFloat 5) (VFloat 20)])
      (Sample.model_says Sample.x1_escaped) (Sample.always status)
      Sample.half in
  outcome (lambda_handler Sample.lib Sample.config (E 202) 3 Sample.arn)
  = Ret (mkHandlerResult 200 (completion_body 2))
  /\ outcome (lambda_handler Sample.lib Sample.config (E 503) 3 Sample.arn)
     = Raise delivery_failure.
Proof.
  intros E.
  pose (survivors :=
          match outcome (run_recommendation_workflow Sample.lib Sample.config
                           (E 202) 3 Sample.account) with
          | Ret events => events
          | _ => []
          end).
  split.
  - destruct (C3_failure_isolation Sample.lib Sample.config (E 202) 3
                Sample.arn Sample.account survivors eq_refl eq_refl eq_refl)
      as (_ & H200 & _).
    + left. split; [eexists|]; vm_compute; reflexivity.
    + apply H200. vm_compute. reflexivity.
  - destruct (C3_failure_isolation Sample.lib Sample.config (E 503) 3
                Sample.arn Sample.account survivors eq_refl eq_refl eq_refl)
      as (_ & _ & Hraise).
    + left. split; [eexists|]; vm_compute; reflexivity.
    + apply Hraise. vm_compute. reflexivity.
Defined.

(** ** Dictionaries *)

Lemma dict_get_set_same {V} (d : dict V) (k : string) (v : V) :
  dict_get (dict_set d k v) k = Some v.
Proof.
  induction d as [|[k' v'] d IH]; cbn.
  - now rewrite String.eqb_refl.
  - destruct (String.eqb k' k) eqn:Hk; cbn; rewrite Hk; [reflexivity | exact IH].
Qed.

Lemma dict_get_set_other {V} (d : dict V) (k k' : string) (v : V) :
  String.eqb k' k = false -> dict_get (dict_set d k' v) k = dict_get d k.
Proof.
  intros Hne. induction d as [|[k0 v0] d IH]; cbn.
  - now rewrite Hne.
  - destruct (String.eqb k0 k') eqn:Hk; cbn.
    + apply String.eqb_eq in Hk. subst k0. now rewrite Hne.
    + now rewrite IH.
Qed.

Lemma dict_get_update_other {V} (kvs : list (string * V)) : forall (d : dict V) k,
  (forall kv, In kv kvs -> String.eqb (fst kv) k = false) ->
  dict_get (dict_update d kvs) k = dict_get d k.
Proof.
  unfold dict_update. induction kvs as [|kv kvs IH]; intros d k H; cbn.
  - reflexivity.
  - rewrite IH by (intros; apply H; now right).
    apply dict_get_set_other. apply H. now left.
Qed.

Lemma prefix_eqb_false (p k k' : string) :
  String.prefix p k' = false -> String.eqb (p ++ k)%string k' = false.
Proof.
  revert k'. induction p as [|a p IH]; intros k'; cbn.
  - destruct k'; discriminate.
  - destruct k' as [|b k']; [reflexivity|].
    destruct (ascii_dec a b) as [->|Hne]; intros H.
    + rewrite Ascii.eqb_refl. apply IH. cbn in H.
      now destruct (ascii_dec b b).
    + apply Ascii.eqb_neq in Hne. now rewrite Hne.
Qed.

Lemma analysis_fields_keys (kvs : dict pyval) (kv : string * pyval) (k : string) :
  is_analysis_key k = false -> In kv (analysis_fields kvs) ->
  String.eqb (fst kv) k = false.
Proof.
  intros Hk Hin. unfold analysis_fields in Hin.
  apply in_map_iff in Hin as ([k0 v0] & <- & _). cbn [fst].
  now apply prefix_eqb_false.
Qed.

(** ** Results that do not depend on fuel *)

Lemma settled_ret {A} (a : A) : settled (Ret a).
Proof. discriminate. Qed.

Lemma settled_raise {A} (e : exn) : settled (@Raise A e).
Proof. discriminate. Qed.

Lemma settled_of_reply {A} (r : reply A) : settled (of_reply r).
Proof. destruct r; discriminate. Qed.

Lemma settled_rbind {A B} (r : result A) (k : A -> result B) :
  settled r -> (forall a, settled (k a)) -> settled (rbind r k).
Proof.
  intros Hr Hk. destruct r; cbn; [apply Hk | discriminate | now contradiction Hr].
Qed.

Lemma settled_mbind {A B} (m : M A) (k : A -> M B) :
  settled (outcome m) -> (forall a, settled (outcome (k a))) ->
  settled (outcome (mbind m k)).
Proof.
  intros Hm Hk. rewrite outcome_mbind.
  destruct (outcome m); [apply Hk | discriminate | now contradiction Hm].
Qed.

Lemma settled_float_of_Z (z : Z) : settled (float_of_Z z).
Proof. unfold float_of_Z. destruct (is_infinity _); discriminate. Qed.

Lemma settled_py_float (f : string -> option float) (v : pyval) :
  settled (py_float f v).
Proof.
  destruct v; cbn; try discriminate.
  - apply settled_float_of_Z.
  - destruct (f s); discriminate.
Qed.

Lemma settled_py_round (x : float) : settled (py_round x).
Proof. unfold py_round. destruct (Prim2SF x); discriminate. Qed.

Lemma settled_round_times (x : float) (n : Z) : settled (round_times x n).
Proof.
  unfold round_times. apply settled_rbind; [apply settled_float_of_Z|].
  intros; apply settled_py_round.
Qed.

Lemma settled_py_get (v : pyval) (k : string) (d : pyval) :
  settled (py_get v k d).
Proof. destruct v; discriminate. Qed.

Lemma settled_py_index0 (v : pyval) : settled (py_index0 v).
Proof. destruct v as [| | | |[|a s]|[|x l]|]; discriminate. Qed.

Lemma settled_response_text (v : pyval) : settled (response_text v).
Proof.
  unfold response_text.
  apply settled_rbind; [apply settled_py_get|]. intros content.
  apply settled_rbind; [apply settled_py_index0|]. intros block.
  apply settled_rbind; [apply settled_py_get|]. intros raw.
  destruct raw; discriminate.
Qed.

Lemma settled_items_of (v : pyval) : settled (items_of v).
Proof. destruct v; discriminate. Qed.

Lemma settled_rmapM {A B} (f : A -> result B) (l : list A) :
  (forall a, settled (f a)) -> settled (rmapM f l).
Proof.
  intros Hf. induction l as [|a l IH]; cbn; [discriminate|].
  apply settled_rbind; [apply Hf|]. intros b.
  apply settled_rbind; [exact IH|]. discriminate.
Qed.

(** ** The enrichment step *)

Lemma settled_bedrock_analysis (L : Lib) (C : Config) (E : Env) n p :
  settled (outcome (bedrock_analysis L C E n p)).
Proof.
  unfold bedrock_analysis.
  apply settled_mbind; [apply settled_of_reply|]. intros body.
  apply settled_mbind; [apply settled_of_reply|]. intros response_body.
  apply settled_mbind; [apply settled_response_text|]. intros raw_text.
  apply settled_mbind; [apply settled_of_reply|]. intros analysis_result.
  apply settled_items_of.
Qed.

(** [enrich] always returns a record: the summary with the model's fields
    merged in, or with the single field [analysis.error]. *)
Lemma enrich_returns (L : Lib) (C : Config) (E : Env) (s : event) n p :
  (exists kvs, outcome (bedrock_analysis L C E n p) = Ret kvs
               /\ outcome (enrich L C E s n p)
                  = Ret (dict_update s (analysis_fields kvs)))
  \/ (exists e, outcome (bedrock_analysis L C E n p) = Raise e
                /\ outcome (enrich L C E s n p)
                   = Ret (dict_set s "analysis.error" (VStr (exn_msg e)))).
Proof.
  pose proof (settled_bedrock_analysis L C E n p) as Hs.
  unfold enrich. rewrite outcome_try_except, outcome_mbind.
  destruct (outcome (bedrock_analysis L C E n p)) as [kvs|e|].
  - left. now exists kvs.
  - right. now exists e.
  - now contradiction Hs.
Qed.

(** Whatever the model says, the fields outside [analysis.*] stay. *)
Lemma enrich_keeps (L : Lib) (C : Config) (E : Env) (s s' : event) n p k :
  outcome (enrich L C E s n p) = Ret s' ->
  is_analysis_key k = false -> dict_get s' k = dict_get s k.
Proof.
  intros Hs' Hk.
  destruct (enrich_returns L C E s n p) as [(kvs & _ & H)|(e & _ & H)];
    rewrite H in Hs'; inversion Hs'; subst s'.
  - apply dict_get_update_other. intros kv. now apply analysis_fields_keys.
  - apply dict_get_set_other.
    destruct (String.eqb_spec "analysis.error" k) as [<-|]; [discriminate|reflexivity].
Qed.

Lemma enrich_total (L : Lib) (C : Config) (E : Env) (s : event) n p :
  exists s', outcome (enrich L C E s n p) = Ret s'.
Proof.
  destruct (enrich_returns L C E s n p) as [(kvs & _ & H)|(e & _ & H)];
    eexists; exact H.
Qed.

(** ** The records of the cost report *)

Lemma record_type_is_set (t : string) (d : event) (k : string) (v : pyval) :
  String.eqb k "recordType" = false ->
  record_type_is t (dict_set d k v) = record_type_is t d.
Proof. intros H. unfold record_type_is. now rewrite dict_get_set_other. Qed.

Lemma float_field_set (f : string) (d : event) (k : string) (v : pyval) :
  String.eqb k f = false -> float_field f (dict_set d k v) = float_field f d.
Proof. intros H. unfold float_field. now rewrite dict_get_set_other. Qed.

Lemma strict_lenient (L : Lib) (g : CostGroup) (a : float) :
  strict_amount L g = Ret a -> lenient_amount L g = Ret a.
Proof.
  unfold strict_amount, lenient_amount, cost_metrics_of.
  destruct (Metrics g) as [ms|]; [cbn|discriminate].
  destruct (dict_get ms "UnblendedCost") as [m|]; [cbn|discriminate].
  destruct (Amount m); [auto|discriminate].
Qed.

Lemma Ret_inj {A} (a b : A) : Ret a = Ret b -> a = b.
Proof. congruence. Qed.

Lemma cost_detail_event_fields (L : Lib) (C : Config) (acct : string)
    (tp : string * string) (g : CostGroup) (ev : event) :
  cost_detail_event L C acct tp g = Ret ev ->
  is_detail ev = true /\ is_summary ev = false
  /\ exists a, lenient_amount L g = Ret a
               /\ float_field "cost.unblended" ev = Some a.
Proof.
  unfold cost_detail_event. intros H.
  apply rbind_ret in H as (a & Ha & H).
  repeat match type of H with
         | context [if ?b then _ else _] => destruct b
         end;
    apply Ret_inj in H; subst ev;
    (split; [|split; [|exists a; split; [exact Ha|]]]);
    unfold is_detail, is_summary;
    rewrite ?record_type_is_set, ?float_field_set by reflexivity;
    reflexivity.
Qed.

Lemma details_fields (L : Lib) (C : Config) (acct : string)
    (tp : string * string) (groups : list CostGroup) : forall amounts details,
  rmapM (strict_amount L) groups = Ret amounts ->
  rmapM (cost_detail_event L C acct tp) groups = Ret details ->
  Forall (fun ev => is_detail ev = true /\ is_summary ev = false) details
  /\ map (float_field "cost.unblended") details = map Some amounts
  /\ List.length details = List.length groups.
Proof.
  induction groups as [|g groups IH]; intros amounts details Ha Hd.
  - inversion Ha; inversion Hd; subst. repeat split; constructor.
  - cbn [rmapM] in Ha, Hd.
    apply rbind_ret in Ha as (a & Hga & Ha).
    apply rbind_ret in Ha as (amounts' & Ha' & Ha). inversion Ha; subst.
    apply rbind_ret in Hd as (ev & Hgev & Hd).
    apply rbind_ret in Hd as (details' & Hd' & Hd). inversion Hd; subst.
    destruct (IH _ _ Ha' Hd') as (IH1 & IH2 & IH3).
    destruct (cost_detail_event_fields _ _ _ _ _ _ Hgev)
      as (Hdet & Hsum & a' & Hlen & Hfield).
    rewrite (strict_lenient _ _ _ Hga) in Hlen. inversion Hlen; subst a'.
    split; [constructor; auto|]. split; cbn; congruence.
Qed.

Lemma cost_report_ret (L : Lib) (C : Config) (E : Env) (acct : string)
    (first : bool) (s e : string) (groups : list CostGroup)
    (forecast : list ForecastResult) (events : list event) :
  outcome (cost_report L C E acct first s e groups forecast) = Ret events ->
  (groups = [] /\ forecast = [] /\ events = [])
  \/ (groups <> []
      /\ exists amounts details famount prompt summary,
           rmapM (strict_amount L) groups = Ret amounts
           /\ rmapM (cost_detail_event L C acct (s, e)) groups = Ret details
           /\ forecast_amount_of L forecast = Ret famount
           /\ outcome (enrich L C E
                         (cost_summary_event C acct (s, e)
                            (py_sum L amounts) famount) 1024 prompt)
              = Ret summary
           /\ events = details ++ [summary]).
Proof.
  unfold cost_report. destruct groups as [|g groups].
  - destruct forecast as [|f forecast]; intros H.
    + left. inversion H. auto.
    + discriminate H.
  - intros H. right. split; [discriminate|].
    assert (Hcase : outcome
      (month_result <- lift (Ret ((s, e), g :: groups)) ;;
       amounts <- lift (rmapM (strict_amount L) (snd month_result)) ;;
       events <- lift (rmapM (cost_detail_event L C acct (fst month_result))
                             (snd month_result)) ;;
       forecast_amount <- lift (forecast_amount_of L forecast) ;;
       drivers <- lift (top_cost_drivers L C (g :: groups)) ;;
       total_jpy <- lift (round_times (py_sum L amounts)
                                      (JPY_EXCHANGE_RATE C)) ;;
       forecast_jpy <- lift (round_times forecast_amount
                                         (JPY_EXCHANGE_RATE C)) ;;
       summary_event <-
         enrich L C E
           (cost_summary_event C acct (fst month_result) (py_sum L amounts)
                               forecast_amount) 1024
           (cost_prompt L first
              (mk_cost_bedrock_input acct (fst month_result)
                 (py_sum L amounts) forecast_amount total_jpy forecast_jpy
                 drivers)) ;;
       mret (events ++ [summary_event]))%io = Ret events)
      by (destruct forecast; exact H).
    clear H. rewrite mbind_lift_ret in Hcase. cbn [fst snd] in Hcase.
    apply outcome_mbind_ret in Hcase as (amounts & Ham & Hcase).
    apply outcome_mbind_ret in Hcase as (details & Hdet & Hcase).
    apply outcome_mbind_ret in Hcase as (famount & Hfa & Hcase).
    apply outcome_mbind_ret in Hcase as (drivers & Hdr & Hcase).
    apply outcome_mbind_ret in Hcase as (tj & Htj & Hcase).
    apply outcome_mbind_ret in Hcase as (fj & Hfj & Hcase).
    apply outcome_mbind_ret in Hcase as (summary & Hsum & Hcase).
    inversion Hcase; subst events.
    exists amounts, details, famount. eexists. exists summary.
    repeat split; try assumption. exact Hsum.
Qed.

Lemma records_split (details : list event) (summary : event) :
  Forall (fun ev => is_detail ev = true /\ is_summary ev = false) details ->
  is_summary summary = true -> is_detail summary = false ->
  details_of (details ++ [summary]) = details
  /\ summaries_of (details ++ [summary]) = [summary].
Proof.
  intros Hd Hs Hn. unfold details_of, summaries_of.
  rewrite !filter_app. cbn. rewrite Hs, Hn.
  induction Hd as [|ev details [H1 H2] _ [IH1 IH2]]; cbn.
  - split; reflexivity.
  - rewrite H1, H2. rewrite app_nil_r in IH1. cbn in IH2.
    split; [now rewrite app_nil_r, IH1 | exact IH2].
Qed.

Lemma records_well_formed (details : list event) (summary : event) :
  Forall (fun ev => is_detail ev = true /\ is_summary ev = false) details ->
  is_summary summary = true -> is_detail summary = false ->
  well_formed_records (details ++ [summary]).
Proof.
  intros Hd Hs Hn. destruct (records_split _ _ Hd Hs Hn) as [H1 H2].
  unfold well_formed_records. rewrite H1, H2. split; [cbn; lia | reflexivity].
Qed.

Lemma well_formed_nil : well_formed_records [].
Proof. split; [cbn; lia | reflexivity]. Qed.

(** The summary of the cost report after enrichment: its kind and its two
    amounts are those of [cost_summary_event]. *)
Lemma cost_summary_fields (L : Lib) (C : Config) (E : Env) (acct : string)
    (tp : string * string) (total famount : float) n p (summary : event) :
  outcome (enrich L C E (cost_summary_event C acct tp total famount) n p)
  = Ret summary ->
  is_summary summary = true /\ is_detail summary = false
  /\ float_field "cost.totalUnblended" summary = Some total
  /\ dict_get summary "cost.monthlyForecast" = Some (VFloat famount).
Proof.
  intros H. unfold is_summary, is_detail, record_type_is, float_field.
  rewrite !(enrich_keeps _ _ _ _ _ _ _ _ H) by reflexivity.
  repeat split; reflexivity.
Qed.

Lemma run_cost_explorer_workflow_ret (L : Lib) (C : Config) (E : Env)
    (fuel : nat) (acct : string) (events : list event) :
  outcome (run_cost_explorer_workflow L C E fuel acct) = Ret events ->
  exists s e groups forecast,
    reporting_window (utcnow_date E) = Ret (s, e)
    /\ outcome (fetch_cost_groups C E fuel (isoformat s) (isoformat e)
                  None []) = Ret groups
    /\ outcome (forecast_step E) = Ret forecast
    /\ outcome (cost_report L C E acct (day (utcnow_date E) =? 1)
                  (isoformat s) (isoformat e) groups forecast) = Ret events.
Proof.
  intros H. unfold run_cost_explorer_workflow in H.
  apply outcome_mbind_ret in H as ([s e] & Hw & H).
  apply outcome_mbind_ret in H as (groups & Hg & H).
  apply outcome_mbind_ret in H as (forecast & Hf & H).
  exists s, e, groups, forecast. auto.
Qed.

(** What a returned cost report looks like. *)
Lemma cost_report_shape (L : Lib) (C : Config) (E : Env) (acct : string)
    (first : bool) (s e : string) (groups : list CostGroup)
    (forecast : list ForecastResult) (events : list event) :
  outcome (cost_report L C E acct first s e groups forecast) = Ret events ->
  (groups = [] /\ forecast = [] /\ events = [])
  \/ (groups <> []
      /\ exists amounts famount summary,
           rmapM (strict_amount L) groups = Ret amounts
           /\ forecast_amount_of L forecast = Ret famount
           /\ map (float_field "cost.unblended") (details_of events)
              = map Some amounts
           /\ List.length (details_of events) = List.length groups
           /\ summaries_of events = [summary]
           /\ well_formed_records events
           /\ float_field "cost.totalUnblended" summary
              = Some (py_sum L amounts)
           /\ dict_get summary "cost.monthlyForecast"
              = Some (VFloat famount)).
Proof.
  intros H. apply cost_report_ret in H
    as [H | (Hne & amounts & details & famount & prompt & summary
             & Ham & Hdet & Hfa & Hsum & ->)]; [now left | right].
  split; [exact Hne|]. exists amounts, famount, summary.
  destruct (details_fields _ _ _ _ _ _ _ Ham Hdet) as (Hall & Hmap & Hlen).
  destruct (cost_summary_fields _ _ _ _ _ _ _ _ _ _ Hsum)
    as (Hs & Hn & Htot & Hfc).
  destruct (records_split _ _ Hall Hs Hn) as [Hd Hss].
  pose proof (records_well_formed _ _ Hall Hs Hn) as Hwf.
  rewrite Hd, Hss.
  split; [exact Ham|]. split; [exact Hfa|]. split; [exact Hmap|].
  split; [exact Hlen|]. split; [reflexivity|]. split; [exact Hwf|].
  split; assumption.
Qed.

Lemma forecast_unavailable_none (E : Env) (today : date)
    (forecast : list ForecastResult) :
  (forall s e, forecast_unavailable (get_cost_forecast E s e)) ->
  outcome (fetch_forecast E today) = Ret forecast -> forecast = [].
Proof.
  intros Hun. unfold fetch_forecast.
  rewrite outcome_try_except, outcome_mbind. cbn [outcome lift snd].
  destruct (replace_day today _) as [d|ex|];
    [|destruct (isinstance ex _); cbn; congruence|discriminate].
  rewrite outcome_mbind. cbn [outcome lift snd].
  destruct (add_days d 1) as [end_|ex|];
    [|destruct (isinstance ex _); cbn; congruence|discriminate].
  rewrite outcome_mbind. cbn [outcome do_call snd].
  specialize (Hun (isoformat today) (isoformat end_)).
  destruct (get_cost_forecast E (isoformat today) (isoformat end_))
    as [response|ex]; cbn in *.
  - rewrite Hun. congruence.
  - rewrite Hun. cbn. congruence.
Qed.

(** ** The records of the recommendation report *)

(** One recommendation adds at most one record, a detail record. *)
Lemma process_recommendation_events (L : Lib) (C : Config) (acct : string)
    (t t' : tally) (r : Recommendation) :
  process_recommendation L C acct t r = Ret t' ->
  tally_events t' = tally_events t
  \/ exists ev, tally_events t' = tally_events t ++ [ev] /\ detail_only ev.
Proof.
  unfold process_recommendation, or_skip. intros H.
  destruct (pfloat L (opt_default (estimatedMonthlySavings r) (VInt 0)))
    as [savings|ex|]; [|destruct (_ || _) in H; [|discriminate]|discriminate].
  2: { apply Ret_inj in H. subst t'. now left. }
  destruct (pfloat L (opt_default (estimatedSavingsPercentage r) (VInt 0)))
    as [pct|ex|]; [|destruct (_ || _) in H; [|discriminate]|discriminate].
  2: { apply Ret_inj in H. subst t'. now left. }
  right. eexists.
  destruct (round_times savings (JPY_EXCHANGE_RATE C)) as [jpy|ex|];
    [|destruct (_ || _) in H; [|discriminate]|discriminate];
    apply Ret_inj in H; subst t'; cbn [tally_events];
    (split; [reflexivity | split; reflexivity]).
Qed.

Lemma tally_all_events (L : Lib) (C : Config) (acct : string)
    (recs : list Recommendation) : forall t t',
  tally_all L C acct t recs = Ret t' ->
  exists more,
    tally_events t' = tally_events t ++ more
    /\ Forall detail_only more
    /\ (List.length more <= List.length recs)%nat.
Proof.
  induction recs as [|r recs IH]; intros t t' H; cbn [tally_all] in H.
  - apply Ret_inj in H. subst t'. exists []. rewrite app_nil_r.
    repeat split; [constructor | cbn; lia].
  - apply rbind_ret in H as (t1 & H1 & H).
    destruct (IH _ _ H) as (more & Hev & Hall & Hlen).
    apply process_recommendation_events in H1 as [H1 | (ev & H1 & Hd)].
    + exists more. rewrite Hev, H1. repeat split; [assumption | cbn; lia].
    + exists (ev :: more). rewrite Hev, H1, <- app_assoc.
      repeat split; [constructor; assumption | cbn; lia].
Qed.

Lemma recommendation_report_ret (L : Lib) (C : Config) (E : Env)
    (acct : string) (recs : list Recommendation) (events : list event) :
  outcome (recommendation_report L C E acct recs) = Ret events ->
  (recs = [] /\ events = [])
  \/ (recs <> []
      /\ exists t jpy prompt summary,
           tally_all L C acct (mkTally [] 0%float [] []) recs = Ret t
           /\ outcome (enrich L C E
                         (recommendation_summary_event L C acct
                            (Z.of_nat (List.length recs)) t jpy)
                         4096 prompt) = Ret summary
           /\ events = tally_events t ++ [summary]).
Proof.
  unfold recommendation_report. destruct recs as [|r recs]; intros H.
  - left. apply Ret_inj in H. auto.
  - right. split; [discriminate|].
    apply outcome_mbind_ret in H as (t & Ht & H).
    apply outcome_mbind_ret in H as (jpy & Hjpy & H).
    apply outcome_mbind_ret in H as (summary & Hsum & H).
    apply Ret_inj in H. subst events.
    exists t, jpy. eexists. exists summary.
    split; [exact Ht|]. split; [exact Hsum | reflexivity].
Qed.

Lemma recommendation_summary_fields (L : Lib) (C : Config) (E : Env)
    (acct : string) (n : Z) (t : tally) (jpy : Z) m p (summary : event) :
  outcome (enrich L C E (recommendation_summary_event L C acct n t jpy) m p)
  = Ret summary ->
  is_summary summary = true /\ is_detail summary = false
  /\ dict_get summary "recommendation.totalCount" = Some (VInt n)
  /\ float_field "cost.totalEstimatedSavings" summary
     = Some (total_savings t)
  /\ dict_get summary "recommendation.countByType"
     = Some (VStr (json_dumps_counts L (recommendations_by_type t))).
Proof.
  intros H. unfold is_summary, is_detail, record_type_is, float_field.
  rewrite !(enrich_keeps _ _ _ _ _ _ _ _ H) by reflexivity.
  repeat split; reflexivity.
Qed.

Lemma run_recommendation_workflow_ret (L : Lib) (C : Config) (E : Env)
    (fuel : nat) (acct : string) (events : list event) :
  outcome (run_recommendation_workflow L C E fuel acct) = Ret events ->
  exists recs,
    outcome (fetch_recommendations E fuel acct None []) = Ret recs
    /\ outcome (recommendation_report L C E acct recs) = Ret events.
Proof.
  intros H. unfold run_recommendation_workflow in H.
  apply outcome_mbind_ret in H as (recs & Hr & H). now exists recs.
Qed.

(** What a returned recommendation report looks like. *)
Lemma recommendation_report_shape (L : Lib) (C : Config) (E : Env)
    (acct : string) (recs : list Recommendation) (events : list event) :
  outcome (recommendation_report L C E acct recs) = Ret events ->
  (recs = [] /\ events = [])
  \/ (recs <> []
      /\ exists t summary,
           tally_all L C acct (mkTally [] 0%float [] []) recs = Ret t
           /\ details_of events = tally_events t
           /\ (List.length (details_of events) <= List.length recs)%nat
           /\ summaries_of events = [summary]
           /\ well_formed_records events
           /\ dict_get summary "recommendation.totalCount"
              = Some (VInt (Z.of_nat (List.length recs)))
           /\ float_field "cost.totalEstimatedSavings" summary
              = Some (total_savings t)
           /\ dict_get summary "recommendation.countByType"
              = Some (VStr (json_dumps_counts L
                              (recommendations_by_type t)))).
Proof.
  intros H. apply recommendation_report_ret in H
    as [H | (Hne & t & jpy & prompt & summary & Ht & Hsum & ->)];
    [now left | right].
  split; [exact Hne|]. exists t, summary.
  destruct (tally_all_events _ _ _ _ _ _ Ht) as (more & Hev & Hall & Hlen).
  cbn [tally_events app] in Hev. subst more.
  destruct (recommendation_summary_fields _ _ _ _ _ _ _ _ _ _ Hsum)
    as (Hs & Hn & Hcount & Htot & Hby).
  destruct (records_split _ _ Hall Hs Hn) as [Hd Hss].
  pose proof (records_well_formed _ _ Hall Hs Hn) as Hwf.
  rewrite Hd, Hss.
  split; [exact Ht|]. split; [reflexivity|]. split; [exact Hlen|].
  split; [reflexivity|]. split; [exact Hwf|].
  split; [exact Hcount|]. split; assumption.
Qed.

(** ** Claim C4: the summary total is the sum of the detail amounts *)

(** Claim C4.  Whenever the cost workflow returns records, the amounts
    [cost.unblended] of its detail records, summed with the builtin [sum] in
    the order of the records, give the field [cost.totalUnblended] of its one
    summary record. *)
Theorem C4_total_is_sum_of_details
    (L : Lib) (C : Config) (E : Env) (fuel : nat) (acct : string)
    (events : list event) :
  outcome (run_cost_explorer_workflow L C E fuel acct) = Ret events ->
  events <> [] ->
  exists amounts summary,
    map (float_field "cost.unblended") (details_of events) = map Some amounts
    /\ summaries_of events = [summary]
    /\ float_field "cost.totalUnblended" summary = Some (py_sum L amounts).
Proof.
  intros H Hne.
  apply run_cost_explorer_workflow_ret in H
    as (s & e & groups & forecast & _ & _ & _ & H).
  apply cost_report_shape in H
    as [(_ & _ & ->) | (_ & amounts & famount & summary & _ & _ & Hmap & _
                        & Hsum & _ & Htot & _)]; [congruence|].
  now exists amounts, summary.
Qed.

(** Two groups of 10.00 and 2.5 USD: the summary says 12.5. *)
Lemma C4_witness :
  let events :=
    returned (run_cost_explorer_workflow Sample.lib Sample.config
                (Sample.env (mkdate 2024 7 15)
                   [Sample.ec2_group; Sample.s3_group] [] "") 3
                Sample.account) in
  map (float_field "cost.unblended") (details_of events)
  = [Some 10%float; Some 2.5%float]
  /\ exists summary,
       summaries_of events = [summary]
       /\ float_field "cost.totalUnblended" summary = Some 12.5%float.
Proof.
  intros events. split; [vm_compute; reflexivity|].
  destruct (C4_total_is_sum_of_details Sample.lib Sample.config
              (Sample.env (mkdate 2024 7 15)
                 [Sample.ec2_group; Sample.s3_group] [] "") 3
              Sample.account events eq_refl ltac:(discriminate))
    as (amounts & summary & Hmap & Hsum & Htot).
  exists summary. split; [exact Hsum|]. rewrite Htot.
  change (map (float_field "cost.unblended") (details_of events))
    with [Some 10%float; Some 2.5%float] in Hmap.
  destruct amounts as [|a [|b [|c amounts]]]; try discriminate Hmap.
  injection Hmap as <- <-. reflexivity.
Defined.

(** ** Claim C5: the top cost drivers *)

(** *** The order of binary64 numbers *)

Lemma lex3_Lt (a b : Z * Z * Z) : lex3 a b = Lt <-> lex_lt a b.
Proof.
  destruct a as [[a1 a2] a3], b as [[b1 b2] b3]. unfold lex3, lex_lt.
  destruct (Z.compare_spec a1 b1); [|intuition (try lia; try discriminate)..].
  destruct (Z.compare_spec a2 b2); [|intuition (try lia; try discriminate)..].
  rewrite Z.compare_lt_iff. intuition lia.
Qed.

Lemma lex3_Eq (a b : Z * Z * Z) : lex3 a b = Eq <-> a = b.
Proof.
  destruct a as [[a1 a2] a3], b as [[b1 b2] b3]. unfold lex3.
  destruct (Z.compare_spec a1 b1);
    [|split; [discriminate | intros Hab; inversion Hab; lia]..].
  destruct (Z.compare_spec a2 b2);
    [|split; [discriminate | intros Hab; inversion Hab; lia]..].
  rewrite Z.compare_eq_iff. split; [intros; subst; reflexivity|].
  intros Hab; inversion Hab; reflexivity.
Qed.

Lemma lex3_Gt (a b : Z * Z * Z) : lex3 a b = Gt <-> lex_lt b a.
Proof.
  destruct a as [[a1 a2] a3], b as [[b1 b2] b3]. unfold lex3, lex_lt.
  destruct (Z.compare_spec a1 b1); [|intuition (try lia; try discriminate)..].
  destruct (Z.compare_spec a2 b2); [|intuition (try lia; try discriminate)..].
  rewrite Z.compare_gt_iff. intuition lia.
Qed.

Lemma lex_lt_trans (a b c : Z * Z * Z) : lex_lt a b -> lex_lt b c -> lex_lt a c.
Proof.
  destruct a as [[a1 a2] a3], b as [[b1 b2] b3], c as [[c1 c2] c3].
  unfold lex_lt. lia.
Qed.

Lemma lex_lt_irrefl (a : Z * Z * Z) : ~ lex_lt a a.
Proof. destruct a as [[a1 a2] a3]. unfold lex_lt. lia. Qed.

Lemma lex_total (a b : Z * Z * Z) : lex_lt a b \/ a = b \/ lex_lt b a.
Proof.
  destruct (lex3 a b) eqn:H.
  - right; left. now apply lex3_Eq.
  - left. now apply lex3_Lt.
  - right; right. now apply lex3_Gt.
Qed.

Lemma SFcompare_rank (x y : spec_float) :
  x <> S754_nan -> y <> S754_nan ->
  SFcompare x y = Some (lex3 (rank x) (rank y)).
Proof.
  intros Hx Hy.
  destruct x as [sx|sx| |sx mx ex], y as [sy|sy| |sy my ey];
    try congruence;
    try (destruct sx; reflexivity); try (destruct sy; reflexivity);
    try (destruct sx, sy; reflexivity).
  destruct sx, sy; cbn; try reflexivity.
  rewrite Z.compare_opp, (Z.compare_antisym ex ey).
  destruct (ex ?= ey); reflexivity.
Qed.

Lemma not_nan_spec (x : float) : is_nan x = false -> Prim2SF x <> S754_nan.
Proof.
  unfold is_nan. rewrite negb_false_iff, eqb_spec. intros H Hn.
  rewrite Hn in H. discriminate.
Qed.

Lemma ltb_rank (x y : float) :
  (x <? y)%float = true -> lex_lt (rank (Prim2SF x)) (rank (Prim2SF y)).
Proof.
  rewrite ltb_spec. unfold SFltb. intros H.
  destruct (Prim2SF x) eqn:Hx, (Prim2SF y) eqn:Hy; try discriminate H;
    (rewrite SFcompare_rank in H by discriminate;
     apply lex3_Lt; now destruct (lex3 _ _)).
Qed.

Lemma leb_rank (x y : float) :
  (x <=? y)%float = true ->
  is_nan x = false /\ is_nan y = false
  /\ ~ lex_lt (rank (Prim2SF y)) (rank (Prim2SF x)).
Proof.
  rewrite leb_spec. unfold SFleb, is_nan. rewrite !negb_false_iff, !eqb_spec.
  unfold SFeqb. intros H.
  destruct (Prim2SF x) eqn:Hx, (Prim2SF y) eqn:Hy; try discriminate H;
    (rewrite SFcompare_rank in H by discriminate;
     rewrite !SFcompare_rank by discriminate;
     split; [now rewrite (proj2 (lex3_Eq _ _) eq_refl)|];
     split; [now rewrite (proj2 (lex3_Eq _ _) eq_refl)|];
     intros Hlt; apply lex3_Gt in Hlt; rewrite Hlt in H; discriminate).
Qed.

Lemma rank_leb (x y : float) :
  is_nan x = false -> is_nan y = false ->
  ~ lex_lt (rank (Prim2SF y)) (rank (Prim2SF x)) -> (x <=? y)%float = true.
Proof.
  intros Hx Hy Hn. apply not_nan_spec in Hx, Hy.
  rewrite leb_spec. unfold SFleb. rewrite SFcompare_rank by assumption.
  destruct (lex3 _ _) eqn:H; try reflexivity.
  apply lex3_Gt in H. contradiction.
Qed.

Lemma eqb_rank (x y : float) :
  (x =? y)%float = true -> rank (Prim2SF x) = rank (Prim2SF y).
Proof.
  rewrite eqb_spec. unfold SFeqb. intros H.
  destruct (Prim2SF x) eqn:Hx, (Prim2SF y) eqn:Hy; try discriminate H;
    (rewrite SFcompare_rank in H by discriminate;
     apply lex3_Eq; now destruct (lex3 _ _)).
Qed.

(** The four facts about [<], [<=] and [==] that the sort relies on. *)
Lemma ltb_leb (x y : float) : (x <? y)%float = true -> (x <=? y)%float = true.
Proof.
  rewrite ltb_spec, leb_spec. unfold SFltb, SFleb.
  now destruct (SFcompare _ _) as [[]|].
Qed.

Lemma not_ltb_leb (x y : float) :
  is_nan x = false -> is_nan y = false ->
  (x <? y)%float = false -> (y <=? x)%float = true.
Proof.
  intros Hx Hy H. apply rank_leb; try assumption. intros Hlt.
  apply not_nan_spec in Hx, Hy.
  rewrite ltb_spec in H. unfold SFltb in H.
  rewrite SFcompare_rank in H by assumption.
  apply lex3_Lt in Hlt. rewrite Hlt in H. discriminate.
Qed.

Lemma leb_trans (x y z : float) :
  (x <=? y)%float = true -> (y <=? z)%float = true -> (x <=? z)%float = true.
Proof.
  intros H1 H2. apply leb_rank in H1 as (Hx & Hy & H1).
  apply leb_rank in H2 as (_ & Hz & H2).
  apply rank_leb; try assumption. intros Hlt.
  destruct (lex_total (rank (Prim2SF x)) (rank (Prim2SF y)))
    as [H|[H|H]]; [|rewrite H in Hlt|]; try contradiction.
  apply H2. exact (lex_lt_trans _ _ _ Hlt H).
Qed.

Lemma ltb_not_tie (x y k : float) :
  (x =? k)%float = true -> (x <? y)%float = true -> (y =? k)%float = false.
Proof.
  intros Hxk Hxy. destruct (y =? k)%float eqn:Hyk; [|reflexivity].
  apply eqb_rank in Hxk, Hyk. apply ltb_rank in Hxy.
  rewrite Hxk, Hyk in Hxy. now apply lex_lt_irrefl in Hxy.
Qed.

(** *** The stable descending sort *)

Section StableSort.

Variable A : Type.
Implicit Types (x : float * A) (l : list (float * A)).

Lemma insert_desc_perm x l : Permutation (insert_desc x l) (x :: l).
Proof.
  induction l as [|y l IH]; cbn; [reflexivity|].
  destruct (fst x <? fst y)%float; [|reflexivity].
  rewrite IH. apply perm_swap.
Qed.

Lemma sorted_desc_perm l : Permutation (sorted_desc l) l.
Proof.
  induction l as [|x l IH]; cbn; [reflexivity|].
  rewrite insert_desc_perm. now constructor.
Qed.

Lemma sorted_desc_length l : List.length (sorted_desc l) = List.length l.
Proof. apply Permutation_length, sorted_desc_perm. Qed.

Lemma insert_desc_descending x l :
  is_nan (fst x) = false -> Forall (fun y => is_nan (fst y) = false) l ->
  descending l -> descending (insert_desc x l).
Proof.
  intros Hx Hl Hs. induction Hs as [|y l Hs IH Hy]; cbn.
  - repeat constructor.
  - inversion Hl as [|? ? Hny Hnl]; subst.
    destruct (fst x <? fst y)%float eqn:Hlt.
    + constructor; [now apply IH|].
      apply (Permutation_Forall (Permutation_sym (insert_desc_perm x l))).
      constructor; [now apply ltb_leb | exact Hy].
    + assert (Hyx : (fst y <=? fst x)%float = true)
        by now apply not_ltb_leb.
      constructor; [now constructor|].
      constructor; [exact Hyx|].
      eapply Forall_impl; [|exact Hy]. cbn. intros z Hz.
      exact (leb_trans _ _ _ Hz Hyx).
Qed.

Lemma sorted_desc_descending l :
  Forall (fun y => is_nan (fst y) = false) l -> descending (sorted_desc l).
Proof.
  induction 1 as [|x l Hx Hl IH]; cbn; [constructor|].
  apply insert_desc_descending; [exact Hx | | exact IH].
  apply (Permutation_Forall (Permutation_sym (sorted_desc_perm l))), Hl.
Qed.

Lemma insert_desc_stable (k : float) x l :
  filter (tie k) (insert_desc x l) = filter (tie k) (x :: l).
Proof.
  induction l as [|y l IH]; [reflexivity|].
  cbn [insert_desc]. destruct (fst x <? fst y)%float eqn:Hlt; [|reflexivity].
  cbn [filter] in *. rewrite IH.
  destruct (tie k x) eqn:Hx; [|reflexivity].
  unfold tie in *. now rewrite (ltb_not_tie _ _ _ Hx Hlt).
Qed.

Lemma sorted_desc_stable (k : float) l :
  filter (tie k) (sorted_desc l) = filter (tie k) l.
Proof.
  induction l as [|x l IH]; [reflexivity|].
  cbn [sorted_desc fold_right]. rewrite insert_desc_stable.
  cbn [filter]. fold (sorted_desc l). now rewrite IH.
Qed.

Lemma in_firstn (n : nat) l x : In x (firstn n l) -> In x l.
Proof.
  revert n. induction l as [|y l IH]; intros [|n]; cbn; try tauto.
  intros [H|H]; [now left | right; now apply (IH n)].
Qed.

Lemma descending_firstn (n : nat) l : descending l -> descending (firstn n l).
Proof.
  intros H. revert n. induction H as [|x l Hs IH Hx]; intros [|n]; cbn;
    try constructor; [apply IH|].
  rewrite Forall_forall in *. intros y Hy. apply Hx. now apply in_firstn in Hy.
Qed.

End StableSort.

Lemma filter_firstn_prefix {B} (p : B -> bool) (n : nat) (l : list B) :
  exists m, filter p (firstn n l) = firstn m (filter p l).
Proof.
  revert n. induction l as [|x l IH]; intros [|n]; cbn;
    try (exists 0%nat; reflexivity).
  destruct (IH n) as [m Hm]. destruct (p x).
  - exists (S m). cbn. now rewrite Hm.
  - exists m. exact Hm.
Qed.

(** *** The drivers *)

Lemma keyed_groups (L : Lib) (groups : list CostGroup) : forall keyed,
  rmapM (fun g => (k <- lenient_amount L g ;; Ret (k, g))%res) groups
  = Ret keyed ->
  map snd keyed = groups
  /\ Forall (fun kg => lenient_amount L (snd kg) = Ret (fst kg)) keyed.
Proof.
  induction groups as [|g groups IH]; intros keyed H; cbn [rmapM] in H.
  - apply Ret_inj in H. subst. split; constructor.
  - apply rbind_ret in H as (kg & Hkg & H).
    apply rbind_ret in H as (keyed' & Hk & H). apply Ret_inj in H. subst.
    apply rbind_ret in Hkg as (k & Hk' & Hkg). apply Ret_inj in Hkg. subst.
    destruct (IH _ Hk) as [IH1 IH2]. split; cbn; [congruence|].
    constructor; assumption.
Qed.

Lemma drivers_entries (L : Lib) (C : Config) (top : list (float * CostGroup)) :
  forall drivers,
  Forall (fun kg => lenient_amount L (snd kg) = Ret (fst kg)) top ->
  rmapM (fun kg : float * CostGroup =>
           (cost <- lenient_amount L (snd kg) ;;
            jpy <- round_times cost (JPY_EXCHANGE_RATE C) ;;
            Ret (mkdriver (opt_default (Keys (snd kg)) []) cost jpy))%res)
        top = Ret drivers ->
  map driver_entry drivers = map group_entry top.
Proof.
  induction top as [|kg top IH]; intros drivers Hall H; cbn [rmapM] in H.
  - apply Ret_inj in H. now subst.
  - inversion Hall as [|? ? Hkg Htop]; subst.
    apply rbind_ret in H as (d & Hd & H).
    apply rbind_ret in H as (ds & Hds & H). apply Ret_inj in H. subst.
    rewrite Hkg in Hd. cbn [rbind] in Hd.
    apply rbind_ret in Hd as (jpy & _ & Hd). apply Ret_inj in Hd. subst.
    cbn. now rewrite (IH _ Htop Hds).
Qed.

Lemma descending_keys {A} (l : list (float * A)) :
  descending l ->
  StronglySorted (fun a b => (b <=? a)%float = true) (map fst l).
Proof.
  induction 1 as [|x l Hs IH Hx]; cbn; constructor; [exact IH|].
  rewrite Forall_forall in *. intros k Hk.
  apply in_map_iff in Hk as (y & <- & Hy). now apply Hx.
Qed.

Lemma filter_map_comm {A B} (f : A -> B) (q : B -> bool) (l : list A) :
  filter q (map f l) = map f (filter (fun a => q (f a)) l).
Proof.
  induction l as [|a l IH]; cbn; [reflexivity|].
  destruct (q (f a)); cbn; now rewrite IH.
Qed.

(** Claim C5.  Provided no amount is NaN (on which Python's comparison is
    not an order), the drivers computed by the cost workflow are the first
    five of the groups sorted by amount: their number is
    [min(5, number of groups)], their amounts are in descending order, and
    for every amount the drivers with that amount are, in source order, the
    first of the groups with that amount.  [keyed] is the list of groups,
    each with its amount, in source order. *)
Theorem C5_top_cost_drivers
    (L : Lib) (C : Config) (groups : list CostGroup) (drivers : list driver) :
  top_cost_drivers L C groups = Ret drivers ->
  (forall g a, In g groups -> lenient_amount L g = Ret a ->
               is_nan a = false) ->
  exists keyed,
    map snd keyed = groups
    /\ Forall (fun kg => lenient_amount L (snd kg) = Ret (fst kg)) keyed
    /\ map driver_entry drivers = map group_entry (firstn 5 (sorted_desc keyed))
    /\ Permutation (sorted_desc keyed) keyed
    /\ descending (sorted_desc keyed)
    /\ (forall k, filter (tie k) (sorted_desc keyed) = filter (tie k) keyed)
    /\ List.length drivers = Nat.min 5 (List.length groups)
    /\ StronglySorted (fun a b => (b <=? a)%float = true)
                      (map cost_usd drivers)
    /\ (forall k, exists n,
          map driver_entry
              (filter (fun d => (cost_usd d =? k)%float) drivers)
          = firstn n (map group_entry (filter (tie k) keyed))).
Proof.
  intros H Hnan. unfold top_cost_drivers, top_5_groups in H.
  apply rbind_ret in H as (top & Htop & H).
  apply rbind_ret in Htop as (keyed & Hkeyed & Htop).
  apply Ret_inj in Htop. subst top.
  destruct (keyed_groups L groups keyed Hkeyed) as [Hsnd Hall].
  assert (Hnn : Forall (fun y : float * CostGroup => is_nan (fst y) = false)
                       keyed).
  { rewrite Forall_forall in *. intros kg Hin.
    apply (Hnan (snd kg) (fst kg)); [|now apply Hall].
    rewrite <- Hsnd. now apply in_map. }
  pose proof (sorted_desc_perm _ keyed) as Hperm.
  pose proof (sorted_desc_descending _ keyed Hnn) as Hdesc.
  assert (Htopall : Forall (fun kg => lenient_amount L (snd kg)
                                      = Ret (fst kg))
                           (firstn 5 (sorted_desc keyed))).
  { rewrite Forall_forall in *. intros kg Hin. apply Hall.
    apply (Permutation_in _ Hperm). now apply in_firstn in Hin. }
  pose proof (drivers_entries L C _ drivers Htopall H) as Hent.
  exists keyed.
  split; [exact Hsnd|]. split; [exact Hall|]. split; [exact Hent|].
  split; [exact Hperm|]. split; [exact Hdesc|].
  split; [intros k; apply sorted_desc_stable|].
  split; [|split].
  - rewrite <- (length_map driver_entry), Hent, length_map, length_firstn.
    now rewrite sorted_desc_length, <- Hsnd, length_map.
  - replace (map cost_usd drivers) with (map fst (map driver_entry drivers))
      by (rewrite map_map; reflexivity).
    rewrite Hent, map_map. cbn [group_entry fst].
    apply descending_keys. now apply descending_firstn.
  - intros k.
    destruct (filter_firstn_prefix (tie k) 5 (sorted_desc keyed)) as [n Hn].
    exists n.
    rewrite <- (sorted_desc_stable _ k keyed), firstn_map, <- Hn.
    change (filter (tie k) (firstn 5 (sorted_desc keyed)))
      with (filter (fun kg => (fun e : float * list string =>
                                 (fst e =? k)%float) (group_entry kg))
                   (firstn 5 (sorted_desc keyed))).
    rewrite <- filter_map_comm, <- Hent, filter_map_comm. reflexivity.
Qed.

(** Six groups, two of them tied at 2.5. *)
Lemma C5_witness :
  let group name amount :=
    mkCostGroup (Some [name; "us-east-1"])
      (Some [("UnblendedCost", mkMetric (Some amount) (Some "USD"))]) in
  let groups :=
    [group "s3" "2.5"; group "ec2" "10.00"; group "rds" "2.5";
     group "eks" "7"; group "sqs" "1"; group "sns" "0.5"] in
  exists drivers,
    top_cost_drivers Sample.lib Sample.config groups = Ret drivers
    /\ map driver_entry drivers
       = [(10%float, ["ec2"; "us-east-1"]); (7%float, ["eks"; "us-east-1"]);
          (2.5%float, ["s3"; "us-east-1"]); (2.5%float, ["rds"; "us-east-1"]);
          (1%float, ["sqs"; "us-east-1"])]
    /\ List.length drivers = 5%nat
    /\ StronglySorted (fun a b => (b <=? a)%float = true)
                      (map cost_usd drivers).
Proof.
  intros group groups. eexists. split; [vm_compute; reflexivity|].
  split; [reflexivity|].
  match goal with
  | |- List.length ?d = _ /\ _ =>
      destruct (C5_top_cost_drivers Sample.lib Sample.config groups d
                  eq_refl)
        as (keyed & _ & _ & _ & _ & _ & _ & Hlen & Hsorted & _)
  end.
  - intros g a Hin Ha.
    repeat (destruct Hin as [<-|Hin];
            [apply Ret_inj in Ha; subst a; reflexivity|]).
    contradiction.
  - split; [exact Hlen | exact Hsorted].
Defined.

(** ** Claim C6: a skipped recommendation still reaches the tally *)

(** The loop body updates the running sum and the per-type count before it
    coerces the second numeric field: a record whose
    [estimatedSavingsPercentage] does not parse is skipped, with no detail
    record, after it has been counted. *)
Lemma process_recommendation_partial_update (L : Lib) (C : Config)
    (acct : string) (t : tally) (r : Recommendation) (savings : float)
    (ex : exn) :
  pfloat L (opt_default (estimatedMonthlySavings r) (VInt 0)) = Ret savings ->
  pfloat L (opt_default (estimatedSavingsPercentage r) (VInt 0)) = Raise ex ->
  isinstance ex ValueError || isinstance ex TypeError = true ->
  let resource_type := opt_default (currentResourceType r) "Unknown" in
  process_recommendation L C acct t r
  = Ret (mkTally (tally_events t) (total_savings t + savings)%float
           (dict_set (recommendations_by_type t) resource_type
              (opt_default (dict_get (recommendations_by_type t)
                                     resource_type) 0 + 1))
           (bedrock_recommendation_summary_list t)).
Proof.
  intros Hs Hp Hex resource_type. unfold process_recommendation.
  rewrite Hs. cbn [or_skip]. rewrite Hp. cbn [or_skip].
  cbn [tally_events total_savings recommendations_by_type
       bedrock_recommendation_summary_list].
  now rewrite Hex.
Qed.

(** A record whose first numeric field does not parse leaves no trace. *)
Lemma process_recommendation_clean_skip (L : Lib) (C : Config)
    (acct : string) (t : tally) (r : Recommendation) (ex : exn) :
  pfloat L (opt_default (estimatedMonthlySavings r) (VInt 0)) = Raise ex ->
  isinstance ex ValueError || isinstance ex TypeError = true ->
  process_recommendation L C acct t r = Ret t.
Proof.
  intros Hs Hex. unfold process_recommendation. rewrite Hs. cbn [or_skip].
  now rewrite Hex.
Qed.

(** Claim C6 at the failing input: one recommendation with savings [5.0]
    and the savings percentage ["abc"].  The percentage does not parse, the
    record is skipped and no detail record is emitted, yet the summary shows
    [5.0] of savings and counts one [EbsVolume]. *)
Theorem C6_skipped_record_is_tallied :
  let recs := [Sample.ebs_rec (VFloat 5) (VStr "abc")] in
  let events :=
    returned (run_recommendation_workflow Sample.lib Sample.config
                (Sample.env (mkdate 2024 7 15) [] recs "") 3
                Sample.account) in
  (exists ex, pfloat Sample.lib (VStr "abc") = Raise ex
              /\ isinstance ex ValueError = true)
  /\ details_of events = []
  /\ exists summary,
       summaries_of events = [summary]
       /\ float_field "cost.totalEstimatedSavings" summary = Some 5%float
       /\ dict_get summary "recommendation.countByType"
          = Some (VStr ("{" ++ dq ++ "EbsVolume" ++ dq ++ ": 1}")%string).
Proof.
  intros recs events. split; [eexists; split; reflexivity|].
  split; [vm_compute; reflexivity|].
  eexists. split; [vm_compute; reflexivity|]. split; reflexivity.
Qed.

(** ** Claim C7: the enrichment never fails its caller *)

(** *** Slicing between the first opening and the last closing brace *)

Lemma find_from_skip (c : ascii) (pre rest : string) : forall i,
  occurs c pre = false ->
  find_from c (pre ++ String c rest)%string i
  = i + Z.of_nat (String.length pre).
Proof.
  induction pre as [|a pre IH]; intros i H; cbn in *.
  - rewrite Ascii.eqb_refl. lia.
  - apply orb_false_iff in H as [Ha Hpre]. rewrite Ha, IH by assumption. lia.
Qed.

Lemma rfind_from_none (c : ascii) (s : string) : forall i last,
  occurs c s = false -> rfind_from c s i last = last.
Proof.
  induction s as [|a s IH]; intros i last H; cbn in *; [reflexivity|].
  apply orb_false_iff in H as [Ha Hs]. now rewrite Ha, IH.
Qed.

Lemma rfind_from_last (c : ascii) (s post : string) : forall i last,
  occurs c post = false ->
  rfind_from c (s ++ String c post)%string i last
  = i + Z.of_nat (String.length s).
Proof.
  induction s as [|a s IH]; intros i last H; cbn [append rfind_from].
  - rewrite Ascii.eqb_refl, rfind_from_none by assumption. cbn. lia.
  - rewrite IH by assumption. cbn [String.length]. lia.
Qed.

Lemma substring_middle (pre mid post : string) :
  substring (String.length pre) (String.length mid) (pre ++ mid ++ post)%string
  = mid.
Proof.
  induction pre as [|a pre IH]; cbn.
  - induction mid as [|b mid IHm]; cbn.
    + now destruct post.
    + now rewrite IHm.
  - exact IH.
Qed.

Lemma length_append (a b : string) :
  String.length (a ++ b)%string = (String.length a + String.length b)%nat.
Proof. induction a as [|c a IH]; cbn; [reflexivity | now rewrite IH]. Qed.

Lemma append_assoc (a b c : string) :
  ((a ++ b) ++ c = a ++ (b ++ c))%string.
Proof. induction a as [|x a IH]; cbn; [reflexivity | now rewrite IH]. Qed.

(** An object in braces, between a prefix without an opening brace and a
    suffix without a closing one, is what [extract_json] cuts out. *)
Lemma extract_json_embedded (pre mid post : string) :
  occurs "{" pre = false -> occurs "}" post = false ->
  extract_json (pre ++ String "{" (mid ++ String "}" post))%string
  = String "{" (mid ++ String "}" EmptyString).
Proof.
  intros Hpre Hpost. unfold extract_json, py_find, py_rfind.
  rewrite find_from_skip by assumption.
  replace (pre ++ String "{" (mid ++ String "}" post))%string
    with ((pre ++ String "{" mid) ++ String "}" post)%string
    by (rewrite append_assoc; reflexivity).
  rewrite rfind_from_last by assumption.
  rewrite append_assoc. cbn [append].
  unfold py_slice, slice_bound.
  rewrite !length_append. cbn [String.length]. rewrite !length_append.
  cbn [String.length].
  set (p := String.length pre). set (m := String.length mid).
  set (q := String.length post).
  replace (0 + Z.of_nat p <? 0) with false by (symmetry; apply Z.ltb_ge; lia).
  replace (0 + Z.of_nat (p + S m) + 1 <? 0) with false
    by (symmetry; apply Z.ltb_ge; lia).
  rewrite !Z.min_l by lia.
  replace (0 + Z.of_nat p <? 0 + Z.of_nat (p + S m) + 1) with true
    by (symmetry; apply Z.ltb_lt; lia).
  replace (Z.to_nat (0 + Z.of_nat p)) with p by lia.
  replace (Z.to_nat (0 + Z.of_nat (p + S m) + 1 - (0 + Z.of_nat p)))
    with (String.length (String "{" (mid ++ String "}" EmptyString)))
    by (cbn [String.length]; rewrite length_append; cbn [String.length];
        fold m; lia).
  replace (String "{" (mid ++ String "}" post))
    with (String "{" (mid ++ String "}" EmptyString) ++ post)%string
    by (cbn [append]; rewrite append_assoc; reflexivity).
  apply substring_middle.
Qed.

(** *** The adapter *)

Lemma bedrock_analysis_outcome (L : Lib) (C : Config) (E : Env) n p :
  outcome (bedrock_analysis L C E n p)
  = (text <- model_text L C E n p ;;
     analysis_result <- of_reply (json_loads L (extract_json text)) ;;
     items_of analysis_result)%res.
Proof.
  unfold bedrock_analysis, model_text.
  rewrite outcome_mbind. cbn [outcome do_call snd].
  destruct (of_reply (invoke_model E (BEDROCK_MODEL_ID C) n p))
    as [body| |]; cbn [rbind]; try reflexivity.
  rewrite outcome_mbind. cbn [outcome lift snd].
  destruct (of_reply (json_loads L body)) as [rb| |]; cbn [rbind];
    try reflexivity.
  rewrite outcome_mbind. cbn [outcome lift snd].
  destruct (response_text rb) as [text| |]; cbn [rbind]; try reflexivity.
  rewrite outcome_mbind. cbn [outcome lift snd].
  destruct (of_reply (json_loads L (extract_json text))) as [v| |];
    cbn [rbind]; reflexivity.
Qed.

Lemma enrich_on_failure (L : Lib) (C : Config) (E : Env) (s : event) n p e :
  outcome (bedrock_analysis L C E n p) = Raise e ->
  outcome (enrich L C E s n p)
  = Ret (dict_set s "analysis.error" (VStr (exn_msg e))).
Proof.
  intros H. destruct (enrich_returns L C E s n p)
    as [(kvs & H' & _) | (e' & H' & Hr)]; congruence.
Qed.

Lemma enrich_on_success (L : Lib) (C : Config) (E : Env) (s : event) n p kvs :
  outcome (bedrock_analysis L C E n p) = Ret kvs ->
  outcome (enrich L C E s n p) = Ret (dict_update s (analysis_fields kvs)).
Proof.
  intros H. destruct (enrich_returns L C E s n p)
    as [(kvs' & H' & Hr) | (e' & H' & _)]; congruence.
Qed.

(** Claim C7, as the code has it.  [enrich] never raises: it always returns
    a summary record.  If the call fails, if no text can be dug out of the
    answer, or if what lies between the first opening and the last closing
    brace of the text does not parse, the record returned is the summary plus
    the one field [analysis.error] (every other field is as before).  If the
    text is the object [{"x":1}] between a prefix without an opening brace
    and a suffix without a closing brace, the record returned has
    [analysis.x == 1]. *)
Theorem C7_enrichment_degrades_gracefully
    (L : Lib) (C : Config) (E : Env) (summary : event) (n : Z)
    (prompt : string) :
  let result := outcome (enrich L C E summary n prompt) in
  let failed e :=
    result = Ret (dict_set summary "analysis.error" (VStr (exn_msg e))) in
  (exists summary', result = Ret summary')
  /\ (forall e, model_text L C E n prompt = Raise e -> failed e)
  /\ (forall text e,
        model_text L C E n prompt = Ret text ->
        json_loads L (extract_json text) = Error e -> failed e)
  /\ (forall v k,
        k <> "analysis.error" ->
        dict_get (dict_set summary "analysis.error" v) k = dict_get summary k)
  /\ (forall pre post,
        model_text L C E n prompt = Ret (pre ++ Sample.x1 ++ post)%string ->
        occurs "{" pre = false -> occurs "}" post = false ->
        json_loads L Sample.x1 = Ok (VDict [("x", VInt 1)]) ->
        exists summary',
          result = Ret summary'
          /\ dict_get summary' "analysis.x" = Some (VInt 1)).
Proof.
  intros result failed. split; [apply enrich_total|].
  split; [|split; [|split]].
  - intros e H. apply enrich_on_failure.
    rewrite bedrock_analysis_outcome, H. reflexivity.
  - intros text e Ht He. apply enrich_on_failure.
    rewrite bedrock_analysis_outcome, Ht. cbn [rbind]. rewrite He. reflexivity.
  - intros v k Hk. apply dict_get_set_other.
    destruct (String.eqb_spec "analysis.error" k); congruence.
  - intros pre post Ht Hpre Hpost Hx.
    eexists. split.
    + apply enrich_on_success. rewrite bedrock_analysis_outcome, Ht.
      cbn [rbind].
      change (pre ++ Sample.x1 ++ post)%string
        with (pre ++ String "{" ((dq ++ "x" ++ dq ++ ":1")
                                 ++ String "}" post))%string.
      rewrite (extract_json_embedded pre _ post Hpre Hpost).
      change (String "{" ((dq ++ "x" ++ dq ++ ":1") ++ String "}" ""))%string
        with Sample.x1.
      rewrite Hx. reflexivity.
    + unfold dict_update. cbn [analysis_fields map fold_left fst snd].
      apply dict_get_set_same.
Qed.

(** The answer "Report: {"x":1} done" on the sample cost summary. *)
Lemma C7_witness :
  let E := Sample.env (mkdate 2024 7 15) [] []
             ("Report: " ++ Sample.x1_escaped ++ " done") in
  exists summary',
    outcome (enrich Sample.lib Sample.config E
               (cost_summary_event Sample.config Sample.account
                  ("2024-07-01", "2024-07-15") 10 0) 1024 "prompt")
    = Ret summary'
    /\ dict_get summary' "analysis.x" = Some (VInt 1).
Proof.
  intros E.
  destruct (C7_enrichment_degrades_gracefully Sample.lib Sample.config E
              (cost_summary_event Sample.config Sample.account
                 ("2024-07-01", "2024-07-15") 10 0) 1024 "prompt")
    as (_ & _ & _ & _ & Hx).
  apply (Hx "Report: " " done"); reflexivity.
Defined.

(** The answer "{draft} {"x":1}" holds the object [{"x":1}] in prose, yet
    the slice from the first opening brace takes the prose along, nothing
    parses, and the summary gets [analysis.error] and no [analysis.x]. *)
Lemma C7_braces_in_prose :
  let E := Sample.env (mkdate 2024 7 15) [] []
             ("{draft} " ++ Sample.x1_escaped) in
  let summary :=
    cost_summary_event Sample.config Sample.account
      ("2024-07-01", "2024-07-15") 10 0 in
  model_text Sample.lib Sample.config E 1024 "prompt"
  = Ret ("{draft} " ++ Sample.x1)%string
  /\ Sample.json_loads_lite Sample.x1 = Ok (VDict [("x", VInt 1)])
  /\ exists summary',
       outcome (enrich Sample.lib Sample.config E summary 1024 "prompt")
       = Ret summary'
       /\ dict_get summary' "analysis.x" = None
       /\ dict_get summary' "analysis.error" <> None.
Proof.
  intros E summary. split; [reflexivity|]. split; [reflexivity|].
  eexists. split; [vm_compute; reflexivity|].
  split; [reflexivity | discriminate].
Qed.

(** ** Claim C8: the forecast field of the cost summary *)

(** Claim C8, as the code has it.  Whenever the cost workflow returns a
    summary record, on the first day of the month as well as on a later day
    on which the forecast is unavailable, the record carries
    [cost.monthlyForecast] with the value [0.0]; the field is never left
    out. *)
Theorem C8_monthly_forecast_is_zero
    (L : Lib) (C : Config) (E : Env) (fuel : nat) (acct : string)
    (events : list event) (summary : event) :
  outcome (run_cost_explorer_workflow L C E fuel acct) = Ret events ->
  In summary (summaries_of events) ->
  day (utcnow_date E) = 1
  \/ (day (utcnow_date E) <> 1
      /\ forall s e, forecast_unavailable (get_cost_forecast E s e)) ->
  dict_get summary "cost.monthlyForecast" = Some (VFloat 0).
Proof.
  intros H Hin Hcase.
  apply run_cost_explorer_workflow_ret in H
    as (s & e & groups & forecast & _ & _ & Hf & H).
  assert (forecast = []) as ->.
  { unfold forecast_step in Hf. destruct Hcase as [H1 | [H1 Hun]].
    - rewrite H1 in Hf. cbn in Hf. congruence.
    - destruct (Z.eqb_spec (day (utcnow_date E)) 1); [contradiction|].
      cbn [negb] in Hf.
      exact (forecast_unavailable_none E _ _ Hun Hf). }
  apply cost_report_shape in H
    as [(_ & _ & ->) | (_ & amounts & famount & summary' & _ & Hfa & _ & _
                        & Hsum & _ & _ & Hfc)]; [contradiction Hin|].
  rewrite Hsum in Hin. destruct Hin as [<-|[]].
  cbn in Hfa. congruence.
Qed.

(** A run on a 15th without forecast data. *)
Lemma C8_witness :
  exists summary,
    summaries_of
      (returned (run_cost_explorer_workflow Sample.lib Sample.config
                   (Sample.env (mkdate 2024 7 15) [Sample.ec2_group] [] "")
                   3 Sample.account)) = [summary]
    /\ dict_get summary "cost.monthlyForecast" = Some (VFloat 0).
Proof.
  eexists. split; [vm_compute; reflexivity|].
  apply (C8_monthly_forecast_is_zero Sample.lib Sample.config
           (Sample.env (mkdate 2024 7 15) [Sample.ec2_group] [] "") 3
           Sample.account _ _ eq_refl).
  - vm_compute. left. reflexivity.
  - right. split; [discriminate|]. intros s e. reflexivity.
Defined.

(** On the first of a month the summary record does carry the field: it is
    present, with the value [0.0], where the claim has it absent. *)
Lemma C8_first_day_field_present :
  let E := Sample.env (mkdate 2024 3 1) [Sample.ec2_group] [] "" in
  day (utcnow_date E) = 1
  /\ exists summary,
       summaries_of
         (returned (run_cost_explorer_workflow Sample.lib Sample.config E 3
                      Sample.account)) = [summary]
       /\ dict_get summary "cost.monthlyForecast" = Some (VFloat 0)
       /\ dict_get summary "cost.monthlyForecast" <> None.
Proof.
  intros E. split; [reflexivity|]. eexists.
  split; [vm_compute; reflexivity|]. split; [reflexivity | discriminate].
Qed.

(** ** Claim C9: at most one summary record, and only over source data *)

(** Claim C9.  Each workflow returns zero or more detail records followed by
    at most one summary record.  A summary record in the cost report means
    that the paging returned a cost group or the forecast a result; one in
    the recommendation report means that the source returned a
    recommendation.  With zero recommendations the recommendation workflow
    returns the empty list, and with no cost group and no forecast result the
    cost workflow returns the empty list. *)
Theorem C9_record_lists
    (L : Lib) (C : Config) (E : Env) (fuel : nat) (acct : string) :
  let cost := run_cost_explorer_workflow L C E fuel acct in
  let recommendations := run_recommendation_workflow L C E fuel acct in
  (forall events, outcome cost = Ret events ->
     well_formed_records events
     /\ (summaries_of events <> [] ->
         exists s e groups forecast,
           reporting_window (utcnow_date E) = Ret (s, e)
           /\ outcome (fetch_cost_groups C E fuel (isoformat s) (isoformat e)
                         None []) = Ret groups
           /\ outcome (forecast_step E) = Ret forecast
           /\ (groups <> [] \/ forecast <> [])))
  /\ (forall events, outcome recommendations = Ret events ->
        well_formed_records events
        /\ (summaries_of events <> [] ->
            exists recs,
              outcome (fetch_recommendations E fuel acct None []) = Ret recs
              /\ recs <> []))
  /\ (outcome (fetch_recommendations E fuel acct None []) = Ret [] ->
      outcome recommendations = Ret [])
  /\ (forall s e,
        reporting_window (utcnow_date E) = Ret (s, e) ->
        outcome (fetch_cost_groups C E fuel (isoformat s) (isoformat e)
                   None []) = Ret [] ->
        outcome (forecast_step E) = Ret [] ->
        outcome cost = Ret []).
Proof.
  intros cost recommendations. split; [|split; [|split]].
  - intros events H.
    apply run_cost_explorer_workflow_ret in H
      as (s & e & groups & forecast & Hw & Hg & Hf & H).
    apply cost_report_shape in H
      as [(_ & _ & ->) | (Hne & amounts & famount & summary & _ & _ & _ & _
                          & Hsum & Hwf & _)].
    + split; [apply well_formed_nil | intros Hs; now contradiction Hs].
    + split; [exact Hwf|]. intros _. exists s, e, groups, forecast. auto.
  - intros events H.
    apply run_recommendation_workflow_ret in H as (recs & Hr & H).
    apply recommendation_report_shape in H
      as [(_ & ->) | (Hne & t & summary & _ & _ & _ & Hsum & Hwf & _)].
    + split; [apply well_formed_nil | intros Hs; now contradiction Hs].
    + split; [exact Hwf|]. intros _. now exists recs.
  - intros H. unfold recommendations, run_recommendation_workflow.
    rewrite outcome_mbind, H. reflexivity.
  - intros s e Hw Hg Hf. unfold cost.
    rewrite (run_cost_explorer_workflow_unfold L C E fuel acct s e Hw).
    rewrite outcome_mbind, Hg. fold (forecast_step E).
    rewrite outcome_mbind, Hf. reflexivity.
Qed.

(** ** Claim C10: the total count counts what was fetched *)

(** Claim C10.  In the summary record of the recommendation workflow,
    [recommendation.totalCount] is the number of recommendations fetched from
    the source; the detail records are never more than that, and they can be
    fewer: a run exists in which a fetched record is skipped and the count
    exceeds the number of detail records. *)
Theorem C10_total_count_is_number_fetched :
  (forall (L : Lib) (C : Config) (E : Env) (fuel : nat) (acct : string)
          (events : list event) (recs : list Recommendation),
     outcome (run_recommendation_workflow L C E fuel acct) = Ret events ->
     outcome (fetch_recommendations E fuel acct None []) = Ret recs ->
     recs <> [] ->
     exists summary,
       summaries_of events = [summary]
       /\ dict_get summary "recommendation.totalCount"
          = Some (VInt (Z.of_nat (List.length recs)))
       /\ (List.length (details_of events) <= List.length recs)%nat)
  /\ (exists (L : Lib) (C : Config) (E : Env) (fuel : nat) (acct : string)
             (events : list event) (summary : event),
        outcome (run_recommendation_workflow L C E fuel acct) = Ret events
        /\ summaries_of events = [summary]
        /\ dict_get summary "recommendation.totalCount" = Some (VInt 2)
        /\ List.length (details_of events) = 1%nat).
Proof.
  split.
  - intros L C E fuel acct events recs H Hfetch Hne.
    apply run_recommendation_workflow_ret in H as (recs' & Hr & H).
    rewrite Hfetch in Hr. apply Ret_inj in Hr. subst recs'.
    apply recommendation_report_shape in H
      as [(-> & _) | (_ & t & summary & _ & _ & Hlen & Hsum & _ & Hcount & _)];
      [congruence|].
    now exists summary.
  - exists Sample.lib, Sample.config,
      (Sample.env (mkdate 2024 7 15) []
         [Sample.ebs_rec (VStr "n/a") (VFloat 20);
          Sample.ebs_rec (VFloat 1.5) (VFloat 20)] ""),
      3%nat, Sample.account.
    eexists. eexists. split; [vm_compute; reflexivity|].
    split; [vm_compute; reflexivity|]. split; reflexivity.
Qed.

(* ================================================================= *)
(** * Further properties *)

(** ** Paging *)

Lemma page_groups_extend (acc : list CostGroup) (r : CostAndUsageResponse) :
  match ResultsByTime r with
  | Some (r0 :: _) =>
      match Groups r0 with
      | Some gs => Ret (acc ++ gs)
      | None => Raise (mkexn KeyError "'Groups'")
      end
  | _ => Ret acc
  end = (gs <- page_groups r ;; Ret (acc ++ gs))%res.
Proof.
  unfold page_groups. destruct (ResultsByTime r) as [[|r0 rs]|]; cbn;
    try (now rewrite app_nil_r).
  now destruct (Groups r0).
Qed.

(** Property X1.
    The cost paging loop makes one request per page, each with the token
    the previous answer named, and returns the groups of all pages in
    order; a page without [Groups] makes it raise [KeyError]. *)
Theorem cost_paging_collects_every_page
    (C : Config) (E : Env) (s e : string) (tok : option string)
    (pages : list CostAndUsageResponse) (fuel : nat)
    (acc : list CostGroup) :
  cost_pages C E s e tok pages ->
  (List.length pages <= fuel)%nat ->
  let run := fetch_cost_groups C E fuel s e tok acc in
  outcome run = (gss <- rmapM page_groups pages ;; Ret (acc ++ List.concat gss))%res
  /\ (forall gss, rmapM page_groups pages = Ret gss ->
      trace run
      = map (fun t => CallGetCostAndUsage (cost_request C s e t))
            (cost_tokens tok pages)).
Proof.
  intros Hpages. revert fuel acc.
  induction Hpages as [tok r Hr Hlast | tok r rs Hr Hnext Hrs IH];
    intros fuel acc Hfuel run; subst run;
    (destruct fuel as [|fuel]; [cbn in Hfuel; lia|]);
    rewrite fetch_cost_groups_step; cbv zeta;
    fold (cost_request C s e tok); rewrite Hr; cbn [of_reply];
    rewrite outcome_mbind, trace_mbind;
    cbn [outcome trace do_call fst snd rmapM];
    rewrite outcome_mbind, trace_mbind;
    cbn [outcome trace lift fst snd];
    rewrite page_groups_extend;
    (destruct (page_groups r) as [gs|ex|] eqn:Hgs; cbn [rbind];
     [| split; [reflexivity | intros gss H; discriminate H] ..]).
  - rewrite Hlast. cbn. rewrite app_nil_r.
    split; [reflexivity|]. intros gss _. reflexivity.
  - rewrite Hnext.
    destruct (IH fuel (acc ++ gs) ltac:(cbn in Hfuel; lia)) as [IHo IHt].
    rewrite IHo. split.
    + destruct (rmapM page_groups rs) as [gss|ex|]; cbn [rbind];
        try reflexivity.
      cbn [List.concat]. now rewrite app_assoc.
    + intros gss H.
      destruct (rmapM page_groups rs) as [gss'|ex|] eqn:Hgss;
        try discriminate H.
      rewrite (IHt gss' eq_refl). unfold cost_tokens.
      destruct rs as [|r' rs']; [inversion Hrs|]. reflexivity.
Qed.

Lemma cost_paging_witness :
  let E := Paged.env (mkdate 2024 3 15) in
  let run :=
    fetch_cost_groups Sample.config E 2 "2024-02-01" "2024-03-01" None [] in
  outcome run = Ret [Sample.ec2_group; Sample.s3_group]
  /\ List.length (trace run) = 2%nat.
Proof.
  destruct (cost_paging_collects_every_page Sample.config
              (Paged.env (mkdate 2024 3 15)) "2024-02-01" "2024-03-01" None
              [Paged.cost_first; Paged.cost_second] 2 [])
    as [Ho Ht].
  - apply cost_next_page; [reflexivity | reflexivity |].
    apply cost_last_page; reflexivity.
  - cbn. lia.
  - split.
    + rewrite Ho. reflexivity.
    + rewrite (Ht _ eq_refl). reflexivity.
Defined.

(** Property X2.
    The recommendation paging loop makes one request per page, each with
    the token the previous answer named, and returns the items of all pages
    in order, a page without [items] adding none. *)
Theorem recommendation_paging_collects_every_page
    (E : Env) (acct : string) (tok : option string)
    (pages : list RecommendationsResponse) (fuel : nat)
    (acc : list Recommendation) :
  recommendation_pages E acct tok pages ->
  (List.length pages <= fuel)%nat ->
  fetch_recommendations E fuel acct tok acc
  = (map (fun t => CallListRecommendations acct (if truthy t then t else None))
         (recommendation_tokens tok pages),
     Ret (acc ++ List.concat (map (fun r => opt_default (items r) []) pages))).
Proof.
  intros Hpages. revert fuel acc.
  induction Hpages as [tok r Hr Hlast | tok r rs Hr Hnext Hrs IH];
    intros fuel acc Hfuel;
    (destruct fuel as [|fuel]; [cbn in Hfuel; lia|]);
    rewrite fetch_recommendations_step; cbv zeta; rewrite Hr;
    cbn [of_reply do_call mbind].
  - rewrite Hlast. cbn. now rewrite app_nil_r.
  - rewrite Hnext, (IH fuel _ ltac:(cbn in Hfuel; lia)).
    cbn [map List.concat]. rewrite app_assoc. unfold recommendation_tokens.
    destruct rs as [|r' rs']; [inversion Hrs|]. reflexivity.
Qed.

Lemma recommendation_paging_witness :
  outcome (fetch_recommendations (Paged.env (mkdate 2024 3 15)) 2
             Sample.account None [])
  = Ret [Sample.ebs_rec (VStr "12.5") (VInt 40);
         Sample.ebs_rec (VInt 3) (VInt 10)].
Proof.
  rewrite (recommendation_paging_collects_every_page
             (Paged.env (mkdate 2024 3 15)) Sample.account None
             [Paged.rec_first; Paged.rec_second] 2 []).
  - reflexivity.
  - apply rec_next_page; [reflexivity | reflexivity |].
    apply rec_last_page; reflexivity.
  - cbn. lia.
Defined.

(** ** Field names *)

Lemma lower_char_idem (a : ascii) : lower_char (lower_char a) = lower_char a.
Proof. destruct a as [[] [] [] [] [] [] [] []]; reflexivity. Qed.

Lemma lower_upper_char (a : ascii) : lower_char (upper_char a) = lower_char a.
Proof. destruct a as [[] [] [] [] [] [] [] []]; reflexivity. Qed.

Lemma lower_char_underscore (a : ascii) :
  Ascii.eqb (lower_char a) "_" = Ascii.eqb a "_".
Proof. destruct a as [[] [] [] [] [] [] [] []]; reflexivity. Qed.

Lemma upper_char_underscore (a : ascii) :
  Ascii.eqb (upper_char a) "_" = Ascii.eqb a "_".
Proof. destruct a as [[] [] [] [] [] [] [] []]; reflexivity. Qed.

Lemma py_lower_idem (s : string) : py_lower (py_lower s) = py_lower s.
Proof.
  induction s as [|a r IH]; [reflexivity|].
  cbn. now rewrite lower_char_idem, IH.
Qed.

Lemma py_lower_append (s t : string) :
  py_lower (s ++ t) = (py_lower s ++ py_lower t)%string.
Proof. induction s as [|a r IH]; [reflexivity|]. cbn. now rewrite IH. Qed.

Lemma py_lower_title (s : string) :
  forall b, py_lower (title_from b s) = py_lower s.
Proof.
  induction s as [|a r IH]; intros b; [reflexivity|].
  cbn [title_from]. destruct (is_upper a || is_lower a); cbn; rewrite IH;
    [|reflexivity].
  destruct b; now rewrite ?lower_char_idem, ?lower_upper_char.
Qed.

Lemma py_lower_without (s : string) :
  py_lower (without "_" s) = without "_" (py_lower s).
Proof.
  induction s as [|a r IH]; [reflexivity|].
  cbn. rewrite lower_char_underscore.
  destruct (Ascii.eqb a "_"); [exact IH|]. cbn. now rewrite IH.
Qed.

Lemma occurs_append (c : ascii) (s t : string) :
  occurs c (s ++ t) = occurs c s || occurs c t.
Proof.
  induction s as [|a r IH]; [reflexivity|].
  cbn. now rewrite IH, orb_assoc.
Qed.

Lemma occurs_title (s : string) :
  forall b, occurs "_" (title_from b s) = occurs "_" s.
Proof.
  induction s as [|a r IH]; intros b; [reflexivity|].
  cbn [title_from]. destruct (is_upper a || is_lower a); cbn [occurs];
    rewrite IH; [|reflexivity].
  destruct b; now rewrite ?lower_char_underscore, ?upper_char_underscore.
Qed.

Lemma concat_empty_cons (x : string) (xs : list string) :
  String.concat "" (x :: xs) = (x ++ String.concat "" xs)%string.
Proof.
  destruct xs as [|y ys]; cbn; [|reflexivity].
  induction x as [|a r IH]; [reflexivity|]. cbn. now rewrite <- IH.
Qed.

(** Splitting at a character and gluing the pieces takes the character out;
    no piece holds it. *)
Lemma py_split_pieces (c : ascii) (s : string) :
  String.concat "" (py_split c s) = without c s
  /\ Forall (fun x => occurs c x = false) (py_split c s).
Proof.
  induction s as [|a r [IHc IHf]]; [split; [reflexivity | now constructor]|].
  cbn [py_split without]. destruct (Ascii.eqb a c) eqn:Hac.
  - split; [now rewrite concat_empty_cons | now constructor].
  - destruct (py_split c r) as [|h t] eqn:Hs.
    + cbn in IHc. rewrite <- IHc. split; [reflexivity|].
      constructor; [cbn; now rewrite Hac | constructor].
    + rewrite concat_empty_cons in IHc |- *. cbn. rewrite IHc.
      split; [reflexivity|].
      inversion IHf as [|? ? Hh Ht]; subst.
      constructor; [cbn; now rewrite Hac, Hh | exact Ht].
Qed.

Lemma titled_pieces (l : list string) :
  Forall (fun x => occurs "_" x = false) l ->
  occurs "_" (String.concat "" (map py_title l)) = false
  /\ py_lower (String.concat "" (map py_title l))
     = py_lower (String.concat "" l).
Proof.
  induction 1 as [|x xs Hx Hxs [IHo IHl]]; [split; reflexivity|].
  cbn [map]. rewrite !concat_empty_cons, occurs_append, !py_lower_append.
  unfold py_title at 1 3. rewrite occurs_title, py_lower_title, Hx, IHo, IHl.
  split; reflexivity.
Qed.

(** Property X3.
    [to_camel_case] returns a name without underscore whose letters are,
    case aside, those of its argument with the underscores taken out. *)
Theorem to_camel_case_drops_underscores (s : string) :
  occurs "_" (to_camel_case s) = false
  /\ py_lower (to_camel_case s) = without "_" (py_lower s).
Proof.
  unfold to_camel_case. destruct (String.eqb s "") eqn:Hs.
  - apply String.eqb_eq in Hs. subst s. split; reflexivity.
  - destruct (py_split_pieces "_" (py_lower s)) as [Hc Hf].
    destruct (py_split "_" (py_lower s)) as [|c0 rest];
      [cbn in Hc |- *; now rewrite <- Hc|].
    inversion Hf as [|? ? H0 Hrest]; subst.
    destruct (titled_pieces rest Hrest) as [Ho Hl].
    rewrite concat_empty_cons in Hc.
    rewrite occurs_append, py_lower_append, H0, Ho, Hl, <- py_lower_append,
      Hc, py_lower_without, py_lower_idem.
    split; reflexivity.
Qed.

(** ** The forecast request *)

Lemma every_cycle (P : Z -> Z -> bool) :
  (forall y m, P y m = true -> P (y + 400) m = true) ->
  all_from 400 1 (fun y => forallb (P y) months) = true ->
  forall y m, 1 <= y -> 1 <= m <= 12 -> P y m = true.
Proof.
  intros Hshift Hfirst.
  assert (forall (k : nat) y m, 1 <= y <= 400 -> 1 <= m <= 12 ->
          P (y + 400 * Z.of_nat k) m = true) as Hk.
  { induction k as [|k IH]; intros y m Hy Hm.
    - replace (y + 400 * Z.of_nat 0) with y by lia.
      pose proof (all_from_spec _ _ 1 y Hfirst ltac:(lia)) as H.
      rewrite forallb_forall in H. apply H. now apply in_months.
    - replace (y + 400 * Z.of_nat (S k)) with (y + 400 * Z.of_nat k + 400)
        by lia.
      apply Hshift. now apply IH. }
  intros y m Hy Hm.
  replace y
    with (((y - 1) mod 400 + 1) + 400 * Z.of_nat (Z.to_nat ((y - 1) / 400))).
  - apply Hk; [|assumption]. Z.div_mod_to_equations; lia.
  - rewrite Z2Nat.id by (Z.div_mod_to_equations; lia).
    Z.div_mod_to_equations; lia.
Qed.

Lemma first_day_first_cycle :
  all_from 400 1 (fun y => forallb (first_day_ok y) months) = true.
Proof. vm_compute. reflexivity. Qed.

Lemma first_day_ok_shift (y m : Z) :
  first_day_ok y m = true -> first_day_ok (y + 400) m = true.
Proof.
  unfold first_day_ok. rewrite ymd2ord_shift, ord2ymd_shift.
  destruct (ord2ymd (ymd2ord y m 1)) as [[y' m'] d'].
  rewrite !andb_true_iff, !Z.eqb_eq. lia.
Qed.

(** The ordinal of the first of a month is read back as that day. *)
Lemma fromordinal_first (y m : Z) :
  1 <= y -> 1 <= m <= 12 -> fromordinal (ymd2ord y m 1) = mkdate y m 1.
Proof.
  intros Hy Hm.
  pose proof (every_cycle first_day_ok first_day_ok_shift
                first_day_first_cycle y m Hy Hm) as H.
  unfold first_day_ok in H. unfold fromordinal.
  destruct (ord2ymd (ymd2ord y m 1)) as [[y' m'] d'].
  rewrite !andb_true_iff, !Z.eqb_eq in H. destruct H as [[-> ->] ->].
  reflexivity.
Qed.

Lemma days_before_next_year (y : Z) :
  days_before_year (y + 1) = days_before_year y + 365 + b2z (is_leap y).
Proof.
  unfold days_before_year, is_leap, b2z. cbv zeta.
  replace (y + 1 - 1) with y by lia.
  destruct (Z.eqb_spec (y mod 4) 0), (Z.eqb_spec (y mod 100) 0),
    (Z.eqb_spec (y mod 400) 0); cbn [andb orb negb];
    Z.div_mod_to_equations; lia.
Qed.

Lemma days_before_next_month (y m : Z) :
  1 <= m <= 11 ->
  days_before_month y (m + 1) = days_before_month y m + days_in_month y m.
Proof.
  intros Hm.
  assert (m = 1 \/ m = 2 \/ m = 3 \/ m = 4 \/ m = 5 \/ m = 6 \/ m = 7
          \/ m = 8 \/ m = 9 \/ m = 10 \/ m = 11) as Hc by lia.
  unfold days_before_month, days_in_month.
  destruct (is_leap y);
    repeat (destruct Hc as [->|Hc]; [reflexivity|]); subst m; reflexivity.
Qed.

(** The day after the last of a month is the first of the next. *)
Lemma ordinal_after_month (y m : Z) :
  1 <= m <= 12 ->
  ymd2ord y m (days_in_month y m) + 1
  = toordinal (first_of_next_month y m).
Proof.
  intros Hm. unfold first_of_next_month, toordinal, ymd2ord.
  destruct (Z.eqb_spec m 12) as [->|Hne]; cbn [year month day].
  - rewrite days_before_next_year. unfold days_in_month, days_before_month.
    destruct (is_leap y); cbv -[Z.add days_before_year]; lia.
  - rewrite days_before_next_month by lia. lia.
Qed.

(** Property X4.
    The forecast is asked for the days from today to the end of the
    month: the request runs from today to the first of the next month
    (exclusive).  [DataUnavailableException] gives no forecast, every
    other error of the service is raised, and an answer without
    [ForecastResultsByTime] counts as empty. *)
Theorem forecast_request_covers_rest_of_month (E : Env) (today : date) :
  valid today = true -> year today < MAXYEAR ->
  let s := isoformat today in
  let e := isoformat (first_of_next_month (year today) (month today)) in
  fetch_forecast E today
  = ([CallGetCostForecast s e],
     match get_cost_forecast E s e with
     | Ok r => Ret (opt_default (ForecastResultsByTime r) [])
     | Error ex =>
         if isinstance ex DataUnavailableException then Ret [] else Raise ex
     end).
Proof.
  intros Hv Hy s e. subst s e.
  apply valid_inv in Hv as (Hy1 & Hm & Hday).
  pose proof (days_in_month_bounds (year today) _ Hm) as Hdim.
  pose proof (days_before_month_bounds (year today) _ Hm) as Hdbm.
  assert (0 <= days_before_year (year today) <= 3651329) as Hdby.
  { unfold MINYEAR, MAXYEAR, days_before_year in *. cbv zeta.
    Z.div_mod_to_equations. lia. }
  unfold fetch_forecast, replace_day.
  rewrite new_ok by (unfold MINYEAR, MAXYEAR in *; lia).
  rewrite mbind_lift_ret.
  unfold add_days, sub_days, toordinal. cbn [year month day].
  replace (ymd2ord (year today) (month today)
             (days_in_month (year today) (month today)) - Z.opp 1)
    with (toordinal (first_of_next_month (year today) (month today)))
    by (rewrite <- ordinal_after_month by assumption; lia).
  set (o := toordinal (first_of_next_month (year today) (month today))).
  assert ((0 <? o) && (o <=? MAXORDINAL) = true) as ->.
  { subst o. rewrite <- ordinal_after_month by assumption.
    rewrite andb_true_iff, Z.ltb_lt, Z.leb_le.
    unfold ymd2ord, MAXORDINAL. lia. }
  rewrite mbind_lift_ret. subst o.
  assert (fromordinal
            (toordinal (first_of_next_month (year today) (month today)))
          = first_of_next_month (year today) (month today)) as ->.
  { unfold first_of_next_month, toordinal.
    destruct (Z.eqb_spec (month today) 12); cbn [year month day];
      apply fromordinal_first; unfold MINYEAR in *; lia. }
  destruct (get_cost_forecast E _ _) as [r|ex]; cbn; [reflexivity|].
  destruct (exn_class_eqb _ _); reflexivity.
Qed.

Lemma forecast_request_witness :
  trace (fetch_forecast (Sample.env (mkdate 2024 2 15) [] [] "") 
                        (mkdate 2024 2 15))
  = [CallGetCostForecast "2024-02-15" "2024-03-01"].
Proof.
  rewrite (forecast_request_covers_rest_of_month
             (Sample.env (mkdate 2024 2 15) [] [] "") (mkdate 2024 2 15)).
  - reflexivity.
  - reflexivity.
  - reflexivity.
Defined.

(** ** The reporting window *)

(** Property X5.
    The reporting window is never empty and never longer than a month: on
    the first of a month it holds the days of the previous month, on any
    other day the days of the current month before today. *)
Theorem reporting_window_spans_a_month_at_most (today : date) :
  valid today = true -> MINYEAR < year today < MAXYEAR ->
  exists s e,
    reporting_window today = Ret (s, e)
    /\ day s = 1
    /\ 1 <= toordinal e - toordinal s <= 31
    /\ (day today = 1 ->
        toordinal e - toordinal s = days_in_month (year s) (month s))
    /\ (day today <> 1 -> toordinal e - toordinal s = day today - 1).
Proof.
  intros Hv Hy. pose proof Hv as Hf.
  apply valid_inv in Hf as (_ & Hm & Hday).
  pose proof (days_in_month_bounds (year today) _ Hm) as Hdim.
  destruct (Z.eq_dec (day today) 1) as [H1|H1].
  - destruct today as [y m d]. cbn [year month day] in *. subst d.
    exists (first_of_previous_month y m), (mkdate y m 1).
    split; [now apply window_first_day|].
    destruct (first_of_previous_month_fields y m Hy Hm)
      as (Hpy & Hpm & Hpd).
    pose proof (days_in_month_bounds
                  (year (first_of_previous_month y m)) _ Hpm) as Hpdim.
    pose proof (ordinal_after_month (year (first_of_previous_month y m))
                  _ Hpm) as Hnext.
    assert (first_of_next_month (year (first_of_previous_month y m))
              (month (first_of_previous_month y m)) = mkdate y m 1) as Hback.
    { unfold first_of_previous_month, first_of_next_month.
      destruct (Z.eqb_spec m 1) as [->|Hne]; cbn [year month].
      - cbn. f_equal. lia.
      - destruct (Z.eqb_spec (m - 1) 12); [lia|]. f_equal. lia. }
    rewrite Hback in Hnext.
    assert (toordinal (mkdate y m 1)
            - toordinal (first_of_previous_month y m)
            = days_in_month (year (first_of_previous_month y m))
                (month (first_of_previous_month y m))) as Hspan.
    { rewrite <- Hnext. unfold toordinal at 1, ymd2ord. rewrite Hpd. lia. }
    split; [exact Hpd|]. rewrite Hspan.
    split; [lia|]. split; [reflexivity | contradiction].
  - exists (mkdate (year today) (month today) 1), today.
    split; [now apply window_other_day|].
    assert (toordinal today - toordinal (mkdate (year today) (month today) 1)
            = day today - 1) as Hspan
      by (unfold toordinal, ymd2ord; cbn [year month day]; lia).
    split; [reflexivity|]. rewrite Hspan.
    split; [lia|]. split; [contradiction | reflexivity].
Qed.

Lemma reporting_window_span_witness :
  exists s e,
    reporting_window (mkdate 2024 3 1) = Ret (s, e)
    /\ toordinal e - toordinal s = 29.
Proof.
  destruct (reporting_window_spans_a_month_at_most (mkdate 2024 3 1))
    as (s & e & Hw & _ & _ & Hfirst & _); [reflexivity | split; reflexivity|].
  exists s, e. split; [exact Hw|].
  rewrite (Hfirst eq_refl).
  apply Ret_inj in Hw. inversion Hw; subst s e. reflexivity.
Defined.

(** ** The calls of the workflows *)

Lemma fetch_forecast_calls (P : call -> bool) (E : Env) (today : date) :
  (forall s e, P (CallGetCostForecast s e) = true) ->
  all_calls P (fetch_forecast E today).
Proof.
  intros HP. unfold fetch_forecast.
  apply all_calls_try_except; [|intros; apply all_calls_mret].
  repeat (apply all_calls_mbind; [apply all_calls_lift|]; intros ?).
  apply all_calls_mbind; [now apply all_calls_do_call|].
  intros; apply all_calls_mret.
Qed.

Lemma workflow_calls (P : call -> bool) (L : Lib) (C : Config) (E : Env)
    (fuel : nat) (acct : string) :
  (forall req, P (CallGetCostAndUsage req) = true) ->
  (forall s e, P (CallGetCostForecast s e) = true) ->
  (forall a tok, P (CallListRecommendations a tok) = true) ->
  (forall model n p, P (CallInvokeModel model n p) = true) ->
  all_calls P (run_cost_explorer_workflow L C E fuel acct)
  /\ all_calls P (run_recommendation_workflow L C E fuel acct).
Proof.
  intros Hc Hf Hr Hi. split.
  - unfold run_cost_explorer_workflow.
    apply all_calls_mbind; [apply all_calls_lift|]. intros w.
    apply all_calls_mbind; [now apply fetch_cost_groups_calls|]. intros g.
    apply all_calls_mbind;
      [destruct (negb _); [now apply fetch_forecast_calls
                          | apply all_calls_mret]|].
    intros f. now apply cost_report_calls.
  - unfold run_recommendation_workflow.
    apply all_calls_mbind; [now apply fetch_recommendations_calls|].
    intros r. now apply recommendation_report_calls.
Qed.

Lemma no_posts (t : list call) :
  forallb is_aws_call t = true -> count_posts t = 0%nat.
Proof.
  unfold count_posts. induction t as [|c t IH]; [reflexivity|].
  cbn [forallb filter]. intros H. apply andb_true_iff in H as [Hc Ht].
  destruct c; try discriminate Hc; cbn; now apply IH.
Qed.


(** ** The model call *)

Lemma trace_lift_bind {A B} (r : result A) (k : A -> M B) :
  (forall a, trace (k a) = []) -> trace (mbind (lift r) k) = [].
Proof.
  intros H. rewrite trace_mbind. cbn [trace outcome lift fst snd app].
  destruct r; auto.
Qed.

Lemma bedrock_analysis_trace (L : Lib) (C : Config) (E : Env) n p :
  trace (bedrock_analysis L C E n p)
  = [CallInvokeModel (BEDROCK_MODEL_ID C) n p].
Proof.
  unfold bedrock_analysis. rewrite trace_mbind.
  cbn [trace outcome do_call fst snd].
  destruct (of_reply _); [|reflexivity ..].
  cbn [app]. f_equal.
  repeat (apply trace_lift_bind; intros ?). reflexivity.
Qed.

Lemma enrich_trace (L : Lib) (C : Config) (E : Env) (s : event) n p :
  trace (enrich L C E s n p) = [CallInvokeModel (BEDROCK_MODEL_ID C) n p].
Proof.
  unfold enrich.
  rewrite trace_try_except, outcome_mbind, trace_mbind, bedrock_analysis_trace.
  destruct (outcome (bedrock_analysis L C E n p)) as [kvs|ex|];
    try reflexivity.
Qed.

Lemma no_invoke (t : list call) :
  forallb (fun c => negb (is_invoke c)) t = true -> filter is_invoke t = [].
Proof.
  induction t as [|c t IH]; [reflexivity|]. cbn [forallb filter].
  intros H. apply andb_true_iff in H as [Hc Ht].
  apply negb_true_iff in Hc. rewrite Hc. now apply IH.
Qed.

Lemma consults_model_once_mbind {A} (C : Config) (n : Z) (m : M A)
    (k : A -> M (list event)) :
  filter is_invoke (trace m) = [] ->
  (forall a, consults_model_once C n (k a)) ->
  consults_model_once C n (mbind m k).
Proof.
  intros Hm Hk. unfold consults_model_once.
  rewrite trace_mbind, outcome_mbind.
  destruct (outcome m) as [a|ex|].
  - destruct (Hk a) as [(before & prompt & events & Ht & Hb & Ho & Hne)
                       | [Ht Ho]].
    + left. exists (trace m ++ before), prompt, events.
      rewrite Ht, app_assoc, filter_app, Hm, Hb. now repeat split.
    + right. rewrite filter_app, Hm, Ht. now split.
  - right. rewrite app_nil_r. split; [assumption | discriminate].
  - right. rewrite app_nil_r. split; [assumption | discriminate].
Qed.

Lemma consults_model_once_lift {A} (C : Config) (n : Z) (r : result A)
    (k : A -> M (list event)) :
  (forall a, consults_model_once C n (k a)) ->
  consults_model_once C n (mbind (lift r) k).
Proof. now apply consults_model_once_mbind. Qed.

Lemma consults_model_once_enrich (L : Lib) (C : Config) (E : Env)
    (s : event) (n : Z) (p : string) (details : list event) :
  consults_model_once C n
    (mbind (enrich L C E s n p) (fun s' => mret (details ++ [s']))).
Proof.
  left. destruct (enrich_total L C E s n p) as [s' Hs'].
  exists [], p, (details ++ [s']).
  rewrite trace_mbind, outcome_mbind, enrich_trace, Hs'.
  repeat split. now destruct details.
Qed.

Lemma consults_model_once_none (C : Config) (n : Z) :
  consults_model_once C n (mret []).
Proof. right. split; [reflexivity|]. intros events H. now inversion H. Qed.

(** Property X6.
    Each workflow consults the model at most once.  A run that returns
    records ends with its only model call (1024 tokens for the cost
    report, 4096 for the recommendations); a run that returns no record or
    raises has made none. *)
Theorem model_is_consulted_once_per_report
    (L : Lib) (C : Config) (E : Env) (fuel : nat) (acct : string) :
  consults_model_once C 1024 (run_cost_explorer_workflow L C E fuel acct)
  /\ consults_model_once C 4096
       (run_recommendation_workflow L C E fuel acct).
Proof.
  split.
  - unfold run_cost_explorer_workflow.
    apply consults_model_once_lift. intros w.
    apply consults_model_once_mbind;
      [apply no_invoke; now apply fetch_cost_groups_calls|]. intros groups.
    apply consults_model_once_mbind;
      [apply no_invoke;
       destruct (negb _); [now apply fetch_forecast_calls | reflexivity]|].
    intros forecast. unfold cost_report.
    destruct groups as [|g groups], forecast as [|f forecast];
      try apply consults_model_once_none;
      repeat (apply consults_model_once_lift; intros ?);
      apply consults_model_once_enrich.
  - unfold run_recommendation_workflow.
    apply consults_model_once_mbind;
      [apply no_invoke; now apply fetch_recommendations_calls|]. intros recs.
    unfold recommendation_report.
    destruct recs as [|r recs]; [apply consults_model_once_none|].
    repeat (apply consults_model_once_lift; intros ?).
    apply consults_model_once_enrich.
Qed.

(** ** What makes a workflow fail *)

Lemma rmapM_raises {A B} (f : A -> result B) (l : list A) (a : A) (ex : exn) :
  (forall x, settled (f x)) -> In a l -> f a = Raise ex ->
  exists ex', rmapM f l = Raise ex'.
Proof.
  intros Hf. induction l as [|x l IH]; intros Hin Ha; [contradiction|].
  cbn [rmapM]. destruct (f x) as [y|ex'|] eqn:Hx.
  - destruct Hin as [->|Hin]; [congruence|].
    destruct (IH Hin Ha) as [ex' ->]. now exists ex'.
  - now exists ex'.
  - now destruct (Hf x).
Qed.

Lemma settled_strict_amount (L : Lib) (g : CostGroup) :
  settled (strict_amount L g).
Proof.
  unfold strict_amount. destruct (Metrics g) as [ms|]; [|discriminate].
  destruct (dict_get ms "UnblendedCost") as [m|]; [|discriminate].
  destruct (Amount m); [apply settled_py_float | discriminate].
Qed.

(** Property X7.
    With a forecast but no cost group (as on a day whose cost data is not
    in yet) the cost workflow raises [IndexError] where it takes the first
    month of an empty list; it has not consulted the model. *)
Theorem forecast_without_groups_raises
    (L : Lib) (C : Config) (E : Env) (fuel : nat) (acct : string)
    (s e : date) (forecast : list ForecastResult) :
  reporting_window (utcnow_date E) = Ret (s, e) ->
  outcome (fetch_cost_groups C E fuel (isoformat s) (isoformat e) None [])
  = Ret [] ->
  outcome (forecast_step E) = Ret forecast -> forecast <> [] ->
  let run := run_cost_explorer_workflow L C E fuel acct in
  outcome run = Raise (mkexn IndexError "list index out of range")
  /\ filter is_invoke (trace run) = [].
Proof.
  intros Hw Hg Hf Hne run. subst run. unfold forecast_step in Hf.
  rewrite (run_cost_explorer_workflow_unfold L C E fuel acct s e Hw).
  destruct forecast as [|f forecast]; [contradiction|]. split.
  - now rewrite outcome_mbind, Hg, outcome_mbind, Hf.
  - rewrite trace_mbind, Hg, trace_mbind, Hf.
    cbn [cost_report trace outcome lift mbind fst snd].
    rewrite app_nil_r, filter_app.
    rewrite (no_invoke (trace (fetch_cost_groups _ _ _ _ _ _ _)))
      by now apply fetch_cost_groups_calls.
    apply no_invoke.
    destruct (negb _); [now apply fetch_forecast_calls | reflexivity].
Qed.

Lemma forecast_without_groups_witness :
  outcome (run_cost_explorer_workflow Sample.lib Sample.config
             (Forecasting.env (mkdate 2024 7 15) []) 3 Sample.account)
  = Raise (mkexn IndexError "list index out of range").
Proof.
  destruct (forecast_without_groups_raises Sample.lib Sample.config
              (Forecasting.env (mkdate 2024 7 15) []) 3 Sample.account
              (mkdate 2024 7 1) (mkdate 2024 7 15)
              [mkForecastResult (Some "30.0")]) as [Ho _];
    [reflexivity | reflexivity | reflexivity | discriminate |].
  exact Ho.
Defined.

(** Property X8.
    One cost group without [Metrics], [UnblendedCost] or [Amount], or
    with an amount that is no number, makes the whole cost report fail:
    no record is built and the model is not consulted. *)
Theorem malformed_group_aborts_cost_report
    (L : Lib) (C : Config) (E : Env) (acct : string) (first : bool)
    (s e : string) (groups : list CostGroup)
    (forecast : list ForecastResult) (g : CostGroup) (ex : exn) :
  In g groups -> strict_amount L g = Raise ex ->
  exists ex',
    cost_report L C E acct first s e groups forecast = ([], Raise ex').
Proof.
  intros Hin Hg.
  destruct (rmapM_raises (strict_amount L) groups g ex
              (settled_strict_amount L) Hin Hg) as [ex' Hex'].
  exists ex'. unfold cost_report.
  destruct groups as [|g0 groups]; [contradiction|].
  rewrite mbind_lift_ret. cbn [snd]. rewrite Hex'.
  now destruct forecast.
Qed.

Lemma malformed_group_witness :
  exists ex',
    cost_report Sample.lib Sample.config
      (Sample.env (mkdate 2024 7 15) [] [] "") Sample.account false
      "2024-07-01" "2024-07-15"
      [Sample.ec2_group; mkCostGroup (Some ["AWS Lambda"; "us-east-1"]) None]
      []
    = ([], Raise ex').
Proof.
  apply (malformed_group_aborts_cost_report Sample.lib Sample.config
           (Sample.env (mkdate 2024 7 15) [] [] "") Sample.account false
           "2024-07-01" "2024-07-15" _ []
           (mkCostGroup (Some ["AWS Lambda"; "us-east-1"]) None)
           (mkexn KeyError "'Metrics'")).
  - right. left. reflexivity.
  - reflexivity.
Defined.

Lemma settled_or_skip {A} (now : tally) (r : result A)
    (k : A -> result tally) :
  settled r -> (forall a, settled (k a)) -> settled (or_skip now r k).
Proof.
  intros Hr Hk. unfold or_skip. destruct r as [a|ex|];
    [apply Hk | | now contradiction Hr].
  destruct (_ || _); discriminate.
Qed.

Lemma settled_process_recommendation (L : Lib) (C : Config) (acct : string)
    (t : tally) (r : Recommendation) :
  settled (process_recommendation L C acct t r).
Proof.
  unfold process_recommendation.
  apply settled_or_skip; [apply settled_py_float|]. intros s.
  apply settled_or_skip; [apply settled_py_float|]. intros p.
  apply settled_or_skip; [apply settled_round_times|]. intros j.
  discriminate.
Qed.

Lemma tally_all_raises (L : Lib) (C : Config) (acct : string)
    (r : Recommendation) (ex : exn) (recs : list Recommendation) :
  pfloat L (opt_default (estimatedMonthlySavings r) (VInt 0)) = Raise ex ->
  skipped ex = false -> In r recs ->
  forall t, exists ex', tally_all L C acct t recs = Raise ex'.
Proof.
  intros Hr Hs. induction recs as [|x recs IH]; intros Hin t;
    [contradiction|].
  cbn [tally_all].
  destruct (process_recommendation L C acct t x) as [t'|ex'|] eqn:Hx.
  - destruct Hin as [->|Hin]; [|now apply IH].
    unfold process_recommendation in Hx. rewrite Hr in Hx.
    unfold skipped in Hs. cbn [or_skip] in Hx. rewrite Hs in Hx.
    discriminate Hx.
  - now exists ex'.
  - now destruct (settled_process_recommendation L C acct t x).
Qed.

(** Property X9.
    The recommendation loop skips a record only for [ValueError] and
    [TypeError].  A record whose savings raise anything else (a number
    beyond the range of [float], say) makes the whole report fail: no
    record is built and the model is not consulted. *)
Theorem unskipped_error_aborts_recommendation_report
    (L : Lib) (C : Config) (E : Env) (acct : string)
    (recs : list Recommendation) (r : Recommendation) (ex : exn) :
  In r recs ->
  pfloat L (opt_default (estimatedMonthlySavings r) (VInt 0)) = Raise ex ->
  skipped ex = false ->
  exists ex',
    recommendation_report L C E acct recs = ([], Raise ex').
Proof.
  intros Hin Hr Hs.
  destruct (tally_all_raises L C acct r ex recs Hr Hs Hin
              (mkTally [] 0%float [] [])) as [ex' Hex'].
  exists ex'. unfold recommendation_report.
  destruct recs as [|r0 recs]; [contradiction|].
  now rewrite Hex'.
Qed.

Lemma unskipped_error_witness :
  exists ex',
    recommendation_report Sample.lib Sample.config
      (Sample.env (mkdate 2024 7 15) [] [] "") Sample.account
      [Sample.ebs_rec (VInt 3) (VInt 10);
       Sample.ebs_rec (VInt (2 ^ 1100)) (VInt 10)]
    = ([], Raise ex').
Proof.
  apply (unskipped_error_aborts_recommendation_report Sample.lib
           Sample.config (Sample.env (mkdate 2024 7 15) [] [] "")
           Sample.account _ (Sample.ebs_rec (VInt (2 ^ 1100)) (VInt 10))
           (mkexn OverflowError "int too large to convert to float")).
  - right. left. reflexivity.
  - vm_compute. reflexivity.
  - reflexivity.
Defined.

(** ** Fields of the cost records *)

Lemma eqb_append_same (p a b : string) :
  String.eqb (p ++ a) (p ++ b) = String.eqb a b.
Proof.
  induction p as [|c p IH]; [reflexivity|]. cbn. now rewrite Ascii.eqb_refl.
Qed.

Lemma rmapM_Forall {A B} (f : A -> result B) (P : B -> Prop) (l : list A) :
  (forall x y, f x = Ret y -> P y) ->
  forall l', rmapM f l = Ret l' -> Forall P l'.
Proof.
  intros Hf. induction l as [|x l IH]; intros l' H; cbn [rmapM] in H.
  - apply Ret_inj in H. subst l'. constructor.
  - apply rbind_ret in H as (y & Hy & H).
    apply rbind_ret in H as (ys & Hys & H). apply Ret_inj in H. subst l'.
    constructor; [now apply (Hf x) | now apply IH].
Qed.

(** The fields a detail record gets from its group's keys all start with
    [aws.]; every other field keeps the value it was created with. *)
Lemma cost_detail_event_keeps (L : Lib) (C : Config) (acct : string)
    (tp : string * string) (g : CostGroup) (ev : event) (k : string) :
  cost_detail_event L C acct tp g = Ret ev ->
  String.prefix "aws." k = false ->
  exists a,
    dict_get ev k
    = dict_get [ ("eventType", VStr "AwsCostReport");
                 ("recordType", VStr "detail");
                 ("period.start", VStr (fst tp));
                 ("period.end", VStr (snd tp));
                 ("cost.unblended", VFloat a);
                 ("cost.currency",
                    VStr (opt_default (Unit (cost_metrics_of g)) "USD")) ] k.
Proof.
  unfold cost_detail_event. intros H Hk.
  apply rbind_ret in H as (a & Ha & H). exists a.
  assert (forall x, String.eqb ("aws." ++ x) k = false) as Hx
    by (intros x; now apply prefix_eqb_false).
  assert (String.eqb "aws.region" k = false) as Hr by apply (Hx "region").
  assert (String.eqb "aws.accountId" k = false) as Ha1
    by apply (Hx "accountId").
  assert (String.eqb "aws.lambdaRegion" k = false) as Ha2
    by apply (Hx "lambdaRegion").
  assert (forall x, String.eqb ("aws.tag." ++ x) k = false) as Ht
    by (intros x; apply (Hx ("tag." ++ x)%string)).
  repeat match type of H with
         | context [if ?b then _ else _] => destruct b
         end;
    apply Ret_inj in H; subst ev;
    rewrite ?dict_get_set_other by first [assumption | apply Hx | apply Ht];
    cbn [dict_get]; rewrite Ha1, Ha2; reflexivity.
Qed.

(** Property X10.
    Every record of the cost report is an [AwsCostReport] event and
    carries the reporting window as [period.start] and [period.end]. *)
Theorem cost_records_carry_the_window
    (L : Lib) (C : Config) (E : Env) (fuel : nat) (acct : string)
    (events : list event) :
  outcome (run_cost_explorer_workflow L C E fuel acct) = Ret events ->
  exists s e,
    reporting_window (utcnow_date E) = Ret (s, e)
    /\ Forall (fun ev =>
                 has_field "eventType" (VStr "AwsCostReport") ev
                 /\ has_field "period.start" (VStr (isoformat s)) ev
                 /\ has_field "period.end" (VStr (isoformat e)) ev) events.
Proof.
  intros H.
  apply run_cost_explorer_workflow_ret in H
    as (s & e & groups & forecast & Hw & _ & _ & H).
  exists s, e. split; [exact Hw|].
  apply cost_report_ret in H
    as [(_ & _ & ->)
       | (_ & amounts & details & fa & prompt & summary
          & _ & Hd & _ & Hs & ->)]; [constructor|].
  apply Forall_app. split.
  - apply (rmapM_Forall
             (cost_detail_event L C acct (isoformat s, isoformat e)) _
             groups); [|exact Hd].
    intros g ev Hg. unfold has_field.
    destruct (cost_detail_event_keeps L C acct _ g ev "eventType" Hg eq_refl)
      as [a1 ->].
    destruct (cost_detail_event_keeps L C acct _ g ev "period.start" Hg
                eq_refl) as [a2 ->].
    destruct (cost_detail_event_keeps L C acct _ g ev "period.end" Hg
                eq_refl) as [a3 ->].
    repeat split; reflexivity.
  - constructor; [|constructor]. unfold has_field.
    rewrite !(enrich_keeps _ _ _ _ _ _ _ _ Hs) by reflexivity.
    repeat split; reflexivity.
Qed.

Lemma cost_records_window_witness :
  Forall (fun ev =>
            has_field "eventType" (VStr "AwsCostReport") ev
            /\ has_field "period.start" (VStr "2024-07-01") ev
            /\ has_field "period.end" (VStr "2024-07-15") ev)
    (returned (run_cost_explorer_workflow Sample.lib Sample.config
                 (Paged.env (mkdate 2024 7 15)) 3 Sample.account))
  /\ List.length
       (returned (run_cost_explorer_workflow Sample.lib Sample.config
                    (Paged.env (mkdate 2024 7 15)) 3 Sample.account))
     = 3%nat.
Proof.
  destruct (cost_records_carry_the_window Sample.lib Sample.config
              (Paged.env (mkdate 2024 7 15)) 3 Sample.account
              (returned (run_cost_explorer_workflow Sample.lib Sample.config
                           (Paged.env (mkdate 2024 7 15)) 3 Sample.account)))
    as (s & e & Hw & Hall); [vm_compute; reflexivity|].
  apply Ret_inj in Hw. inversion Hw; subst s e.
  split; [exact Hall | vm_compute; reflexivity].
Defined.

Lemma tag_field_not_region (C : Config) :
  String.eqb (tag_field C) "aws.region" = false.
Proof. unfold tag_field. now apply prefix_eqb_false. Qed.

Lemma sanitized_tag (s : string) (c : ascii) :
  c = "$"%char \/ c = ":"%char ->
  occurs c (py_replace ":" "_" (py_replace "$" "_" s)) = false.
Proof.
  intros Hc. unfold py_replace. induction s as [|a s IH]; [reflexivity|].
  cbn [str_map occurs]. rewrite IH, orb_false_r.
  destruct (Ascii.eqb_spec a "$") as [->|Hd];
    [destruct Hc as [->| ->]; reflexivity|].
  destruct (Ascii.eqb_spec a ":") as [->|Hn];
    [destruct Hc as [->| ->]; reflexivity|].
  apply Ascii.eqb_neq. destruct Hc as [->| ->]; assumption.
Qed.

(** Property X11.
    A detail record holds the keys of its group by position: the primary
    dimension first (when one is configured), then the region, then the
    tag (when one is configured), as long as the field names differ; a
    group without a key for the region gets no region field.  The tag
    field's name holds neither [$] nor [:]. *)
Theorem detail_record_holds_keys_by_position
    (L : Lib) (C : Config) (acct : string) (tp : string * string)
    (g : CostGroup) (ev : event) :
  cost_detail_event L C acct tp g = Ret ev ->
  let keys := opt_default (Keys g) [] in
  let i := region_index C in
  (forall r, nth_error keys i = Some r -> has_field "aws.region" (VStr r) ev)
  /\ (truthy (GROUP_BY_TAG_KEY C) = true ->
      forall t, nth_error keys (S i) = Some t ->
                has_field (tag_field C) (VStr t) ev)
  /\ (GROUP_BY_DIMENSION_KEY C <> "" ->
      dimension_field C <> "aws.region" ->
      dimension_field C <> tag_field C ->
      forall d, nth_error keys 0 = Some d ->
                has_field (dimension_field C) (VStr d) ev)
  /\ (dimension_field C <> "aws.region" ->
      nth_error keys i = None -> dict_get ev "aws.region" = None)
  /\ occurs "$" (tag_field C) = false /\ occurs ":" (tag_field C) = false.
Proof.
  intros H keys i. subst keys i. unfold cost_detail_event in H.
  apply rbind_ret in H as (a & Ha & H). unfold region_index, has_field.
  fold (dimension_field C) in H. fold (tag_field C) in H.
  pose proof (tag_field_not_region C) as Htr.
  assert (occurs "$" (tag_field C) = false /\ occurs ":" (tag_field C) = false)
    as Hocc by (unfold tag_field; cbn [append occurs Ascii.eqb Bool.eqb orb];
                split; apply sanitized_tag; auto).
  destruct (String.eqb_spec (GROUP_BY_DIMENSION_KEY C) "") as [Hdk|Hdk];
    destruct (truthy (GROUP_BY_TAG_KEY C)) eqn:Htk;
    destruct (opt_default (Keys g) []) as [|k0 [|k1 [|k2 rest]]];
    cbn [negb andb Nat.ltb Nat.leb List.length nth fst snd] in H;
    apply Ret_inj in H; subst ev.
  all: repeat split; try apply Hocc; try discriminate; try contradiction.
  all: cbn [nth_error]; intros.
  all: repeat match goal with
              | H : Some ?x = Some ?y |- _ =>
                  assert (x = y) by congruence; clear H; subst
              | H : None = Some _ |- _ => discriminate H
              | H : Some _ = None |- _ => discriminate H
              end.
  all: repeat first
         [ rewrite dict_get_set_same; reflexivity
         | rewrite dict_get_set_other
             by first [ exact Htr
                      | now apply String.eqb_neq
                      | apply String.eqb_neq; congruence ] ].
  all: try reflexivity.
Qed.

Lemma detail_record_keys_witness :
  exists ev,
    cost_detail_event Sample.lib Tagged.config Sample.account
      ("2024-07-01", "2024-07-15") Tagged.group = Ret ev
    /\ has_field "aws.service"
         (VStr "Amazon Elastic Compute Cloud - Compute") ev
    /\ has_field "aws.region" (VStr "us-east-1") ev
    /\ has_field "aws.tag.cost_center" (VStr "cost:center$platform") ev.
Proof.
  destruct (cost_detail_event Sample.lib Tagged.config Sample.account
              ("2024-07-01", "2024-07-15") Tagged.group) as [ev|ex|] eqn:H;
    [|vm_compute in H; discriminate H ..].
  destruct (detail_record_holds_keys_by_position Sample.lib Tagged.config
              Sample.account ("2024-07-01", "2024-07-15") Tagged.group ev H)
    as (Hr & Ht & Hd & _).
  exists ev. split; [reflexivity|]. split; [|split].
  - apply Hd; [discriminate | discriminate | discriminate | reflexivity].
  - apply Hr. reflexivity.
  - apply Ht; reflexivity.
Defined.

(** Property X12.
    With a forecast, the summary's [cost.monthlyForecast] is the
    [MeanValue] of the first forecast entry, read as a float, and [0.0]
    when that entry has no [MeanValue]. *)
Theorem forecast_field_is_first_mean_value
    (L : Lib) (C : Config) (E : Env) (fuel : nat) (acct : string)
    (events : list event) (summary : event) (f : ForecastResult)
    (rest : list ForecastResult) :
  outcome (run_cost_explorer_workflow L C E fuel acct) = Ret events ->
  In summary (summaries_of events) ->
  outcome (forecast_step E) = Ret (f :: rest) ->
  match MeanValue f with
  | Some v =>
      exists x, float_of_str L v = Some x
                /\ dict_get summary "cost.monthlyForecast" = Some (VFloat x)
  | None => dict_get summary "cost.monthlyForecast" = Some (VFloat 0)
  end.
Proof.
  intros H Hin Hf.
  apply run_cost_explorer_workflow_ret in H
    as (s & e & groups & forecast & _ & _ & Hf' & H).
  rewrite Hf in Hf'. apply Ret_inj in Hf'. subst forecast.
  apply cost_report_shape in H
    as [(_ & Hnil & _)
       | (_ & amounts & fa & summary' & _ & Hfa & _ & _ & Hs & _ & _ & Hm)];
    [discriminate Hnil|].
  rewrite Hs in Hin. destruct Hin as [<-|[]].
  cbn [forecast_amount_of] in Hfa. unfold pfloat, py_float in Hfa.
  destruct (MeanValue f) as [v|].
  - destruct (float_of_str L v) as [x|]; [|discriminate Hfa].
    apply Ret_inj in Hfa. subst fa. now exists x.
  - apply Ret_inj in Hfa. now subst fa.
Qed.

Lemma forecast_field_witness :
  exists summary,
    summaries_of
      (returned (run_cost_explorer_workflow Sample.lib Sample.config
                   (Forecasting.env (mkdate 2024 7 15) [Sample.ec2_group]) 3
                   Sample.account)) = [summary]
    /\ dict_get summary "cost.monthlyForecast" = Some (VFloat 30).
Proof.
  set (events := returned _).
  destruct (summaries_of events) as [|summary [|]] eqn:Hs;
    [vm_compute in Hs; discriminate Hs | | vm_compute in Hs; discriminate Hs].
  exists summary. split; [reflexivity|].
  destruct (forecast_field_is_first_mean_value Sample.lib Sample.config
              (Forecasting.env (mkdate 2024 7 15) [Sample.ec2_group]) 3
              Sample.account events summary
              (mkForecastResult (Some "30.0")) [])
    as (x & Hx & Hfield).
  - vm_compute. reflexivity.
  - rewrite Hs. now left.
  - vm_compute. reflexivity.
  - rewrite Hfield. vm_compute in Hx. apply (f_equal (fun o =>
      match o with Some y => Some (VFloat y) | None => None end)) in Hx.
    symmetry. exact Hx.
Defined.

(** ** The recommendation report *)

Lemma process_recommendation_step (L : Lib) (C : Config) (acct : string)
    (t t' : tally) (r : Recommendation) :
  process_recommendation L C acct t r = Ret t' ->
  total_savings t' = add_saving L (total_savings t) r
  /\ recommendations_by_type t' = count_type L (recommendations_by_type t) r
  /\ exists evs,
       tally_events t' = tally_events t ++ evs
       /\ map (fun ev => dict_get ev "aws.recommendationId") evs
          = map (fun r => Some (VStr (opt_default (recommendationId r) "")))
                (filter (converts L) [r])
       /\ map (float_field "cost.estimatedMonthlySavings") evs
          = map (savings_of L) (filter (converts L) [r])
       /\ Forall (fun ev =>
                    has_field "eventType" (VStr "AwsOptimizationReport") ev
                    /\ has_field "aws.accountId" (VStr acct) ev) evs.
Proof.
  unfold process_recommendation, or_skip, add_saving, count_type, converts,
    savings_of, percentage_of. intros H. cbn [filter].
  destruct (pfloat L (opt_default (estimatedMonthlySavings r) (VInt 0)))
    as [savings|ex|] eqn:Hs;
    [|destruct (_ || _) in H; [|discriminate]|discriminate].
  2: { apply Ret_inj in H. subst t'. split; [reflexivity|].
       split; [reflexivity|]. exists []. rewrite app_nil_r.
       split; [reflexivity|]. split; [reflexivity|]. split; [reflexivity|].
       constructor. }
  destruct (pfloat L (opt_default (estimatedSavingsPercentage r) (VInt 0)))
    as [pct|ex|]; [|destruct (_ || _) in H; [|discriminate]|discriminate].
  2: { apply Ret_inj in H. subst t'. split; [reflexivity|].
       split; [reflexivity|]. exists []. rewrite app_nil_r.
       split; [reflexivity|]. split; [reflexivity|]. split; [reflexivity|].
       constructor. }
  destruct (round_times savings (JPY_EXCHANGE_RATE C)) as [jpy|ex|];
    [|destruct (_ || _) in H; [|discriminate]|discriminate];
    apply Ret_inj in H; subst t'; cbn [tally_events total_savings
                                        recommendations_by_type];
    (split; [reflexivity|]; split; [reflexivity|]; eexists;
     split; [reflexivity|]; split; [reflexivity|];
     split; [cbn [map]; rewrite Hs; reflexivity|];
     repeat constructor).
Qed.

Lemma tally_all_steps (L : Lib) (C : Config) (acct : string)
    (recs : list Recommendation) : forall t t',
  tally_all L C acct t recs = Ret t' ->
  total_savings t' = fold_left (add_saving L) recs (total_savings t)
  /\ recommendations_by_type t'
     = fold_left (count_type L) recs (recommendations_by_type t)
  /\ exists evs,
       tally_events t' = tally_events t ++ evs
       /\ map (fun ev => dict_get ev "aws.recommendationId") evs
          = map (fun r => Some (VStr (opt_default (recommendationId r) "")))
                (filter (converts L) recs)
       /\ map (float_field "cost.estimatedMonthlySavings") evs
          = map (savings_of L) (filter (converts L) recs)
       /\ Forall (fun ev =>
                    has_field "eventType" (VStr "AwsOptimizationReport") ev
                    /\ has_field "aws.accountId" (VStr acct) ev) evs.
Proof.
  induction recs as [|r recs IH]; intros t t' H; cbn [tally_all] in H.
  - apply Ret_inj in H. subst t'. split; [reflexivity|].
    split; [reflexivity|]. exists []. rewrite app_nil_r.
    split; [reflexivity|]. split; [reflexivity|]. split; [reflexivity|].
    constructor.
  - apply rbind_ret in H as (t1 & H1 & H).
    apply process_recommendation_step in H1
      as (Hs1 & Hc1 & evs1 & He1 & Hi1 & Hf1 & Ha1).
    destruct (IH _ _ H) as (Hs & Hc & evs & He & Hi & Hf & Ha).
    cbn [fold_left]. rewrite Hs, Hc, Hs1, Hc1.
    split; [reflexivity|]. split; [reflexivity|].
    exists (evs1 ++ evs). rewrite He, He1, <- app_assoc.
    change (r :: recs) with ([r] ++ recs).
    rewrite filter_app, !map_app.
    split; [reflexivity|].
    split; [f_equal; assumption|]. split; [f_equal; assumption|].
    now apply Forall_app.
Qed.

(** Property X13.
    The totals of the recommendation summary count every record whose
    savings can be read, in source order: the total is their left-to-right
    sum from [0.0] and the counts by type are theirs, whether or not the
    record later yields a detail record. *)
Theorem recommendation_totals_follow_the_savings
    (L : Lib) (C : Config) (E : Env) (fuel : nat) (acct : string)
    (events : list event) :
  outcome (run_recommendation_workflow L C E fuel acct) = Ret events ->
  events <> [] ->
  exists recs summary,
    outcome (fetch_recommendations E fuel acct None []) = Ret recs
    /\ summaries_of events = [summary]
    /\ float_field "cost.totalEstimatedSavings" summary
       = Some (fold_left (add_saving L) recs 0%float)
    /\ dict_get summary "recommendation.countByType"
       = Some (VStr (json_dumps_counts L (fold_left (count_type L) recs []))).
Proof.
  intros H Hne.
  apply run_recommendation_workflow_ret in H as (recs & Hrecs & H).
  apply recommendation_report_shape in H
    as [[_ ->] | (_ & t & summary & Ht & _ & _ & Hsum & _ & _ & Hts & Hcs)];
    [contradiction|].
  apply tally_all_steps in Ht as (Hs & Hc & _).
  exists recs, summary. rewrite Hts, Hcs, Hs, Hc. now repeat split.
Qed.

Lemma recommendation_totals_witness :
  exists summary,
    summaries_of
      (returned (run_recommendation_workflow Sample.lib Sample.config
                   (Paged.env (mkdate 2024 7 15)) 3 Sample.account))
    = [summary]
    /\ float_field "cost.totalEstimatedSavings" summary = Some 15.5%float.
Proof.
  destruct (recommendation_totals_follow_the_savings Sample.lib Sample.config
              (Paged.env (mkdate 2024 7 15)) 3 Sample.account
              (returned (run_recommendation_workflow Sample.lib Sample.config
                           (Paged.env (mkdate 2024 7 15)) 3 Sample.account)))
    as (recs & summary & Hrecs & Hsum & Htotal & _);
    [vm_compute; reflexivity | vm_compute; discriminate |].
  exists summary. split; [exact Hsum|].
  rewrite Htotal. apply Ret_inj in Hrecs. subst recs.
  vm_compute. reflexivity.
Defined.

(** Property X14.
    The detail records of the recommendation report are, in source order,
    those of the records whose two numbers can both be read; each carries
    its record's id and savings, and every record of the report is an
    [AwsOptimizationReport] event of the account. *)
Theorem recommendation_details_follow_the_source
    (L : Lib) (C : Config) (E : Env) (fuel : nat) (acct : string)
    (events : list event) :
  outcome (run_recommendation_workflow L C E fuel acct) = Ret events ->
  exists recs,
    outcome (fetch_recommendations E fuel acct None []) = Ret recs
    /\ map (fun ev => dict_get ev "aws.recommendationId") (details_of events)
       = map (fun r => Some (VStr (opt_default (recommendationId r) "")))
             (filter (converts L) recs)
    /\ map (float_field "cost.estimatedMonthlySavings") (details_of events)
       = map (savings_of L) (filter (converts L) recs)
    /\ Forall (fun ev =>
                 has_field "eventType" (VStr "AwsOptimizationReport") ev
                 /\ has_field "aws.accountId" (VStr acct) ev) events.
Proof.
  intros H.
  apply run_recommendation_workflow_ret in H as (recs & Hrecs & H).
  exists recs. split; [exact Hrecs|].
  pose proof H as Hshape.
  apply recommendation_report_shape in Hshape
    as [[-> ->] | (Hne & t & summary & Ht & Hd & _ & _ & _)];
    [repeat split; constructor|].
  apply recommendation_report_ret in H
    as [[Hnil _] | (_ & t0 & jpy & prompt & summary0 & Ht0 & Hs0 & ->)];
    [contradiction|].
  rewrite Ht0 in Ht. apply Ret_inj in Ht. subst t0.
  apply tally_all_steps in Ht0 as (_ & _ & evs & He & Hi & Hf & Ha).
  cbn [tally_events app] in He. rewrite Hd, He.
  repeat split; try assumption.
  apply Forall_app. split; [assumption|].
  constructor; [|constructor]. unfold has_field.
  rewrite !(enrich_keeps _ _ _ _ _ _ _ _ Hs0) by reflexivity.
  split; reflexivity.
Qed.

Lemma recommendation_details_witness :
  map (fun ev => dict_get ev "aws.recommendationId")
      (details_of
         (returned (run_recommendation_workflow Sample.lib Sample.config
                      (Sample.env (mkdate 2024 7 15) []
                         [Sample.ebs_rec (VStr "12.5") (VInt 40);
                          Sample.ebs_rec (VStr "n/a") (VInt 10);
                          Sample.ebs_rec (VInt 3) (VInt 10)] "") 3
                      Sample.account)))
  = [Some (VStr "rec-1"); Some (VStr "rec-1")].
Proof.
  destruct (recommendation_details_follow_the_source Sample.lib Sample.config
              (Sample.env (mkdate 2024 7 15) []
                 [Sample.ebs_rec (VStr "12.5") (VInt 40);
                  Sample.ebs_rec (VStr "n/a") (VInt 10);
                  Sample.ebs_rec (VInt 3) (VInt 10)] "") 3 Sample.account
              (returned (run_recommendation_workflow Sample.lib Sample.config
                           (Sample.env (mkdate 2024 7 15) []
                              [Sample.ebs_rec (VStr "12.5") (VInt 40);
                               Sample.ebs_rec (VStr "n/a") (VInt 10);
                               Sample.ebs_rec (VInt 3) (VInt 10)] "") 3
                           Sample.account)))
    as (recs & Hrecs & Hid & _); [vm_compute; reflexivity|].
  rewrite Hid. apply Ret_inj in Hrecs. subst recs. vm_compute. reflexivity.
Defined.

(** ** The enrichment *)

Lemma dict_get_set (d : event) (k0 k : string) (v0 : pyval) :
  dict_get (dict_set d k0 v0) k
  = if String.eqb k0 k then Some v0 else dict_get d k.
Proof.
  destruct (String.eqb_spec k0 k) as [->|Hne].
  - apply dict_get_set_same.
  - apply dict_get_set_other. now apply String.eqb_neq.
Qed.

Lemma dict_get_snoc (l : dict pyval) (k0 k : string) (v0 : pyval) :
  dict_get (l ++ [(k0, v0)]) k
  = match dict_get l k with
    | Some v => Some v
    | None => if String.eqb k0 k then Some v0 else None
    end.
Proof.
  induction l as [|[k1 v1] l IH]; [reflexivity|].
  cbn [app dict_get]. now destruct (String.eqb k1 k).
Qed.

(** [d.update(kvs)]: the last value given for a key wins, and a key that
    is not given keeps its value. *)
Lemma dict_get_update (kvs : dict pyval) : forall (d : event) (k : string),
  dict_get (dict_update d kvs) k
  = match dict_get (rev kvs) k with
    | Some v => Some v
    | None => dict_get d k
    end.
Proof.
  unfold dict_update. induction kvs as [|[k0 v0] kvs IH]; intros d k;
    [reflexivity|].
  cbn [fold_left rev fst snd]. rewrite IH, dict_get_snoc, dict_get_set.
  destruct (dict_get (rev kvs) k); [reflexivity|].
  now destruct (String.eqb k0 k).
Qed.

Lemma dict_get_analysis_fields (kvs : dict pyval) (k : string) :
  dict_get (rev (analysis_fields kvs)) ("analysis." ++ k)
  = dict_get (rev kvs) k.
Proof.
  unfold analysis_fields. rewrite <- map_rev.
  induction (rev kvs) as [|[k1 v1] l IH]; [reflexivity|].
  cbn [map dict_get fst snd]. now rewrite eqb_append_same, IH.
Qed.

(** Property X15.
    When the model's answer parses to an object, the summary gets one
    field [analysis.<key>] per key of the object, holding the key's value
    (the last one, should a key occur twice); a field [analysis.<key>]
    whose key the object lacks, and every other field, stays as it was. *)
Theorem enrichment_merges_the_answer
    (L : Lib) (C : Config) (E : Env) (summary : event) (n : Z)
    (prompt : string) (kvs : dict pyval) :
  outcome (bedrock_analysis L C E n prompt) = Ret kvs ->
  exists summary',
    outcome (enrich L C E summary n prompt) = Ret summary'
    /\ (forall k,
          dict_get summary' ("analysis." ++ k)
          = match dict_get (rev kvs) k with
            | Some v => Some v
            | None => dict_get summary ("analysis." ++ k)
            end)
    /\ (forall k, is_analysis_key k = false ->
                  dict_get summary' k = dict_get summary k).
Proof.
  intros H. pose proof (enrich_on_success L C E summary n prompt kvs H) as Hs.
  eexists. split; [exact Hs|]. split.
  - intros k. now rewrite dict_get_update, dict_get_analysis_fields.
  - intros k Hk. exact (enrich_keeps L C E summary _ n prompt k Hs Hk).
Qed.

Lemma enrichment_merges_witness :
  exists summary',
    outcome (enrich Sample.lib Sample.config
               (Sample.env (mkdate 2024 7 15) [] [] Sample.x1_escaped)
               [("eventType", VStr "AwsCostReport")] 1024 "prompt")
    = Ret summary'
    /\ dict_get summary' "analysis.x" = Some (VInt 1)
    /\ dict_get summary' "eventType" = Some (VStr "AwsCostReport").
Proof.
  destruct (enrichment_merges_the_answer Sample.lib Sample.config
              (Sample.env (mkdate 2024 7 15) [] [] Sample.x1_escaped)
              [("eventType", VStr "AwsCostReport")] 1024 "prompt"
              [("x", VInt 1)])
    as (summary' & Hs & Ha & Hk); [vm_compute; reflexivity|].
  exists summary'. split; [exact Hs|]. split.
  - exact (Ha "x").
  - exact (Hk "eventType" eq_refl).
Defined.

Lemma find_from_none (c : ascii) (s : string) : forall i,
  occurs c s = false -> find_from c s i = -1.
Proof.
  induction s as [|a s IH]; intros i H; [reflexivity|].
  cbn [occurs] in H. apply orb_false_iff in H as [Ha Hs].
  cbn [find_from]. rewrite Ha. now apply IH.
Qed.

Lemma length_substring (s : string) : forall a l,
  (String.length (substring a l s) <= String.length s - a)%nat.
Proof.
  induction s as [|c s IH]; intros a l.
  - destruct a, l; cbn; lia.
  - destruct a as [|a].
    + destruct l as [|l]; cbn [substring String.length]; [lia|].
      specialize (IH 0%nat l). lia.
    + cbn [substring String.length]. specialize (IH a l). lia.
Qed.

(** Without an opening brace the slice handed to the parser is at most
    one character long. *)
Lemma extract_json_without_brace (text : string) :
  occurs "{" text = false -> (String.length (extract_json text) <= 1)%nat.
Proof.
  intros H. unfold extract_json, py_find, py_slice.
  rewrite (find_from_none _ _ 0 H). cbv zeta.
  set (n := Z.of_nat (String.length text)).
  assert (slice_bound n (-1) = Z.max 0 (-1 + n)) as Ha by reflexivity.
  rewrite Ha. destruct (_ <? _); [|cbn; lia].
  match goal with
  | |- (String.length (substring ?a ?l text) <= 1)%nat =>
      pose proof (length_substring text a l) as Hl
  end.
  subst n. lia.
Qed.

(** Property X16.
    A model answer without an opening brace never yields analysis fields:
    given that the parser finds no object in a text of at most one
    character, the summary gets [analysis.error]. *)
Theorem answer_without_brace_is_an_error
    (L : Lib) (C : Config) (E : Env) (summary : event) (n : Z)
    (prompt text : string) :
  model_text L C E n prompt = Ret text ->
  occurs "{" text = false ->
  (forall s kvs, (String.length s <= 1)%nat ->
                 json_loads L s <> Ok (VDict kvs)) ->
  exists msg,
    outcome (enrich L C E summary n prompt)
    = Ret (dict_set summary "analysis.error" (VStr msg)).
Proof.
  intros Ht Hb Hj.
  pose proof (extract_json_without_brace text Hb) as Hl.
  pose proof (bedrock_analysis_outcome L C E n prompt) as Ho.
  rewrite Ht in Ho. cbn [rbind] in Ho.
  destruct (json_loads L (extract_json text)) as [v|ex] eqn:Hv.
  - destruct v; try (exists (exn_msg (mkexn AttributeError
                                "object has no attribute 'items'"));
                     now apply enrich_on_failure).
    now destruct (Hj _ d Hl).
  - exists (exn_msg ex). now apply enrich_on_failure.
Qed.

Lemma answer_without_brace_witness :
  exists msg,
    outcome (enrich Sample.lib Sample.config
               (Sample.env (mkdate 2024 7 15) [] [] "no figures today}")
               [("eventType", VStr "AwsCostReport")] 1024 "prompt")
    = Ret [("eventType", VStr "AwsCostReport");
           ("analysis.error", VStr msg)].
Proof.
  apply (answer_without_brace_is_an_error Sample.lib Sample.config
           (Sample.env (mkdate 2024 7 15) [] [] "no figures today}")
           [("eventType", VStr "AwsCostReport")] 1024 "prompt"
           "no figures today}").
  - vm_compute. reflexivity.
  - reflexivity.
  - intros s kvs Hs.
    destruct s as [|a [|b s]]; [| |cbn in Hs; lia].
    + discriminate.
    + destruct a as [[] [] [] [] [] [] [] []]; vm_compute; discriminate.
Defined.

(** ** The handler *)

(** Property X17.
    The handler answers 500 exactly when the licence key or the account id
    is missing or empty, and then it calls nothing: no AWS service and no
    endpoint. *)
Theorem handler_answers_500_iff_unconfigured
    (L : Lib) (C : Config) (E : Env) (fuel : nat) (arn : string) :
  let run := lambda_handler L C E fuel arn in
  (configured C = false ->
   run = ([], Ret (mkHandlerResult 500 "Missing New Relic configuration.")))
  /\ (forall r, outcome run = Ret r ->
        (statusCode r = 500 <-> configured C = false)
        /\ (statusCode r = 200 <-> configured C = true)).
Proof.
  intros run. subst run. unfold configured, lambda_handler.
  destruct (truthy (NEW_RELIC_LICENSE_KEY C)),
    (truthy (NEW_RELIC_ACCOUNT_ID C)); cbn [negb orb andb];
    try (split; [reflexivity|]; intros r Hr; apply Ret_inj in Hr; subst r;
         cbn; split; split; intros; try reflexivity; discriminate).
  split; [discriminate|]. intros r Hr.
  apply outcome_mbind_ret in Hr as (acct & _ & Hr).
  apply outcome_mbind_ret in Hr as (cost_events & _ & Hr).
  apply outcome_mbind_ret in Hr as (rec_events & _ & Hr).
  apply outcome_mbind_ret in Hr as (u & _ & Hr).
  apply Ret_inj in Hr. subst r. cbn.
  split; split; intros; try reflexivity; discriminate.
Qed.

(** Property X18.
    A configured handler whose invoked ARN has fewer than five fields
    between colons raises [IndexError] before calling anything. *)
Theorem handler_needs_account_in_arn
    (L : Lib) (C : Config) (E : Env) (fuel : nat) (arn : string) :
  configured C = true ->
  (List.length (py_split ":" arn) < 5)%nat ->
  lambda_handler L C E fuel arn
  = ([], Raise (mkexn IndexError "list index out of range")).
Proof.
  unfold configured. intros Hc Hl.
  apply andb_true_iff in Hc as [Hkey Hid].
  assert (nth_error (py_split ":" arn) 4 = None) as Hn
    by (apply nth_error_None; lia).
  unfold lambda_handler. rewrite Hkey, Hid, Hn. reflexivity.
Qed.

Lemma handler_needs_account_witness :
  lambda_handler Sample.lib Sample.config
    (Sample.env (mkdate 2024 7 15) [Sample.ec2_group] [] "") 3
    "cost-report"
  = ([], Raise (mkexn IndexError "list index out of range")).
Proof.
  apply handler_needs_account_in_arn.
  - reflexivity.
  - cbn. lia.
Defined.

(** Property X19.
    When neither workflow yields a record (each returned none or raised),
    a configured handler posts nothing, opens no connection, and answers
    200 with a count of zero. *)
Theorem handler_posts_nothing_without_records
    (L : Lib) (C : Config) (E : Env) (fuel : nat) (arn acct : string) :
  let cost := run_cost_explorer_workflow L C E fuel acct in
  let recs := run_recommendation_workflow L C E fuel acct in
  let run := lambda_handler L C E fuel arn in
  configured C = true ->
  nth_error (py_split ":" arn) 4 = Some acct ->
  contribution cost = Some [] -> contribution recs = Some [] ->
  trace run = trace cost ++ trace recs
  /\ forallb is_aws_call (trace run) = true
  /\ count_posts (trace run) = 0%nat
  /\ outcome run = Ret (mkHandlerResult 200 (completion_body 0)).
Proof.
  intros cost recs run Hc Harn Hcost Hrecs. subst cost recs run.
  unfold configured in Hc.
  apply andb_true_iff in Hc as [Hkey Hid].
  destruct (lambda_handler_runs L C E fuel arn acct [] [] Hkey Hid Harn
              Hcost Hrecs) as [Ht Ho].
  cbn [app] in Ht, Ho. rewrite send_to_new_relic_nothing in Ht, Ho.
  change (trace (@nil call, Ret tt)) with (@nil call) in Ht.
  change (outcome (@nil call, Ret tt)) with (Ret tt) in Ho.
  cbn [handler_outcome List.length] in Ho. rewrite app_nil_r in Ht.
  assert (forallb is_aws_call (trace (lambda_handler L C E fuel arn)) = true)
    as Haws.
  { rewrite Ht, forallb_app.
    destruct (workflow_calls is_aws_call L C E fuel acct) as [H1 H2];
      try reflexivity.
    unfold all_calls in H1, H2.
    now rewrite H1, H2. }
  repeat split; try assumption. now apply no_posts.
Qed.

Lemma handler_posts_nothing_witness :
  lambda_handler Sample.lib Sample.config
    (mkEnv (mkdate 2024 7 15) Sample.access_denied Sample.no_forecast
       (Sample.recs_page []) (Sample.model_says "") (Sample.always 202)
       Sample.half) 3 Sample.arn
  = ([CallGetCostAndUsage
        (cost_request Sample.config "2024-07-01" "2024-07-15" None);
      CallListRecommendations Sample.account None],
     Ret (mkHandlerResult 200 (completion_body 0))).
Proof.
  set (E := mkEnv _ _ _ _ _ _ _).
  destruct (handler_posts_nothing_without_records Sample.lib Sample.config E
              3 Sample.arn Sample.account)
    as (Ht & _ & _ & Ho);
    [reflexivity | reflexivity | reflexivity | reflexivity |].
  rewrite (surjective_pairing (lambda_handler _ _ _ _ _)).
  unfold trace in Ht. unfold outcome in Ho. rewrite Ht, Ho. reflexivity.
Defined.






